(** * Alumni Connect backend: a shallow embedding of [app.py]

    The Flask application keeps seven in-memory lists of dictionaries
    ([users], [alumni], [events], [jobs], [donations], [posts],
    [messages]) and exposes one handler per route.  Each handler is
    embedded as a function from the request (method, decoded JSON body,
    query arguments, clock readings) and the collection it works on to
    the new collection and the HTTP response.

    Python values are embedded as follows.
    - JSON values decoded by [request.get_json()] are the inductive
      [JSON]; Python's [int] is [Z], Python's [float] is IEEE binary64,
      given by [spec_float] at precision 53 and maximal exponent 1024.
    - A [dict] is an association list in insertion order; [dict_set]
      overwrites in place or appends, as Python's item assignment does.
    - Strings are sequences of characters with codes below 256 (the
      Latin-1 range of Unicode); [str.lower] and the white space that
      [float] strips are those of Unicode on that range.
    - A raised exception is the [Raise] branch of [result]; the
      [try ... except Exception] of a handler turns it into a 500.

    The handlers that write to a collection are all embedded, with the
    reads by id and the lists of events, jobs, donations, posts and
    messages.  The alumni list, which needs [str] of an arbitrary
    value, the [token_required] decorator, which no route uses, the
    banner and the health check are left out. *)

From Stdlib Require Import ZArith List String Ascii Bool Lia.
From Stdlib Require Import Sorted Permutation OrdersEx RelationClasses.
From Stdlib Require Import Floats.SpecFloat.
Import ListNotations.

Set Warnings "-register-all".

Local Open Scope string_scope.
Local Open Scope Z_scope.

(** ** Python values *)

Module Py.

Inductive JSON : Type :=
| JNull
| JBool (b : bool)
| JInt (n : Z)
| JFloat (f : spec_float)
| JStr (s : string)
| JList (l : list JSON)
| JObj (o : list (string * JSON)).

Definition dict : Type := list (string * JSON).

Inductive exn : Type :=
| TypeError
| AttributeError
| KeyError
| ValueError
| OverflowError.

Inductive result (A : Type) : Type :=
| Ok (a : A)
| Raise (e : exn).

Arguments Ok {A} a.
Arguments Raise {A} e.

Definition bind {A B : Type} (m : result A) (k : A -> result B) : result B :=
  match m with
  | Ok a => k a
  | Raise e => Raise e
  end.

Notation "x <- m ;; k" := (bind m (fun x => k))
  (at level 61, m at next level, right associativity).

(** The name of the exception class stands for [str(e)] in the
    [details] field of a 500 response; the interpreter's message text
    is not modelled. *)
Definition str_exn (e : exn) : string :=
  match e with
  | TypeError => "TypeError"
  | AttributeError => "AttributeError"
  | KeyError => "KeyError"
  | ValueError => "ValueError"
  | OverflowError => "OverflowError"
  end.

(** *** binary64 *)

Definition prec : Z := 53.
Definition emax : Z := 1024.

Definition float_is_zero (f : spec_float) : bool :=
  match f with
  | S754_zero _ => true
  | _ => false
  end.

Definition float_zero : spec_float := S754_zero false.

(** [float(n)] for a Python [int]: rounded to nearest even,
    [OverflowError] when the result is not finite. *)
Definition float_of_int (n : Z) : result spec_float :=
  match binary_normalize prec emax n 0 false with
  | S754_infinity _ => Raise OverflowError
  | f => Ok f
  end.

(** The correctly rounded binary64 nearest to [(-1)^neg * m * 10^e]. *)
Definition float_of_decimal (neg : bool) (m : Z) (e : Z) : spec_float :=
  match m with
  | Zpos _ =>
      if 0 <=? e then
        binary_normalize prec emax (cond_Zopp neg (m * 10 ^ e)) 0 neg
      else
        let '(q, e', l) := SFdiv_core_binary prec emax m 0 (10 ^ (- e)) 0 in
        binary_round_aux prec emax neg q e' l
  | _ => S754_zero neg
  end.

(** *** Truth value, [bool(v)] *)

Definition truthy (v : JSON) : bool :=
  match v with
  | JNull => false
  | JBool b => b
  | JInt n => negb (n =? 0)
  | JFloat f => negb (float_is_zero f)
  | JStr s => negb (String.eqb s "")
  | JList l => match l with [] => false | _ :: _ => true end
  | JObj o => match o with [] => false | _ :: _ => true end
  end.

(** *** Dictionaries *)

Fixpoint dict_get (k : string) (d : dict) : option JSON :=
  match d with
  | [] => None
  | (k', v) :: d' => if String.eqb k' k then Some v else dict_get k d'
  end.

(** [d[k] = v] *)
Fixpoint dict_set (k : string) (v : JSON) (d : dict) : dict :=
  match d with
  | [] => [(k, v)]
  | (k', v') :: d' =>
      if String.eqb k' k then (k, v) :: d' else (k', v') :: dict_set k v d'
  end.

(** [d.get(k, default)] *)
Definition get_or (k : string) (default : JSON) (d : dict) : JSON :=
  match dict_get k d with
  | Some v => v
  | None => default
  end.

(** [d.get(k)], where a missing key gives [None] *)
Definition get (k : string) (d : dict) : JSON := get_or k JNull d.

(** [d[k]] *)
Definition getitem (k : string) (d : dict) : result JSON :=
  match dict_get k d with
  | Some v => Ok v
  | None => Raise KeyError
  end.

(** [k in d] *)
Definition has_key (k : string) (d : dict) : bool :=
  match dict_get k d with
  | Some _ => true
  | None => false
  end.

(** [{k: v for k, v in d.items() if k != key}] *)
Definition without_key (key : string) (d : dict) : dict :=
  filter (fun kv => negb (String.eqb (fst kv) key)) d.

(** *** Equality, [a == b] *)

Inductive num : Type :=
| NInt (n : Z)
| NFloat (f : spec_float).

Definition as_num (v : JSON) : option num :=
  match v with
  | JBool b => Some (NInt (if b then 1 else 0))
  | JInt n => Some (NInt n)
  | JFloat f => Some (NFloat f)
  | _ => None
  end.

(** Python compares an [int] with a [float] by value, exactly. *)
Definition float_eq_int (f : spec_float) (n : Z) : bool :=
  match f with
  | S754_zero _ => n =? 0
  | S754_finite s m e =>
      if 0 <=? e then n =? cond_Zopp s (Zpos m * 2 ^ e)
      else n * 2 ^ (- e) =? cond_Zopp s (Zpos m)
  | _ => false
  end.

Definition num_eq (a b : num) : bool :=
  match a, b with
  | NInt x, NInt y => x =? y
  | NInt x, NFloat g => float_eq_int g x
  | NFloat f, NInt y => float_eq_int f y
  | NFloat f, NFloat g => SFeqb f g
  end.

Fixpoint py_eq (a b : JSON) {struct a} : bool :=
  match a, b with
  | JNull, JNull => true
  | JStr s, JStr t => String.eqb s t
  | JList l, JList l' =>
      (fix go (l l' : list JSON) {struct l} : bool :=
         match l, l' with
         | [], [] => true
         | x :: xs, y :: ys => py_eq x y && go xs ys
         | _, _ => false
         end) l l'
  | JObj o, JObj o' =>
      Nat.eqb (List.length o) (List.length o') &&
      (fix go (o : list (string * JSON)) {struct o} : bool :=
         match o with
         | [] => true
         | (k, v) :: r =>
             match dict_get k o' with
             | Some w => py_eq v w
             | None => false
             end && go r
         end) o
  | _, _ =>
      match as_num a, as_num b with
      | Some x, Some y => num_eq x y
      | _, _ => false
      end
  end.

(** *** Strings *)

Definition in_range (lo hi c : ascii) : bool :=
  (nat_of_ascii lo <=? nat_of_ascii c)%nat && (nat_of_ascii c <=? nat_of_ascii hi)%nat.

(** The lower-case mapping of Unicode on the codes below 256: the
    letters [A] to [Z] and the capital letters U+00C0 to U+00DE, the
    multiplication sign U+00D7 apart, move up by 32; every other
    character, the micro sign, the sharp s and the ordinal indicators
    included, is left as it is. *)
Definition is_upper (c : ascii) : bool :=
  in_range "A"%char "Z"%char c ||
  in_range (ascii_of_nat 192) (ascii_of_nat 222) c &&
  negb (Ascii.eqb c (ascii_of_nat 215)).

Definition lower_char (c : ascii) : ascii :=
  if is_upper c then ascii_of_nat (nat_of_ascii c + 32) else c.

(** [s.lower()] *)
Fixpoint lower (s : string) : string :=
  match s with
  | EmptyString => EmptyString
  | String c r => String (lower_char c) (lower r)
  end.

(** [v.lower()] on a decoded value: only [str] has the method. *)
Definition py_lower (v : JSON) : result string :=
  match v with
  | JStr s => Ok (lower s)
  | _ => Raise AttributeError
  end.

(** [len(v)] *)
Definition py_len (v : JSON) : result Z :=
  match v with
  | JStr s => Ok (Z.of_nat (String.length s))
  | JList l => Ok (Z.of_nat (List.length l))
  | JObj o => Ok (Z.of_nat (List.length o))
  | _ => Raise TypeError
  end.

(** [a < b] on [str]: lexicographic on character codes. *)
Definition str_ltb (a b : string) : bool :=
  match String_as_OT.compare a b with
  | Lt => true
  | _ => false
  end.

(** *** [float(v)]

    A string is stripped of white space and read by the grammar of
    the language reference: an optional sign, then [inf], [infinity]
    or [nan] in any letter case, or a decimal number whose groups of
    digits may be separated by single underscores, with an optional
    exponent.  The value is rounded correctly to binary64.

    The white space that [float] strips is the ASCII one (codes 9 to
    13 and the space) and, of the codes from 128 on, the Unicode white
    space, which [float] first turns into spaces: the next-line
    control U+0085 and the no-break space U+00A0.  The separators
    U+001C to U+001F, white space for [str.isspace], are below 128 and
    are not stripped. *)

Definition is_digit (c : ascii) : bool := in_range "0"%char "9"%char c.

Definition digit_val (c : ascii) : Z := Z.of_nat (nat_of_ascii c) - 48.

Definition is_space (c : ascii) : bool :=
  in_range (ascii_of_nat 9) (ascii_of_nat 13) c || Ascii.eqb c " "%char ||
  Ascii.eqb c (ascii_of_nat 133) || Ascii.eqb c (ascii_of_nat 160).

Fixpoint lstrip (s : list ascii) : list ascii :=
  match s with
  | c :: r => if is_space c then lstrip r else s
  | [] => []
  end.

Definition strip (s : list ascii) : list ascii :=
  rev (lstrip (rev (lstrip s))).

(** The digits after the first one of a group: value so far, number of
    digits read, and the rest of the input. *)
Fixpoint digits_tail (s : list ascii) (acc n : Z) {struct s}
  : Z * Z * list ascii :=
  match s with
  | c :: r =>
      if is_digit c then digits_tail r (10 * acc + digit_val c) (n + 1)
      else if Ascii.eqb c "_"%char then
        match r with
        | d :: r' =>
            if is_digit d
            then digits_tail r' (10 * acc + digit_val d) (n + 1)
            else (acc, n, s)
        | [] => (acc, n, s)
        end
      else (acc, n, s)
  | [] => (acc, n, [])
  end.

Definition digitpart (acc : Z) (s : list ascii)
  : option (Z * Z * list ascii) :=
  match s with
  | c :: r =>
      if is_digit c then Some (digits_tail r (10 * acc + digit_val c) 1)
      else None
  | [] => None
  end.

(** [[digitpart] "." digitpart | digitpart ["."]]: all the digits read
    as one integer, the number of digits after the point, the rest. *)
Definition number (s : list ascii) : option (Z * Z * list ascii) :=
  match digitpart 0 s with
  | Some (ip, _, r1) =>
      match r1 with
      | c :: r2 =>
          if Ascii.eqb c "."%char then
            match digitpart ip r2 with
            | Some t => Some t
            | None => Some (ip, 0, r2)
            end
          else Some (ip, 0, r1)
      | [] => Some (ip, 0, r1)
      end
  | None =>
      match s with
      | c :: r2 => if Ascii.eqb c "."%char then digitpart 0 r2 else None
      | [] => None
      end
  end.

Definition sign (s : list ascii) : bool * list ascii :=
  match s with
  | c :: r =>
      if Ascii.eqb c "-"%char then (true, r)
      else if Ascii.eqb c "+"%char then (false, r)
      else (false, s)
  | [] => (false, s)
  end.

(** The optional exponent, which must end the input. *)
Definition exponent (s : list ascii) : option Z :=
  match s with
  | [] => Some 0
  | c :: r =>
      if Ascii.eqb (lower_char c) "e"%char then
        let (neg, r') := sign r in
        match digitpart 0 r' with
        | Some (x, _, []) => Some (cond_Zopp neg x)
        | _ => None
        end
      else None
  end.

Definition float_of_string (s : string) : option spec_float :=
  let (neg, body) := sign (strip (list_ascii_of_string s)) in
  let w := lower (string_of_list_ascii body) in
  if String.eqb w "inf" || String.eqb w "infinity" then
    Some (S754_infinity neg)
  else if String.eqb w "nan" then Some S754_nan
  else
    match number body with
    | Some (m, nfrac, r) =>
        match exponent r with
        | Some x => Some (float_of_decimal neg m (x - nfrac))
        | None => None
        end
    | None => None
    end.

Definition py_float (v : JSON) : result spec_float :=
  match v with
  | JStr s =>
      match float_of_string s with
      | Some f => Ok f
      | None => Raise ValueError
      end
  | JInt n => float_of_int n
  | JBool b => float_of_int (if b then 1 else 0)
  | JFloat f => Ok f
  | _ => Raise TypeError
  end.

(** [a + b] on numbers, as [sum] uses it. *)
Definition py_add (a b : JSON) : result JSON :=
  match as_num a, as_num b with
  | Some (NInt x), Some (NInt y) => Ok (JInt (x + y))
  | Some (NInt x), Some (NFloat g) =>
      f <- float_of_int x ;; Ok (JFloat (SFadd prec emax f g))
  | Some (NFloat f), Some (NInt y) =>
      g <- float_of_int y ;; Ok (JFloat (SFadd prec emax f g))
  | Some (NFloat f), Some (NFloat g) => Ok (JFloat (SFadd prec emax f g))
  | _, _ => Raise TypeError
  end.

(** [p in s] on [str] *)
Fixpoint is_substring (p s : string) : bool :=
  String.prefix p s ||
  match s with
  | EmptyString => false
  | String _ r => is_substring p r
  end.

(** [k in v] for a string [k] *)
Definition py_contains (k : string) (v : JSON) : result bool :=
  match v with
  | JObj o => Ok (has_key k o)
  | JList l => Ok (existsb (py_eq (JStr k)) l)
  | JStr s => Ok (is_substring k s)
  | _ => Raise TypeError
  end.

(** [v[k]] for a string [k] *)
Definition py_getitem (k : string) (v : JSON) : result JSON :=
  match v with
  | JObj o => getitem k o
  | _ => Raise TypeError
  end.

(** [v.get], [v.items]: only [dict] has the methods. *)
Definition as_dict (v : JSON) : result dict :=
  match v with
  | JObj o => Ok o
  | _ => Raise AttributeError
  end.

(** [len(l) + 1] *)
Definition next_id (l : list dict) : Z := Z.of_nat (List.length l) + 1.

(** [l[i] = x], for [i] in range *)
Fixpoint set_nth (i : nat) (x : dict) (l : list dict) : list dict :=
  match l, i with
  | [], _ => []
  | _ :: r, O => x :: r
  | y :: r, S j => y :: set_nth j x r
  end.

(** [del l[i]], for [i] in range *)
Fixpoint remove_nth (i : nat) (l : list dict) : list dict :=
  match l, i with
  | [], _ => []
  | _ :: r, O => r
  | y :: r, S j => y :: remove_nth j r
  end.

(** [sorted(l, key=lambda x: x[k], reverse=True)] for [str] keys.  The
    sort is stable, which fixes its result; it is written here as an
    insertion sort that keeps equal keys in their order. *)
Fixpoint insert_desc (x : string * dict) (l : list (string * dict))
  : list (string * dict) :=
  match l with
  | [] => [x]
  | y :: r =>
      if str_ltb (fst x) (fst y) then y :: insert_desc x r
      else x :: y :: r
  end.

Fixpoint sort_desc (l : list (string * dict)) : list (string * dict) :=
  match l with
  | [] => []
  | x :: r => insert_desc x (sort_desc r)
  end.

(** *** Regular expressions, for [re.match] *)

Inductive regex : Type :=
| RNone
| REps
| RChar (p : ascii -> bool)
| RCat (r s : regex)
| RAlt (r s : regex)
| RStar (r : regex).

Fixpoint nullable (r : regex) : bool :=
  match r with
  | RNone => false
  | REps => true
  | RChar _ => false
  | RCat r s => nullable r && nullable s
  | RAlt r s => nullable r || nullable s
  | RStar _ => true
  end.

Fixpoint deriv (c : ascii) (r : regex) : regex :=
  match r with
  | RNone => RNone
  | REps => RNone
  | RChar p => if p c then REps else RNone
  | RCat r s =>
      if nullable r then RAlt (RCat (deriv c r) s) (deriv c s)
      else RCat (deriv c r) s
  | RAlt r s => RAlt (deriv c r) (deriv c s)
  | RStar r => RCat (deriv c r) (RStar r)
  end.

(** [r] matches the whole of [s]. *)
Fixpoint full_match (r : regex) (s : string) : bool :=
  match s with
  | EmptyString => nullable r
  | String c s' => full_match (deriv c r) s'
  end.

Definition RPlus (r : regex) : regex := RCat r (RStar r).

Fixpoint drop_last (s : string) : string :=
  match s with
  | EmptyString => EmptyString
  | String c EmptyString => EmptyString
  | String c r => String c (drop_last r)
  end.

Fixpoint last_char (s : string) : option ascii :=
  match s with
  | EmptyString => None
  | String c EmptyString => Some c
  | String _ r => last_char r
  end.

(** [re.match('^' r '$', s) is not None]: [$] stands at the end of the
    string and also just before a line feed that ends the string. *)
Definition re_match_anchored (r : regex) (s : string) : bool :=
  full_match r s ||
  match last_char s with
  | Some c => Ascii.eqb c (ascii_of_nat 10) && full_match r (drop_last s)
  | None => false
  end.

End Py.

(** ** The application *)

Module App.
Import Py.

Record Response : Type := { body : JSON; status : Z }.

(** [jsonify({...}), code] *)
Definition jsonify (o : dict) (code : Z) : Response :=
  {| body := JObj o; status := code |}.

Definition error (msg : string) (code : Z) : Response :=
  jsonify [("error", JStr msg)] code.

(** The [except Exception as e] clause that ends every handler. *)
Definition failure (msg : string) (e : exn) : Response :=
  jsonify [("error", JStr msg); ("details", JStr (str_exn e))] 500.

Definition catch (msg : string) (coll : list dict)
    (m : result (list dict * Response)) : list dict * Response :=
  match m with
  | Ok r => r
  | Raise e => (coll, failure msg e)
  end.

(** *** Helper functions *)

Definition email_local (c : ascii) : bool :=
  in_range "a"%char "z"%char c || in_range "A"%char "Z"%char c ||
  in_range "0"%char "9"%char c ||
  Ascii.eqb c "."%char || Ascii.eqb c "_"%char || Ascii.eqb c "%"%char ||
  Ascii.eqb c "+"%char || Ascii.eqb c "-"%char.

Definition email_domain (c : ascii) : bool :=
  in_range "a"%char "z"%char c || in_range "A"%char "Z"%char c ||
  in_range "0"%char "9"%char c ||
  Ascii.eqb c "."%char || Ascii.eqb c "-"%char.

Definition email_alpha (c : ascii) : bool :=
  in_range "a"%char "z"%char c || in_range "A"%char "Z"%char c.

(** [[a-zA-Z0-9._%+-]+@[a-zA-Z0-9.-]+\.[a-zA-Z]{2,}] *)
Definition email_pattern : regex :=
  RCat (RPlus (RChar email_local))
    (RCat (RChar (Ascii.eqb "@"%char))
       (RCat (RPlus (RChar email_domain))
          (RCat (RChar (Ascii.eqb "."%char))
             (RCat (RChar email_alpha)
                (RCat (RChar email_alpha) (RStar (RChar email_alpha))))))).

Definition validate_email (email : JSON) : result bool :=
  match email with
  | JStr s => Ok (re_match_anchored email_pattern s)
  | _ => Raise TypeError
  end.

(** [next((d for d in l if d[key] == v), None)], with the position of
    the record found. *)
Fixpoint lookup_by (key : string) (v : JSON) (l : list dict)
  : result (option (nat * dict)) :=
  match l with
  | [] => Ok None
  | d :: r =>
      x <- getitem key d ;;
      if py_eq x v then Ok (Some (O, d))
      else
        o <- lookup_by key v r ;;
        Ok (option_map (fun p => (S (fst p), snd p)) o)
  end.

Definition find_user_by_email (email : JSON) (users : list dict)
  : result (option dict) :=
  o <- lookup_by "email" email users ;; Ok (option_map snd o).

(** The truth value of what [next(..., None)] gave. *)
Definition found (o : option dict) : bool :=
  match o with
  | Some d => truthy (JObj d)
  | None => false
  end.

(** The loop over [required_fields]. *)
Fixpoint first_missing (fields : list string) (data : dict) : option string :=
  match fields with
  | [] => None
  | f :: r => if truthy (get f data) then first_missing r data else Some f
  end.

(** The opening of every POST handler: the body must be truthy, and
    every required field must be bound to a truthy value. *)
Definition with_required (fields : list string) (data : JSON)
    (coll : list dict) (k : dict -> result (list dict * Response))
  : result (list dict * Response) :=
  if negb (truthy data) then Ok (coll, error "Request body is required" 400)
  else
    d <- as_dict data ;;
    match first_missing fields d with
    | Some f => Ok (coll, error (f ++ " is required") 400)
    | None => k d
    end.

(** *** Authentication system *)

Section Auth.

(** [jwt.encode(claims, SECRET_KEY, algorithm='HS256')], which gives a
    [str]; the signature scheme is left open. *)
Variable jwt_encode : dict -> string.

(** The token of a user; [utcnow] is [datetime.utcnow()] in seconds and
    the expiry lies 30 days after it. *)
Definition issue_token (utcnow : Z) (uid email : JSON) : string :=
  jwt_encode
    [("user_id", uid); ("email", email); ("exp", JInt (utcnow + 30 * 86400))].

(** [POST /api/auth/register]; [now] is [datetime.now().isoformat()]. *)
Definition register (now : string) (utcnow : Z) (data : JSON)
    (users : list dict) : list dict * Response :=
  catch "Registration failed" users
    (with_required ["email"; "password"; "name"] data users (fun d =>
       email <- getitem "email" d ;;
       valid <- validate_email email ;;
       if negb valid then Ok (users, error "Invalid email format" 400)
       else
         password <- getitem "password" d ;;
         n <- py_len password ;;
         if n <? 6 then
           Ok (users, error "Password must be at least 6 characters" 400)
         else
           existing <- find_user_by_email email users ;;
           if found existing then
             Ok (users, error "User with this email already exists" 409)
           else
             lowered <- py_lower email ;;
             name <- getitem "name" d ;;
             let user :=
               [("id", JInt (next_id users));
                ("email", JStr lowered);
                ("password", password);
                ("name", name);
                ("role", get_or "role" (JStr "alumni") d);
                ("created_at", JStr now)] in
             let token := issue_token utcnow (JInt (next_id users)) (JStr lowered) in
             Ok ((users ++ [user])%list,
                 jsonify
                   [("message", JStr "User registered successfully");
                    ("user", JObj (without_key "password" user));
                    ("token", JStr token)] 201))).

(** [POST /api/auth/login] *)
Definition login (utcnow : Z) (data : JSON) (users : list dict)
  : list dict * Response :=
  catch "Login failed" users
    (if negb (truthy data) then
       Ok (users, error "Request body is required" 400)
     else
       d <- as_dict data ;;
       email <- py_lower (get_or "email" (JStr "") d) ;;
       let password := get_or "password" (JStr "") d in
       if negb (truthy (JStr email)) || negb (truthy password) then
         Ok (users, error "Email and password are required" 400)
       else
         o <- find_user_by_email (JStr email) users ;;
         match o with
         | None => Ok (users, error "Invalid email or password" 401)
         | Some user =>
             if negb (truthy (JObj user)) then
               Ok (users, error "Invalid email or password" 401)
             else
               stored <- getitem "password" user ;;
               if negb (py_eq stored password) then
                 Ok (users, error "Invalid email or password" 401)
               else
                 uid <- getitem "id" user ;;
                 uemail <- getitem "email" user ;;
                 Ok (users,
                     jsonify
                       [("message", JStr "Login successful");
                        ("user", JObj (without_key "password" user));
                        ("token", JStr (issue_token utcnow uid uemail))] 200)
         end).

End Auth.

(** *** Records addressed by id: GET, PUT and DELETE

    The four handlers [alumni_detail], [event_detail], [job_detail] and
    [post_detail] have one shape and differ in their texts, in the keys
    the update loop skips, and in the checks [alumni_detail] makes on a
    new email. *)

Inductive Method : Type := GET | PUT | DELETE.

Record Resource : Type := {
  noun : string;
  not_found_msg : string;
  updated_msg : string;
  deleted_msg : string;
  skipped_keys : list string;
  check_update : Z -> JSON -> list dict -> result (option Response)
}.

(** [for key, value in data.items(): if key not in skipped: rec[key] = value] *)
Definition update_fields (skipped : list string) (items : dict) (rec : dict)
  : dict :=
  fold_left
    (fun r kv =>
       if existsb (String.eqb (fst kv)) skipped then r
       else dict_set (fst kv) (snd kv) r)
    items rec.

(** The record found is the first one whose id equals the one asked
    for, at position [i]; it is updated in place, and [l.remove(rec)],
    which removes the first item equal to [rec], removes it at [i],
    since any earlier equal item would carry the same id. *)
Definition detail (R : Resource) (method : Method) (id : Z) (now : string)
    (data : JSON) (coll : list dict) : list dict * Response :=
  catch "Operation failed" coll
    (o <- lookup_by "id" (JInt id) coll ;;
     match o with
     | None => Ok (coll, error (not_found_msg R) 404)
     | Some (i, rec) =>
         if negb (truthy (JObj rec)) then
           Ok (coll, error (not_found_msg R) 404)
         else
           match method with
           | GET => Ok (coll, jsonify [(noun R, JObj rec)] 200)
           | PUT =>
               if negb (truthy data) then
                 Ok (coll, error "Request body is required" 400)
               else
                 stop <- check_update R id data coll ;;
                 match stop with
                 | Some resp => Ok (coll, resp)
                 | None =>
                     items <- as_dict data ;;
                     let rec' :=
                       dict_set "updated_at" (JStr now)
                         (update_fields (skipped_keys R) items rec) in
                     Ok (set_nth i rec' coll,
                         jsonify
                           [("message", JStr (updated_msg R));
                            (noun R, JObj rec')] 200)
                 end
           | DELETE =>
               Ok (remove_nth i coll,
                   jsonify [("message", JStr (deleted_msg R))] 200)
           end
     end).

Definition no_check (_ : Z) (_ : JSON) (_ : list dict)
  : result (option Response) := Ok None.

(** [next((a for a in alumni if a['email'].lower() == email
    and a['id'] != alumni_id), None)] *)
Fixpoint other_with_email (email : string) (id : Z) (l : list dict)
  : result (option dict) :=
  match l with
  | [] => Ok None
  | a :: r =>
      e <- getitem "email" a ;;
      s <- py_lower e ;;
      if String.eqb s email then
        i <- getitem "id" a ;;
        if negb (py_eq i (JInt id)) then Ok (Some a)
        else other_with_email email id r
      else other_with_email email id r
  end.

Definition alumni_check_update (id : Z) (data : JSON) (alumni : list dict)
  : result (option Response) :=
  has <- py_contains "email" data ;;
  if has then
    email <- py_getitem "email" data ;;
    valid <- validate_email email ;;
    if negb valid then Ok (Some (error "Invalid email format" 400))
    else
      lowered <- py_lower email ;;
      existing <- other_with_email lowered id alumni ;;
      if found existing then
        Ok (Some (error "Email already exists for another alumni" 409))
      else Ok None
  else Ok None.

Definition Alumni : Resource :=
  {| noun := "alumni";
     not_found_msg := "Alumni not found";
     updated_msg := "Alumni profile updated successfully";
     deleted_msg := "Alumni profile deleted successfully";
     skipped_keys := ["id"];
     check_update := alumni_check_update |}.

Definition Event : Resource :=
  {| noun := "event";
     not_found_msg := "Event not found";
     updated_msg := "Event updated successfully";
     deleted_msg := "Event deleted successfully";
     skipped_keys := ["id"];
     check_update := no_check |}.

Definition Job : Resource :=
  {| noun := "job";
     not_found_msg := "Job not found";
     updated_msg := "Job updated successfully";
     deleted_msg := "Job deleted successfully";
     skipped_keys := ["id"];
     check_update := no_check |}.

Definition Post : Resource :=
  {| noun := "post";
     not_found_msg := "Post not found";
     updated_msg := "Post updated successfully";
     deleted_msg := "Post deleted successfully";
     skipped_keys := ["id"; "created_at"];
     check_update := no_check |}.

Definition alumni_detail := detail Alumni.
Definition event_detail := detail Event.
Definition job_detail := detail Job.
Definition post_detail := detail Post.

(** *** Collections: POST creates a record

    [t_created] and [t_updated] are the two readings of
    [datetime.now().isoformat()] a handler takes. *)

(** [any(a['email'].lower() == email for a in alumni)] *)
Fixpoint any_email (email : string) (l : list dict) : result bool :=
  match l with
  | [] => Ok false
  | a :: r =>
      e <- getitem "email" a ;;
      s <- py_lower e ;;
      if String.eqb s email then Ok true else any_email email r
  end.

(** [POST /api/alumni] *)
Definition alumni_create (t_created t_updated : string) (data : JSON)
    (alumni : list dict) : list dict * Response :=
  catch "Failed to create alumni profile" alumni
    (with_required ["name"; "email"; "batch"; "department"] data alumni
       (fun d =>
          email <- getitem "email" d ;;
          valid <- validate_email email ;;
          if negb valid then Ok (alumni, error "Invalid email format" 400)
          else
            lowered <- py_lower email ;;
            dup <- any_email lowered alumni ;;
            if dup then
              Ok (alumni, error "Alumni with this email already exists" 409)
            else
              name <- getitem "name" d ;;
              batch <- getitem "batch" d ;;
              department <- getitem "department" d ;;
              let alumni_data :=
                [("id", JInt (next_id alumni));
                 ("name", name);
                 ("email", JStr lowered);
                 ("batch", batch);
                 ("department", department);
                 ("phone", get_or "phone" (JStr "") d);
                 ("current_company", get_or "current_company" (JStr "") d);
                 ("current_position", get_or "current_position" (JStr "") d);
                 ("location", get_or "location" (JStr "") d);
                 ("bio", get_or "bio" (JStr "") d);
                 ("linkedin", get_or "linkedin" (JStr "") d);
                 ("profile_image", get_or "profile_image" (JStr "") d);
                 ("graduation_year", get_or "graduation_year" (JStr "") d);
                 ("created_at", JStr t_created);
                 ("updated_at", JStr t_updated)] in
              Ok ((alumni ++ [alumni_data])%list,
                  jsonify
                    [("message", JStr "Alumni profile created successfully");
                     ("alumni", JObj alumni_data)] 201))).

(** [POST /api/events] *)
Definition event_create (t_created t_updated : string) (data : JSON)
    (events : list dict) : list dict * Response :=
  catch "Failed to create event" events
    (with_required ["title"; "description"; "date"; "location"] data events
       (fun d =>
          title <- getitem "title" d ;;
          description <- getitem "description" d ;;
          date <- getitem "date" d ;;
          location <- getitem "location" d ;;
          let event_data :=
            [("id", JInt (next_id events));
             ("title", title);
             ("description", description);
             ("date", date);
             ("time", get_or "time" (JStr "") d);
             ("location", location);
             ("event_type", get_or "event_type" (JStr "general") d);
             ("max_attendees", get_or "max_attendees" JNull d);
             ("registration_required",
               get_or "registration_required" (JBool false) d);
             ("organizer", get_or "organizer" (JStr "") d);
             ("contact_email", get_or "contact_email" (JStr "") d);
             ("image_url", get_or "image_url" (JStr "") d);
             ("status", JStr "upcoming");
             ("attendees", JList []);
             ("created_at", JStr t_created);
             ("updated_at", JStr t_updated)] in
          Ok ((events ++ [event_data])%list,
              jsonify
                [("message", JStr "Event created successfully");
                 ("event", JObj event_data)] 201))).

(** [POST /api/jobs] *)
Definition job_create (t_created t_updated : string) (data : JSON)
    (jobs : list dict) : list dict * Response :=
  catch "Failed to post job" jobs
    (with_required ["title"; "company"; "description"; "location"] data jobs
       (fun d =>
          title <- getitem "title" d ;;
          company <- getitem "company" d ;;
          description <- getitem "description" d ;;
          location <- getitem "location" d ;;
          let job_data :=
            [("id", JInt (next_id jobs));
             ("title", title);
             ("company", company);
             ("description", description);
             ("location", location);
             ("job_type", get_or "job_type" (JStr "full-time") d);
             ("experience_level", get_or "experience_level" (JStr "entry") d);
             ("salary_range", get_or "salary_range" (JStr "") d);
             ("requirements", get_or "requirements" (JStr "") d);
             ("contact_email", get_or "contact_email" (JStr "") d);
             ("application_url", get_or "application_url" (JStr "") d);
             ("posted_by", get_or "posted_by" (JStr "") d);
             ("status", JStr "active");
             ("created_at", JStr t_created);
             ("updated_at", JStr t_updated);
             ("expires_at", get_or "expires_at" (JStr "") d)] in
          Ok ((jobs ++ [job_data])%list,
              jsonify
                [("message", JStr "Job posted successfully");
                 ("job", JObj job_data)] 201))).

(** [POST /api/donations]; the inner [try] turns a [ValueError] of
    [float] into a 400, any other exception reaches the outer one. *)
Definition donation_create (t_created : string) (data : JSON)
    (donations : list dict) : list dict * Response :=
  catch "Failed to record donation" donations
    (with_required ["donor_name"; "amount"; "purpose"] data donations
       (fun d =>
          raw <- getitem "amount" d ;;
          match py_float raw with
          | Raise ValueError =>
              Ok (donations, error "Invalid amount format" 400)
          | Raise e => Raise e
          | Ok amount =>
              if SFleb amount float_zero then
                Ok (donations, error "Amount must be greater than 0" 400)
              else
                donor_name <- getitem "donor_name" d ;;
                purpose <- getitem "purpose" d ;;
                let donation_data :=
                  [("id", JInt (next_id donations));
                   ("donor_name", donor_name);
                   ("donor_email", get_or "donor_email" (JStr "") d);
                   ("amount", JFloat amount);
                   ("currency", get_or "currency" (JStr "INR") d);
                   ("purpose", purpose);
                   ("message", get_or "message" (JStr "") d);
                   ("anonymous", get_or "anonymous" (JBool false) d);
                   ("payment_method", get_or "payment_method" (JStr "") d);
                   ("transaction_id", get_or "transaction_id" (JStr "") d);
                   ("status", JStr "completed");
                   ("created_at", JStr t_created)] in
                Ok ((donations ++ [donation_data])%list,
                    jsonify
                      [("message", JStr "Donation recorded successfully");
                       ("donation", JObj donation_data)] 201)
          end)).

(** [POST /api/posts] *)
Definition post_create (t_created t_updated : string) (data : JSON)
    (posts : list dict) : list dict * Response :=
  catch "Failed to create post" posts
    (with_required ["author_name"; "content"] data posts
       (fun d =>
          author_name <- getitem "author_name" d ;;
          content <- getitem "content" d ;;
          let post_data :=
            [("id", JInt (next_id posts));
             ("author_name", author_name);
             ("author_email", get_or "author_email" (JStr "") d);
             ("author_batch", get_or "author_batch" (JStr "") d);
             ("content", content);
             ("post_type", get_or "post_type" (JStr "general") d);
             ("image_url", get_or "image_url" (JStr "") d);
             ("likes", JInt 0);
             ("comments", JList []);
             ("tags", get_or "tags" (JList []) d);
             ("created_at", JStr t_created);
             ("updated_at", JStr t_updated)] in
          Ok ((posts ++ [post_data])%list,
              jsonify
                [("message", JStr "Post created successfully");
                 ("post", JObj post_data)] 201))).

(** [POST /api/messages] *)
Definition message_create (t_created : string) (data : JSON)
    (messages : list dict) : list dict * Response :=
  catch "Failed to send message" messages
    (with_required ["sender_email"; "recipient_email"; "content"] data
       messages
       (fun d =>
          sender_email <- getitem "sender_email" d ;;
          recipient_email <- getitem "recipient_email" d ;;
          content <- getitem "content" d ;;
          let message_data :=
            [("id", JInt (next_id messages));
             ("sender_email", sender_email);
             ("recipient_email", recipient_email);
             ("content", content);
             ("message_type", get_or "message_type" (JStr "direct") d);
             ("group_id", get_or "group_id" JNull d);
             ("read", JBool false);
             ("created_at", JStr t_created)] in
          Ok ((messages ++ [message_data])%list,
              jsonify
                [("message", JStr "Message sent successfully");
                 ("message_data", JObj message_data)] 201))).

(** *** Donations: GET lists, GET by id *)

(** [if purpose: ... d.get('purpose', '') == purpose] *)
Definition selected (purpose : string) (d : dict) : bool :=
  if truthy (JStr purpose)
  then py_eq (get_or "purpose" (JStr "") d) (JStr purpose)
  else true.

(** The body of the loop that hides anonymous donors. *)
Definition redact (d : dict) : dict :=
  if truthy (get_or "anonymous" (JBool false) d) then
    dict_set "donor_email" (JStr "")
      (dict_set "donor_name" (JStr "Anonymous") d)
  else d.

(** [sum(d['amount'] for d in l)], added from left to right onto [acc]. *)
Fixpoint sum_amounts (l : list dict) (acc : JSON) : result JSON :=
  match l with
  | [] => Ok acc
  | d :: r =>
      a <- getitem "amount" d ;;
      s <- py_add acc a ;;
      sum_amounts r s
  end.

(** [GET /api/donations?purpose=...].  [donations.copy()] copies the
    list and not the dictionaries in it, so the loop assigns to the
    stored dictionaries: the collection that results holds the selected
    records as the loop left them. *)
Definition donation_list (purpose : string) (donations : list dict)
  : list dict * Response :=
  let filtered := map redact (filter (selected purpose) donations) in
  let stored :=
    map (fun d => if selected purpose d then redact d else d) donations in
  catch "Failed to fetch donations" stored
    (total_amount <- sum_amounts filtered (JInt 0) ;;
     Ok (stored,
         jsonify
           [("donations", JList (map JObj filtered));
            ("total", JInt (Z.of_nat (List.length filtered)));
            ("total_amount", total_amount)] 200)).

(** [GET /api/donations/<id>] *)
Definition donation_detail (id : Z) (donations : list dict)
  : list dict * Response :=
  catch "Operation failed" donations
    (o <- lookup_by "id" (JInt id) donations ;;
     match o with
     | None => Ok (donations, error "Donation not found" 404)
     | Some (_, donation) =>
         if negb (truthy (JObj donation)) then
           Ok (donations, error "Donation not found" 404)
         else Ok (donations, jsonify [("donation", JObj donation)] 200)
     end).

(** *** Posts: GET lists *)

(** [[p for p in l if author in p.get('author_name', '').lower()]] *)
Fixpoint filter_author (author : string) (l : list dict)
  : result (list dict) :=
  match l with
  | [] => Ok []
  | p :: r =>
      name <- py_lower (get_or "author_name" (JStr "") p) ;;
      rest <- filter_author author r ;;
      Ok (if is_substring author name then p :: rest else rest)
  end.

(** The sort keys [x[k]] of a list.  In this application the key is
    [created_at], which every handler binds to a [str]; the comparison
    of keys of other types is not modelled and counts as a
    [TypeError]. *)
Fixpoint keyed (k : string) (l : list dict)
  : result (list (string * dict)) :=
  match l with
  | [] => Ok []
  | x :: r =>
      v <- getitem k x ;;
      match v with
      | JStr s => rest <- keyed k r ;; Ok ((s, x) :: rest)
      | _ => Raise TypeError
      end
  end.

(** [sorted(l, key=lambda x: x[k], reverse=True)] *)
Definition sorted_desc_by (k : string) (l : list dict)
  : result (list dict) :=
  kl <- keyed k l ;; Ok (map snd (sort_desc kl)).

(** [GET /api/posts?type=...&author=...] *)
Definition post_list (post_type author : string) (posts : list dict)
  : list dict * Response :=
  catch "Failed to fetch posts" posts
    (let author := lower author in
     let by_type :=
       if truthy (JStr post_type) then
         filter
           (fun p => py_eq (get_or "post_type" (JStr "") p) (JStr post_type))
           posts
       else posts in
     by_author <-
       (if truthy (JStr author) then filter_author author by_type
        else Ok by_type) ;;
     filtered_posts <- sorted_desc_by "created_at" by_author ;;
     Ok (posts,
         jsonify
           [("posts", JList (map JObj filtered_posts));
            ("total", JInt (Z.of_nat (List.length filtered_posts)))] 200)).

(** *** Events, jobs and messages: GET lists *)

(** [GET /api/events?type=...&status=...] *)
Definition event_list (event_type status : string) (events : list dict)
  : list dict * Response :=
  let by_type :=
    if truthy (JStr event_type) then
      filter
        (fun e => py_eq (get_or "event_type" (JStr "") e) (JStr event_type))
        events
    else events in
  let filtered_events :=
    if truthy (JStr status) then
      filter (fun e => py_eq (get_or "status" (JStr "") e) (JStr status))
        by_type
    else by_type in
  (events,
   jsonify
     [("events", JList (map JObj filtered_events));
      ("total", JInt (Z.of_nat (List.length filtered_events)))] 200).

(** [[j for j in l if needle in j.get(key, '').lower()]] *)
Fixpoint filter_substring (key needle : string) (l : list dict)
  : result (list dict) :=
  match l with
  | [] => Ok []
  | j :: r =>
      v <- py_lower (get_or key (JStr "") j) ;;
      rest <- filter_substring key needle r ;;
      Ok (if is_substring needle v then j :: rest else rest)
  end.

(** [GET /api/jobs?type=...&location=...&company=...] *)
Definition job_list (job_type location company : string) (jobs : list dict)
  : list dict * Response :=
  catch "Failed to fetch jobs" jobs
    (let location := lower location in
     let company := lower company in
     let by_type :=
       if truthy (JStr job_type) then
         filter
           (fun j => py_eq (get_or "job_type" (JStr "") j) (JStr job_type))
           jobs
       else jobs in
     by_location <-
       (if truthy (JStr location)
        then filter_substring "location" location by_type
        else Ok by_type) ;;
     filtered_jobs <-
       (if truthy (JStr company)
        then filter_substring "company" company by_location
        else Ok by_location) ;;
     Ok (jobs,
         jsonify
           [("jobs", JList (map JObj filtered_jobs));
            ("total", JInt (Z.of_nat (List.length filtered_jobs)))] 200)).

(** The loop of the messages list: a message is kept when its sender
    or its recipient is the user, letter case apart, and its type is
    the one asked for, if one is. *)
Fixpoint filter_messages (user_email message_type : string) (l : list dict)
  : result (list dict) :=
  match l with
  | [] => Ok []
  | msg :: r =>
      sender <- py_lower (get_or "sender_email" (JStr "") msg) ;;
      involved <-
        (if String.eqb sender user_email then Ok true
         else
           recipient <- py_lower (get_or "recipient_email" (JStr "") msg) ;;
           Ok (String.eqb recipient user_email)) ;;
      let kept :=
        involved &&
        (negb (truthy (JStr message_type)) ||
         py_eq (get_or "message_type" (JStr "") msg) (JStr message_type)) in
      rest <- filter_messages user_email message_type r ;;
      Ok (if kept then msg :: rest else rest)
  end.

(** [GET /api/messages?user_email=...&type=...] *)
Definition message_list (user_email message_type : string)
    (messages : list dict) : list dict * Response :=
  catch "Failed to fetch messages" messages
    (let user_email := lower user_email in
     if negb (truthy (JStr user_email)) then
       Ok (messages, error "user_email parameter is required" 400)
     else
       filtered <- filter_messages user_email message_type messages ;;
       filtered_messages <- sorted_desc_by "created_at" filtered ;;
       Ok (messages,
           jsonify
             [("messages", JList (map JObj filtered_messages));
              ("total", JInt (Z.of_nat (List.length filtered_messages)))]
             200)).

(** *** The routes of the posts collection *)




End App.

(** ** Sample requests *)

Module Samples.
Import Py App.

(** A stand-in for the token encoder. *)
Definition sample_jwt (_ : dict) : string := "token".

Definition register_body (email password name : string) : JSON :=
  JObj [("email", JStr email); ("password", JStr password);
        ("name", JStr name)].

Definition login_body (email password : string) : JSON :=
  JObj [("email", JStr email); ("password", JStr password)].

Definition alumni_body (name email : string) : JSON :=
  JObj [("name", JStr name); ("email", JStr email);
        ("batch", JInt 2020); ("department", JStr "Computer")].

Definition event_body (title : string) : JSON :=
  JObj [("title", JStr title); ("description", JStr "Annual meet");
        ("date", JStr "2024-12-01"); ("location", JStr "Campus")].

Definition job_body (title : string) : JSON :=
  JObj [("title", JStr title); ("company", JStr "Acme");
        ("description", JStr "Backend work"); ("location", JStr "Surat")].

Definition post_body (author : string) : JSON :=
  JObj [("author_name", JStr author); ("content", JStr "Hello")].

Definition donation_body (donor : string) (amount : JSON) (anonymous : bool)
  : JSON :=
  JObj [("donor_name", JStr donor); ("amount", amount);
        ("purpose", JStr "library"); ("anonymous", JBool anonymous)].

(** Three records created in turn, then the one with id 2 deleted. *)
Definition three (create : JSON -> list dict -> list dict * Response)
    (a b c : JSON) : list dict :=
  fst (create c (fst (create b (fst (create a []))))).

Definition alumni3 : list dict :=
  three (alumni_create "t" "t") (alumni_body "A" "a@x.com")
    (alumni_body "B" "b@x.com") (alumni_body "C" "c@x.com").

Definition events3 : list dict :=
  three (event_create "t" "t") (event_body "E1") (event_body "E2")
    (event_body "E3").

Definition jobs3 : list dict :=
  three (job_create "t" "t") (job_body "J1") (job_body "J2") (job_body "J3").

Definition posts3 : list dict :=
  three (post_create "t" "t") (post_body "P1") (post_body "P2")
    (post_body "P3").

(** binary64 values *)
Definition f100 : spec_float := S754_finite false 7036874417766400 (-46).
Definition f5 : spec_float := S754_finite false 5629499534213120 (-50).

(** Characters outside ASCII: U+00E9 and U+00C9 (e with acute, small
    and capital), the no-break space U+00A0, the separator U+001C. *)
Definition e_acute : ascii := ascii_of_nat 233.
Definition E_acute : ascii := ascii_of_nat 201.
Definition no_break_space : ascii := ascii_of_nat 160.
Definition file_separator : ascii := ascii_of_nat 28.

End Samples.

(** ** Vocabulary of the properties *)

Module Spec.
Import Py App.

(** The id of every record of a collection, in the order of the list. *)
Definition ids (coll : list dict) : list (option JSON) :=
  map (dict_get "id") coll.

Definition distinct_ids (coll : list dict) : Prop := NoDup (ids coll).

(** The ids are 1, 2, ..., n, in this order. *)
Definition consecutive_ids (coll : list dict) : Prop :=
  ids coll =
  map (fun k => Some (JInt (Z.of_nat k))) (seq 1 (List.length coll)).

(** The collections with a DELETE route, with their POST handlers. *)
Definition Creator : Type :=
  string -> string -> JSON -> list dict -> list dict * Response.

Definition deletable : list (Resource * Creator) :=
  [(Alumni, alumni_create); (Event, event_create);
   (Job, job_create); (Post, post_create)].

(** A POST either leaves the collection as it was, with a status other
    than 201, or appends one record whose id is the size of the
    collection plus one and answers 201 with that record. *)
Definition appends_next (coll : list dict) (out : list dict * Response)
  : Prop :=
  (fst out = coll /\ status (snd out) <> 201) \/
  (exists rec msg noun,
     fst out = (coll ++ [rec])%list /\
     dict_get "id" rec = Some (JInt (next_id coll)) /\
     snd out = jsonify [("message", JStr msg); (noun, JObj rec)] 201).

(** The sort key of a post. *)
Definition created_at (p : dict) : string :=
  match dict_get "created_at" p with
  | Some (JStr s) => s
  | _ => ""
  end.

(** [a] is not below [b] in the order of [str]. *)
Definition str_ge (a b : string) : Prop := str_ltb a b = false.

(** Newest first: no record is older than a record after it. *)
Definition newest_first (l : list dict) : Prop :=
  StronglySorted (fun p q => str_ge (created_at p) (created_at q)) l.

(** Every post carries a [str] as its [created_at]. *)
Definition timestamped (posts : list dict) : Prop :=
  Forall (fun p => exists s, dict_get "created_at" p = Some (JStr s)) posts.

(** The posts the two filters of the list let through. *)
Definition post_selected (post_type author : string) (p : dict) : bool :=
  (negb (truthy (JStr post_type)) ||
   py_eq (get_or "post_type" (JStr "") p) (JStr post_type)) &&
  (negb (truthy (JStr (lower author))) ||
   match get_or "author_name" (JStr "") p with
   | JStr s => is_substring (lower author) (lower s)
   | _ => false
   end).

(** The strings a regular expression denotes. *)
Inductive matches : regex -> string -> Prop :=
| MEps : matches REps ""
| MChar (p : ascii -> bool) (c : ascii) :
    p c = true -> matches (RChar p) (String c "")
| MCat (r s : regex) (a b : string) :
    matches r a -> matches s b -> matches (RCat r s) (a ++ b)
| MAltL (r s : regex) (a : string) : matches r a -> matches (RAlt r s) a
| MAltR (r s : regex) (a : string) : matches s a -> matches (RAlt r s) a
| MStarNil (r : regex) : matches (RStar r) ""
| MStarApp (r : regex) (a b : string) :
    matches r a -> matches (RStar r) b -> matches (RStar r) (a ++ b).

(** Every character of [s] is in the class [p]. *)
Fixpoint all_chars (p : ascii -> bool) (s : string) : bool :=
  match s with
  | EmptyString => true
  | String c r => p c && all_chars p r
  end.

(** [local@domain.tld]: a local part and a domain of one character or
    more, and at least two letters after the last point. *)
Definition email_shape (s : string) : Prop :=
  exists loc dom tld,
    s = loc ++ "@" ++ dom ++ "." ++ tld /\
    loc <> "" /\ all_chars email_local loc = true /\
    dom <> "" /\ all_chars email_domain dom = true /\
    (2 <= String.length tld)%nat /\ all_chars email_alpha tld = true.

Definition line_feed : string := String (ascii_of_nat 10) "".

(** What [register] stores: an integer id, an email in lower case, and
    a password of six items or more. *)
Definition user_ok (u : dict) : Prop :=
  exists id email password n,
    dict_get "id" u = Some (JInt id) /\
    dict_get "email" u = Some (JStr email) /\ lower email = email /\
    dict_get "password" u = Some password /\
    py_len password = Ok n /\ 6 <= n.

Definition users_ok (users : list dict) : Prop := Forall user_ok users.

(** Every record carries an integer as its id. *)
Definition int_ids (coll : list dict) : Prop :=
  Forall (fun d => exists k, dict_get "id" d = Some (JInt k)) coll.

(** No record of [coll] has the id [id]. *)
Definition id_free (id : Z) (coll : list dict) : Prop :=
  Forall (fun d => exists k, dict_get "id" d = Some (JInt k) /\ k <> id) coll.

(** The email of an alumni record, and the same in lower case. *)
Definition email_of (a : dict) : string :=
  match dict_get "email" a with
  | Some (JStr s) => s
  | _ => ""
  end.

Definition email_key (a : dict) : string := lower (email_of a).

(** Every record carries a string as its email. *)
Definition emails_str (coll : list dict) : Prop :=
  Forall (fun a => exists e, dict_get "email" a = Some (JStr e)) coll.

(** No two records have the same email, letter case apart. *)
Definition distinct_emails (coll : list dict) : Prop :=
  NoDup (map email_key coll).

(** A string field of a record, empty when the field is absent or is
    not a string. *)
Definition str_field (k : string) (d : dict) : string :=
  match dict_get k d with
  | Some (JStr s) => s
  | _ => ""
  end.

(** The messages the list keeps for a user and a type. *)
Definition message_selected (user_email message_type : string) (m : dict)
  : bool :=
  (String.eqb (lower (str_field "sender_email" m)) (lower user_email) ||
   String.eqb (lower (str_field "recipient_email" m)) (lower user_email)) &&
  (negb (truthy (JStr message_type)) ||
   py_eq (get_or "message_type" (JStr "") m) (JStr message_type)).

(** Sender, recipient and timestamp of every message are strings. *)
Definition message_ok (m : dict) : Prop :=
  (exists s, dict_get "sender_email" m = Some (JStr s)) /\
  (exists r, dict_get "recipient_email" m = Some (JStr r)) /\
  (exists t, dict_get "created_at" m = Some (JStr t)).

Definition messages_ok (messages : list dict) : Prop :=
  Forall message_ok messages.

End Spec.

(** * Properties *)

Import Py App Samples Spec.

(** ** Dictionaries *)

Lemma dict_get_set_same (k : string) (v : JSON) (d : dict) :
  dict_get k (dict_set k v d) = Some v.
Proof.
  induction d as [|[k' v'] d IH]; simpl.
  - now rewrite String.eqb_refl.
  - destruct (String.eqb k' k) eqn:E; simpl.
    + now rewrite String.eqb_refl.
    + now rewrite E.
Qed.

Lemma dict_get_set_other (k k' : string) (v : JSON) (d : dict) :
  k' <> k -> dict_get k (dict_set k' v d) = dict_get k d.
Proof.
  intros Hne. induction d as [|[k0 v0] d IH]; simpl.
  - destruct (String.eqb_spec k' k); [contradiction|reflexivity].
  - destruct (String.eqb_spec k0 k') as [->|Hk0]; simpl.
    + destruct (String.eqb_spec k' k); [contradiction|reflexivity].
    + destruct (String.eqb_spec k0 k); [reflexivity|exact IH].
Qed.

Lemma dict_get_without_same (k : string) (d : dict) :
  dict_get k (without_key k d) = None.
Proof.
  induction d as [|[k' v'] d IH]; simpl; [reflexivity|].
  destruct (String.eqb k' k) eqn:E; simpl; [exact IH|].
  now rewrite E.
Qed.

Lemma dict_get_without_other (k k' : string) (d : dict) :
  k' <> k -> dict_get k (without_key k' d) = dict_get k d.
Proof.
  intros Hne. induction d as [|[k0 v0] d IH]; simpl; [reflexivity|].
  destruct (String.eqb_spec k0 k') as [->|Hk0]; simpl.
  - destruct (String.eqb_spec k' k); [contradiction|exact IH].
  - destruct (String.eqb_spec k0 k); [reflexivity|exact IH].
Qed.

Lemma py_eq_int (a b : Z) : py_eq (JInt a) (JInt b) = (a =? b).
Proof. reflexivity. Qed.

Lemma py_eq_str (a b : string) : py_eq (JStr a) (JStr b) = String.eqb a b.
Proof. reflexivity. Qed.

(** ** Required fields *)

Lemma get_absent (k : string) (d : dict) :
  dict_get k d = None -> truthy (get k d) = false.
Proof. unfold get, get_or. now intros ->. Qed.

Lemma first_missing_ext (fields : list string) (d d' : dict) :
  (forall f, In f fields -> truthy (get f d) = truthy (get f d')) ->
  first_missing fields d = first_missing fields d'.
Proof.
  induction fields as [|f r IH]; simpl; intros H; [reflexivity|].
  rewrite <- (H f) by now left.
  destruct (truthy (get f d)); [|reflexivity].
  apply IH. intros g Hg. apply H. now right.
Qed.

Lemma first_missing_falsy_absent (fields : list string) (k : string)
    (v : JSON) (d : dict) :
  truthy v = false ->
  first_missing fields ((k, v) :: d) = first_missing fields (without_key k d).
Proof.
  intros Hv. apply first_missing_ext. intros f _.
  unfold get, get_or. simpl.
  destruct (String.eqb_spec k f) as [->|Hne].
  - now rewrite dict_get_without_same.
  - now rewrite dict_get_without_other.
Qed.

Lemma first_missing_spec (fields : list string) (d : dict) (f : string) :
  first_missing fields d = Some f <->
  exists pre post,
    fields = (pre ++ f :: post)%list /\
    Forall (fun g => truthy (get g d) = true) pre /\
    truthy (get f d) = false.
Proof.
  induction fields as [|g r IH]; simpl.
  - split; [discriminate|]. intros (pre & post & H & _). now destruct pre.
  - destruct (truthy (get g d)) eqn:E.
    + rewrite IH. split.
      * intros (pre & post & -> & Hpre & Hf).
        exists (g :: pre), post. repeat split; auto.
      * intros (pre & post & H & Hpre & Hf).
        destruct pre as [|g' pre]; simpl in H; inversion H; subst.
        -- congruence.
        -- inversion Hpre; subst. now exists pre, post.
    + split.
      * intros [= <-]. exists [], r. repeat split; auto.
      * intros (pre & post & H & Hpre & Hf).
        destruct pre as [|g' pre]; simpl in H; inversion H; subst.
        -- reflexivity.
        -- inversion Hpre; subst. congruence.
Qed.

Lemma with_required_missing (fields : list string) (d : dict)
    (coll : list dict) (k : dict -> result (list dict * Response))
    (f : string) :
  d <> [] ->
  first_missing fields d = Some f ->
  with_required fields (JObj d) coll k =
  Ok (coll, error (f ++ " is required") 400).
Proof.
  intros Hd Hf. unfold with_required.
  destruct d; [contradiction|]. simpl. now rewrite Hf.
Qed.

Lemma with_required_present (fields : list string) (d : dict)
    (coll : list dict) (k : dict -> result (list dict * Response)) :
  d <> [] ->
  first_missing fields d = None ->
  with_required fields (JObj d) coll k = k d.
Proof.
  intros Hd Hf. unfold with_required.
  destruct d; [contradiction|]. simpl. now rewrite Hf.
Qed.

(** C9.  In every handler that creates a record, and in [register], a
    required field bound to a falsy value (0, false, the empty string,
    null, the empty list) counts as a missing one: the scan of the
    required fields gives the same result as for the payload without
    that binding, it stops at the first required field that is absent
    or falsy, and the handler answers 400 with "<field> is required"
    and leaves its collection as it was; a donation whose amount is 0
    is answered "amount is required". *)
Theorem falsy_required_field_is_missing :
  forall (jwt_encode : dict -> string) (t u : string) (utcnow : Z)
         (d : dict) (coll : list dict) (f : string),
    d <> [] ->
    Forall (fun v => truthy v = false)
      [JInt 0; JBool false; JStr ""; JNull; JList []] /\
    (forall fields k v d', truthy v = false ->
       first_missing fields ((k, v) :: d') =
       first_missing fields (without_key k d')) /\
    (forall fields,
       first_missing fields d = Some f <->
       exists pre post,
         fields = (pre ++ f :: post)%list /\
         Forall (fun g => truthy (get g d) = true) pre /\
         truthy (get f d) = false) /\
    (first_missing ["email"; "password"; "name"] d = Some f ->
     register jwt_encode t utcnow (JObj d) coll =
     (coll, error (f ++ " is required") 400)) /\
    (first_missing ["name"; "email"; "batch"; "department"] d = Some f ->
     alumni_create t u (JObj d) coll =
     (coll, error (f ++ " is required") 400)) /\
    (first_missing ["title"; "description"; "date"; "location"] d = Some f ->
     event_create t u (JObj d) coll =
     (coll, error (f ++ " is required") 400)) /\
    (first_missing ["title"; "company"; "description"; "location"] d = Some f ->
     job_create t u (JObj d) coll =
     (coll, error (f ++ " is required") 400)) /\
    (first_missing ["donor_name"; "amount"; "purpose"] d = Some f ->
     donation_create t (JObj d) coll =
     (coll, error (f ++ " is required") 400)) /\
    (first_missing ["author_name"; "content"] d = Some f ->
     post_create t u (JObj d) coll =
     (coll, error (f ++ " is required") 400)) /\
    (first_missing ["sender_email"; "recipient_email"; "content"] d = Some f ->
     message_create t (JObj d) coll =
     (coll, error (f ++ " is required") 400)) /\
    (truthy (get "donor_name" d) = true ->
     dict_get "amount" d = Some (JInt 0) ->
     donation_create t (JObj d) coll =
     (coll, error "amount is required" 400)).
Proof.
  intros jwt_encode t u utcnow d coll f Hd.
  split; [repeat constructor|].
  split; [intros; now apply first_missing_falsy_absent|].
  split; [intros; apply first_missing_spec|].
  repeat split; intros H;
    try (unfold register, alumni_create, event_create, job_create,
           donation_create, post_create, message_create;
         now rewrite with_required_missing with (f := f)).
  intros Ha. unfold donation_create.
  rewrite with_required_missing with (f := "amount"); auto.
  simpl. rewrite H. unfold get, get_or. now rewrite Ha.
Qed.

Lemma falsy_required_field_is_missing_witness :
  donation_create "t" (JObj [("donor_name", JStr "A"); ("amount", JInt 0);
                             ("purpose", JStr "library")]) [] =
  ([], error "amount is required" 400).
Proof.
  pose proof (falsy_required_field_is_missing (fun _ => "") "t" "t" 0
    [("donor_name", JStr "A"); ("amount", JInt 0); ("purpose", JStr "library")]
    [] "amount") as H.
  destruct H as (_ & _ & _ & _ & _ & _ & _ & H & _); [discriminate|].
  apply H. reflexivity.
Defined.

(** ** Looking a record up *)

Lemma lookup_by_some (key : string) (v : JSON) (l : list dict)
    (i : nat) (rec : dict) :
  lookup_by key v l = Ok (Some (i, rec)) ->
  nth_error l i = Some rec /\
  (exists x, dict_get key rec = Some x /\ py_eq x v = true) /\
  (forall j d, (j < i)%nat -> nth_error l j = Some d ->
     exists y, dict_get key d = Some y /\ py_eq y v = false).
Proof.
  revert i. induction l as [|d r IH]; simpl; intros i H; [discriminate|].
  unfold getitem in H. destruct (dict_get key d) as [x|] eqn:Ex; simpl in H;
    [|discriminate].
  destruct (py_eq x v) eqn:Ev.
  - inversion H; subst. repeat split.
    + now exists x.
    + intros j d' Hj. inversion Hj.
  - destruct (lookup_by key v r) as [[[i' rec']|]|] eqn:El; simpl in H;
      try discriminate.
    inversion H; subst. destruct (IH i' eq_refl) as (Hn & Hx & Hlt).
    repeat split; auto.
    intros [|j] d' Hj Hd'; simpl in Hd'.
    + inversion Hd'; subst. now exists x.
    + apply (Hlt j); auto. apply PeanoNat.Nat.succ_lt_mono. exact Hj.
Qed.

Lemma lookup_by_none (key : string) (v : JSON) (l : list dict) :
  lookup_by key v l = Ok None ->
  forall d, In d l -> exists y, dict_get key d = Some y /\ py_eq y v = false.
Proof.
  induction l as [|d r IH]; simpl; intros H d' Hin; [contradiction|].
  unfold getitem in H. destruct (dict_get key d) as [x|] eqn:Ex; simpl in H;
    [|discriminate].
  destruct (py_eq x v) eqn:Ev; [discriminate|].
  destruct (lookup_by key v r) as [[[i' rec']|]|] eqn:El; simpl in H;
    try discriminate.
  destruct Hin as [<-|Hin]; [now exists x|now apply IH].
Qed.

(** ** Register and login *)

Arguments first_missing : simpl never.
Arguments re_match_anchored : simpl never.
Arguments py_len : simpl never.
Arguments next_id : simpl never.
Arguments issue_token : simpl never.

(** Case analysis on the scrutinees of a handler's body, innermost
    first; branches whose status differs from the one assumed close. *)
Ltac break_hyp H :=
  match type of H with
  | context [match ?x with _ => _ end] =>
      lazymatch x with
      | context [match _ with _ => _ end] => fail
      | _ => destruct x eqn:?
      end
  end.

Ltac close_branch H := try (inversion H; subst; discriminate).

Ltac reduce_hyp H :=
  cbv beta iota zeta
    delta [bind catch getitem as_dict found option_map fst snd
           with_required find_user_by_email] in H.

Ltac crush_hyp H :=
  reduce_hyp H; close_branch H;
  repeat (break_hyp H; reduce_hyp H; close_branch H).

Lemma register_201 (jwt_encode : dict -> string) (now : string) (utcnow : Z)
    (data : JSON) (users users' : list dict) (resp : Response) :
  register jwt_encode now utcnow data users = (users', resp) ->
  status resp = 201 ->
  exists d email password name,
    data = JObj d /\
    dict_get "email" d = Some (JStr email) /\
    dict_get "password" d = Some password /\
    dict_get "name" d = Some name /\
    find_user_by_email (JStr email) users = Ok None /\
    let user :=
      [("id", JInt (next_id users)); ("email", JStr (lower email));
       ("password", password); ("name", name);
       ("role", get_or "role" (JStr "alumni") d);
       ("created_at", JStr now)] in
    users' = (users ++ [user])%list /\
    resp =
    jsonify
      [("message", JStr "User registered successfully");
       ("user", JObj (without_key "password" user));
       ("token",
         JStr (issue_token jwt_encode utcnow (JInt (next_id users))
                 (JStr (lower email))))] 201.
Proof.
  intros H Hs. unfold register in H.
  crush_hyp H; inversion H; subst;
    match goal with
    | Hv : validate_email ?e = Ok _ |- _ => destruct e; try discriminate Hv
    end;
    match goal with
    | Hl : py_lower (JStr _) = Ok _ |- _ => inversion Hl; subst
    end.
  all: first
    [ exfalso;
      match goal with
      | Hl : lookup_by _ _ _ = Ok (Some (_, ?d)) |- _ =>
          apply lookup_by_some in Hl; destruct Hl as (_ & (x & Hx & _) & _);
          destruct d;
          [ discriminate Hx
          | match goal with Ht : truthy _ = false |- _ => discriminate Ht end ]
      end
    | repeat eexists; eauto; unfold find_user_by_email;
      match goal with
      | Hl : lookup_by _ _ _ = Ok None |- _ => now rewrite Hl
      end ].
Qed.

Lemma login_200 (jwt_encode : dict -> string) (utcnow : Z) (data : JSON)
    (users users' : list dict) (resp : Response) :
  login jwt_encode utcnow data users = (users', resp) ->
  status resp = 200 ->
  exists user stored uid uemail,
    users' = users /\
    In user users /\
    dict_get "password" user = Some stored /\
    dict_get "id" user = Some uid /\
    dict_get "email" user = Some uemail /\
    resp =
    jsonify
      [("message", JStr "Login successful");
       ("user", JObj (without_key "password" user));
       ("token", JStr (issue_token jwt_encode utcnow uid uemail))] 200.
Proof.
  intros H Hs. unfold login in H.
  crush_hyp H; inversion H; subst;
    match goal with
    | Hl : lookup_by _ _ _ = _ |- _ =>
        apply lookup_by_some in Hl; destruct Hl as (Hn & _)
    end;
    repeat eexists; eauto; eapply nth_error_In; eauto.
Qed.

(** C8.  A register answered 201 and a login answered 200 carry
    exactly [message], [user] and [token]; the [user] object has no
    [password] field, while the user record in the store has one. *)
Theorem auth_response_strips_password :
  forall (jwt_encode : dict -> string) (now : string) (utcnow : Z)
         (data : JSON) (users users' : list dict) (resp : Response),
    (register jwt_encode now utcnow data users = (users', resp) ->
     status resp = 201 ->
     exists user shown token,
       users' = (users ++ [user])%list /\
       body resp =
       JObj [("message", JStr "User registered successfully");
             ("user", JObj shown); ("token", JStr token)] /\
       shown = without_key "password" user /\
       dict_get "password" shown = None /\
       dict_get "password" user <> None) /\
    (login jwt_encode utcnow data users = (users', resp) ->
     status resp = 200 ->
     exists user shown token,
       users' = users /\ In user users /\
       body resp =
       JObj [("message", JStr "Login successful");
             ("user", JObj shown); ("token", JStr token)] /\
       shown = without_key "password" user /\
       dict_get "password" shown = None /\
       dict_get "password" user <> None).
Proof.
  intros jwt_encode now utcnow data users users' resp. split; intros H Hs.
  - destruct (register_201 _ _ _ _ _ _ _ H Hs)
      as (d & email & password & name & _ & _ & _ & _ & _ & Hu & Hr).
    eexists _, _, _. split; [exact Hu|]. rewrite Hr.
    split; [reflexivity|]. split; [reflexivity|].
    split; [apply dict_get_without_same|discriminate].
  - destruct (login_200 _ _ _ _ _ _ H Hs)
      as (user & stored & uid & uemail & Hu & Hin & Hp & _ & _ & Hr).
    exists user. eexists _, _. split; [exact Hu|]. split; [exact Hin|].
    rewrite Hr. split; [reflexivity|]. split; [reflexivity|].
    split; [apply dict_get_without_same|]. now rewrite Hp.
Qed.

Lemma auth_response_strips_password_witness :
  let data := register_body "A@x.com" "secret1" "A" in
  let users := fst (register sample_jwt "t" 0 data []) in
  (exists user shown token,
     users = ([] ++ [user])%list /\
     body (snd (register sample_jwt "t" 0 data [])) =
     JObj [("message", JStr "User registered successfully");
           ("user", JObj shown); ("token", JStr token)] /\
     shown = without_key "password" user /\
     dict_get "password" shown = None /\
     dict_get "password" user <> None) /\
  (exists user shown token,
     users = users /\ In user users /\
     body (snd (login sample_jwt 0 (login_body "a@x.com" "secret1") users)) =
     JObj [("message", JStr "Login successful");
           ("user", JObj shown); ("token", JStr token)] /\
     shown = without_key "password" user /\
     dict_get "password" shown = None /\
     dict_get "password" user <> None).
Proof.
  intros data users. split.
  - apply (proj1 (auth_response_strips_password sample_jwt "t" 0 data []
                    users (snd (register sample_jwt "t" 0 data []))));
      reflexivity.
  - apply (proj2 (auth_response_strips_password sample_jwt "t" 0
                    (login_body "a@x.com" "secret1") users users
                    (snd (login sample_jwt 0
                            (login_body "a@x.com" "secret1") users))));
      reflexivity.
Defined.

(** C3.  [register] looks the email up as it was sent, while the store
    holds it in lower case: the same address with a capital letter is
    registered twice, both times with 201. *)
Theorem register_twice_with_capital_letter :
  forall (jwt_encode : dict -> string),
    let data := register_body "A@x.com" "secret1" "A" in
    let first := register jwt_encode "t1" 0 data [] in
    let second := register jwt_encode "t2" 0 data (fst first) in
    status (snd first) = 201 /\
    status (snd second) = 201 /\
    map (dict_get "email") (fst second) =
    [Some (JStr "a@x.com"); Some (JStr "a@x.com")] /\
    map (dict_get "id") (fst second) = [Some (JInt 1); Some (JInt 2)].
Proof. intros jwt_encode. repeat split. Qed.

(** C4.  After one call of the donation list, the donation fetched by
    its id shows "Anonymous": the list has overwritten the donor's name
    in the stored record. *)
Theorem donation_list_overwrites_donor :
  let created := donation_create "t" (donation_body "Alice" (JStr "100") true) [] in
  let listed := donation_list "" (fst created) in
  let before := snd (donation_detail 1 (fst created)) in
  let after := snd (donation_detail 1 (fst listed)) in
  status (snd created) = 201 /\
  status (snd listed) = 200 /\
  (exists d, body before = JObj [("donation", JObj d)] /\
             dict_get "donor_name" d = Some (JStr "Alice")) /\
  (exists d, body after = JObj [("donation", JObj d)] /\
             dict_get "donor_name" d = Some (JStr "Anonymous")) /\
  fst listed <> fst created.
Proof.
  repeat split; try (eexists; split; reflexivity). discriminate.
Qed.

(** C10.  The amount "nan" passes the test [amount <= 0], so a record
    whose amount is not a number is stored, and the total the list
    reports is not a number either. *)
Theorem nan_amount_is_stored :
  let created := donation_create "t" (donation_body "Alice" (JStr "nan") false) [] in
  let listed := snd (donation_list "" (fst created)) in
  status (snd created) = 201 /\
  map (dict_get "amount") (fst created) = [Some (JFloat S754_nan)] /\
  SFltb float_zero S754_nan = false /\
  status listed = 200 /\
  (exists l n, body listed =
     JObj [("donations", l); ("total", n); ("total_amount", JFloat S754_nan)]) /\
  SFleb float_zero S754_nan = false.
Proof. repeat split. eexists _, _. reflexivity. Qed.

(** ** Donations: the amount *)

Lemma positive_not_le_zero (f : spec_float) :
  SFltb float_zero f = true -> SFleb f float_zero = false.
Proof. destruct f as [s|s| |s m e]; try destruct s; cbv; congruence. Qed.

Lemma truthy_get_some (k : string) (d : dict) :
  truthy (get k d) = true ->
  exists v, dict_get k d = Some v /\ get k d = v.
Proof.
  unfold get, get_or. destruct (dict_get k d) as [v|]; [|discriminate].
  intros _. now exists v.
Qed.

Lemma truthy_get_nonempty (k : string) (d : dict) :
  truthy (get k d) = true -> d <> [].
Proof. intros H ->. discriminate. Qed.

(** The claim as written fails for an amount that [float] refuses with
    a [TypeError]: the inner [except ValueError] does not catch it. *)
Lemma donation_amount_list_gives_500 :
  let out := donation_create "t" (donation_body "A" (JList [JInt 1]) false) [] in
  py_float (JList [JInt 1]) = Raise TypeError /\
  status (snd out) = 500 /\ status (snd out) <> 400 /\ fst out = [].
Proof. repeat split. discriminate. Qed.

(** C5, amended.  For a donation payload whose [donor_name] and
    [purpose] are truthy: when the amount is absent or falsy, or is
    refused by [float] with a [ValueError] (a string that is not a
    number), or converts to a float that is at most 0, the answer is
    400 and the collection is unchanged; when it converts to a float
    above 0, the answer is 201 and the record appended holds that
    float as its amount; when [float] raises another exception (a
    list, an object, an integer too large for a float), the answer is
    500 and the collection is unchanged. *)
Theorem donation_amount_checked :
  forall (t : string) (d : dict) (donations : list dict),
    truthy (get "donor_name" d) = true ->
    truthy (get "purpose" d) = true ->
    let raw := get "amount" d in
    let out := donation_create t (JObj d) donations in
    (truthy raw = false ->
     out = (donations, error "amount is required" 400)) /\
    (truthy raw = true -> py_float raw = Raise ValueError ->
     out = (donations, error "Invalid amount format" 400)) /\
    (truthy raw = true -> forall f, py_float raw = Ok f ->
     SFleb f float_zero = true ->
     out = (donations, error "Amount must be greater than 0" 400)) /\
    (truthy raw = true -> forall f, py_float raw = Ok f ->
     SFltb float_zero f = true ->
     exists rec,
       out = ((donations ++ [rec])%list,
              jsonify [("message", JStr "Donation recorded successfully");
                       ("donation", JObj rec)] 201) /\
       dict_get "amount" rec = Some (JFloat f) /\
       dict_get "id" rec = Some (JInt (next_id donations))) /\
    (truthy raw = true -> forall e, py_float raw = Raise e ->
     e <> ValueError ->
     fst out = donations /\ status (snd out) = 500).
Proof.
  intros t d donations Hn Hp raw out.
  pose proof (truthy_get_nonempty _ _ Hn) as Hd.
  assert (Hmiss : truthy raw = false ->
                  first_missing ["donor_name"; "amount"; "purpose"] d =
                  Some "amount").
  { intros Hr. unfold first_missing. fold raw. now rewrite Hn, Hr. }
  assert (Hall : truthy raw = true ->
                 first_missing ["donor_name"; "amount"; "purpose"] d = None).
  { intros Hr. unfold first_missing. fold raw. now rewrite Hn, Hr, Hp. }
  assert (Hbody : truthy raw = true ->
    out =
    catch "Failed to record donation" donations
      (match py_float raw with
       | Raise ValueError =>
           Ok (donations, error "Invalid amount format" 400)
       | Raise e => Raise e
       | Ok amount =>
           if SFleb amount float_zero then
             Ok (donations, error "Amount must be greater than 0" 400)
           else
             let donation_data :=
               [("id", JInt (next_id donations));
                ("donor_name", get "donor_name" d);
                ("donor_email", get_or "donor_email" (JStr "") d);
                ("amount", JFloat amount);
                ("currency", get_or "currency" (JStr "INR") d);
                ("purpose", get "purpose" d);
                ("message", get_or "message" (JStr "") d);
                ("anonymous", get_or "anonymous" (JBool false) d);
                ("payment_method", get_or "payment_method" (JStr "") d);
                ("transaction_id", get_or "transaction_id" (JStr "") d);
                ("status", JStr "completed");
                ("created_at", JStr t)] in
             Ok ((donations ++ [donation_data])%list,
                 jsonify
                   [("message", JStr "Donation recorded successfully");
                    ("donation", JObj donation_data)] 201)
       end)).
  { intros Hr. unfold out, donation_create.
    rewrite with_required_present by auto.
    destruct (truthy_get_some _ _ Hr) as (a & Ha & Hga).
    destruct (truthy_get_some _ _ Hn) as (n & Hnn & Hgn).
    destruct (truthy_get_some _ _ Hp) as (p & Hpp & Hgp).
    unfold raw. rewrite Hga, Hgn, Hgp. unfold getitem, bind.
    rewrite Ha. destruct (py_float a) as [f|e]; [|reflexivity].
    destruct (SFleb f float_zero); [reflexivity|].
    now rewrite Hnn, Hpp. }
  split; [|split; [|split; [|split]]].
  - intros Hr. unfold out, donation_create.
    now rewrite with_required_missing with (f := "amount") by auto.
  - intros Hr Hv. rewrite (Hbody Hr), Hv. reflexivity.
  - intros Hr f Hf Hle. rewrite (Hbody Hr), Hf, Hle. reflexivity.
  - intros Hr f Hf Hlt. rewrite (Hbody Hr), Hf.
    rewrite (positive_not_le_zero _ Hlt). simpl.
    eexists. split; [reflexivity|]. split; reflexivity.
  - intros Hr e He Hne. rewrite (Hbody Hr), He.
    destruct e; try (split; reflexivity). contradiction.
Qed.

Lemma donation_amount_checked_witness :
  let d := [("donor_name", JStr "A"); ("amount", JStr "100");
            ("purpose", JStr "library")] in
  py_float (JStr "100") = Ok f100 /\
  exists rec,
    donation_create "t" (JObj d) [] =
    (([] ++ [rec])%list,
     jsonify [("message", JStr "Donation recorded successfully");
              ("donation", JObj rec)] 201) /\
    dict_get "amount" rec = Some (JFloat f100) /\
    dict_get "id" rec = Some (JInt (next_id [])).
Proof.
  intros d. split; [reflexivity|].
  pose proof (donation_amount_checked "t" d [] eq_refl eq_refl) as H.
  destruct H as (_ & _ & _ & H & _).
  apply (H eq_refl f100); reflexivity.
Defined.

(** ** Lists of records *)

Lemma dict_get_none_iff (k : string) (d : dict) :
  dict_get k d = None <-> ~ In k (map fst d).
Proof.
  induction d as [|[k' v'] d IH]; simpl.
  - split; auto.
  - destruct (String.eqb_spec k' k) as [->|Hne].
    + split; [discriminate|]. intros H. exfalso. apply H. now left.
    + rewrite IH. split.
      * intros H [E|Hin]; auto.
      * intros H Hin. apply H. now right.
Qed.

Lemma ids_app (l l' : list dict) : ids (l ++ l') = (ids l ++ ids l')%list.
Proof. apply map_app. Qed.

Lemma ids_set_nth (i : nat) (r r' : dict) (l : list dict) :
  nth_error l i = Some r ->
  dict_get "id" r' = dict_get "id" r ->
  ids (set_nth i r' l) = ids l.
Proof.
  revert i. induction l as [|x l IH]; intros [|i] Hn He; simpl in *;
    try discriminate.
  - inversion Hn; subst. unfold ids. simpl. now rewrite He.
  - unfold ids in *. simpl. f_equal. now apply IH.
Qed.

Lemma length_set_nth (i : nat) (r : dict) (l : list dict) :
  List.length (set_nth i r l) = List.length l.
Proof.
  revert i. induction l as [|x l IH]; intros [|i]; simpl; auto.
Qed.

Lemma nth_error_set_nth_other (i j : nat) (r : dict) (l : list dict) :
  i <> j -> nth_error (set_nth i r l) j = nth_error l j.
Proof.
  revert i j. induction l as [|x l IH]; intros [|i] [|j] H; simpl; auto.
  contradiction.
Qed.

Lemma nth_error_set_nth_same (i : nat) (r r0 : dict) (l : list dict) :
  nth_error l i = Some r0 -> nth_error (set_nth i r l) i = Some r.
Proof.
  revert i. induction l as [|x l IH]; intros [|i] H; simpl in *;
    try discriminate; auto.
Qed.

Lemma remove_nth_incl (i : nat) (l : list dict) :
  forall x, In x (ids (remove_nth i l)) -> In x (ids l).
Proof.
  revert i. induction l as [|y l IH]; intros [|i] x H; simpl in *; auto.
  destruct H as [H|H]; [now left|right]. now apply (IH i).
Qed.

Lemma NoDup_remove_nth (i : nat) (l : list dict) :
  distinct_ids l -> distinct_ids (remove_nth i l).
Proof.
  unfold distinct_ids.
  revert i. induction l as [|y l IH]; intros [|i] H; simpl in *; auto.
  - now inversion H.
  - inversion H; subst. constructor.
    + intros Hin. apply H2. now apply (remove_nth_incl i).
    + now apply IH.
Qed.

Lemma consecutive_app (coll : list dict) (rec : dict) :
  consecutive_ids coll ->
  dict_get "id" rec = Some (JInt (next_id coll)) ->
  consecutive_ids (coll ++ [rec]).
Proof.
  unfold consecutive_ids. intros Hc Hr.
  rewrite ids_app, Hc, length_app. simpl.
  rewrite PeanoNat.Nat.add_1_r, seq_S, map_app. simpl.
  unfold ids. simpl. rewrite Hr. unfold next_id.
  do 4 f_equal. lia.
Qed.

Lemma consecutive_distinct (coll : list dict) :
  consecutive_ids coll -> distinct_ids coll.
Proof.
  unfold consecutive_ids, distinct_ids. intros ->.
  apply Finite.Injective_map_NoDup; [|apply seq_NoDup].
  intros a b H. inversion H. lia.
Qed.

Lemma consecutive_next_free (coll : list dict) :
  consecutive_ids coll -> ~ In (Some (JInt (next_id coll))) (ids coll).
Proof.
  unfold consecutive_ids. intros -> Hin.
  apply in_map_iff in Hin. destruct Hin as (k & Hk & Hin).
  apply in_seq in Hin. unfold next_id in Hk. inversion Hk. lia.
Qed.

Lemma distinct_app (coll : list dict) (rec : dict) :
  distinct_ids coll ->
  ~ In (dict_get "id" rec) (ids coll) ->
  distinct_ids (coll ++ [rec]).
Proof.
  unfold distinct_ids. intros Hd Hn. rewrite ids_app. simpl.
  apply NoDup_app; auto.
  - constructor; [intros []|constructor].
  - intros x Hx [<-|[]]. contradiction.
Qed.

(** ** The update loop *)

Lemma update_fields_skipped (skipped : list string) (items rec : dict)
    (k : string) :
  In k skipped ->
  dict_get k (update_fields skipped items rec) = dict_get k rec.
Proof.
  intros Hk. unfold update_fields. revert rec.
  induction items as [|[k0 v0] items IH]; intros rec; simpl; [reflexivity|].
  rewrite IH. destruct (existsb (String.eqb k0) skipped) eqn:E;
    [reflexivity|].
  apply dict_get_set_other. intros ->.
  assert (existsb (String.eqb k) skipped = true); [|congruence].
  apply existsb_exists. exists k. split; auto. apply String.eqb_refl.
Qed.

Lemma update_fields_absent (skipped : list string) (items rec : dict)
    (k : string) :
  dict_get k items = None ->
  dict_get k (update_fields skipped items rec) = dict_get k rec.
Proof.
  unfold update_fields. revert rec.
  induction items as [|[k0 v0] items IH]; intros rec; simpl; [reflexivity|].
  destruct (String.eqb_spec k0 k) as [->|Hne]; [discriminate|].
  intros H. rewrite IH by exact H.
  destruct (existsb (String.eqb k0) skipped); [reflexivity|].
  now apply dict_get_set_other.
Qed.

Lemma update_fields_present (skipped : list string) (items rec : dict)
    (k : string) (v : JSON) :
  NoDup (map fst items) ->
  dict_get k items = Some v ->
  ~ In k skipped ->
  dict_get k (update_fields skipped items rec) = Some v.
Proof.
  intros Hnd Hget Hk. revert rec Hnd Hget.
  induction items as [|[k0 v0] items IH]; intros rec Hnd Hget;
    [discriminate|].
  simpl in Hnd. inversion Hnd; subst.
  change (update_fields skipped ((k0, v0) :: items) rec)
    with (update_fields skipped items
            (if existsb (String.eqb k0) skipped then rec
             else dict_set k0 v0 rec)).
  simpl in Hget. destruct (String.eqb_spec k0 k) as [->|Hne].
  - inversion Hget; subst.
    rewrite update_fields_absent by now apply dict_get_none_iff.
    destruct (existsb (String.eqb k) skipped) eqn:E.
    + exfalso. apply existsb_exists in E. destruct E as (x & Hx & Ex).
      apply String.eqb_eq in Ex. now subst.
    + apply dict_get_set_same.
  - now apply IH.
Qed.

(** ** GET, PUT and DELETE by id *)

(** What a handler by id does to its collection: nothing, or the
    update of the record found, or its removal. *)
Lemma detail_store (R : Resource) (m : Method) (id : Z) (now : string)
    (data : JSON) (coll : list dict) :
  fst (detail R m id now data coll) = coll \/
  (m = PUT /\
   exists i rec items,
     lookup_by "id" (JInt id) coll = Ok (Some (i, rec)) /\
     data = JObj items /\
     fst (detail R m id now data coll) =
     set_nth i
       (dict_set "updated_at" (JStr now)
          (update_fields (skipped_keys R) items rec)) coll) \/
  (m = DELETE /\
   exists i rec,
     lookup_by "id" (JInt id) coll = Ok (Some (i, rec)) /\
     detail R m id now data coll =
     (remove_nth i coll, jsonify [("message", JStr (deleted_msg R))] 200)).
Proof.
  unfold detail, catch, bind.
  destruct (lookup_by "id" (JInt id) coll) as [[[i rec]|]|e] eqn:Hl;
    try (now left).
  destruct (negb (truthy (JObj rec))); [now left|].
  destruct m.
  - now left.
  - destruct (negb (truthy data)); [now left|].
    destruct (check_update R id data coll) as [[r|]|e]; try (now left).
    destruct data; try (now left). simpl.
    right; left. split; [reflexivity|]. now exists i, rec, o.
  - right; right. split; [reflexivity|]. now exists i, rec.
Qed.

Lemma detail_put_200 (R : Resource) (id : Z) (now : string) (data : JSON)
    (coll coll' : list dict) (resp : Response) :
  (forall r, check_update R id data coll = Ok (Some r) -> status r <> 200) ->
  detail R PUT id now data coll = (coll', resp) ->
  status resp = 200 ->
  exists i rec items,
    lookup_by "id" (JInt id) coll = Ok (Some (i, rec)) /\
    data = JObj items /\
    let rec' :=
      dict_set "updated_at" (JStr now)
        (update_fields (skipped_keys R) items rec) in
    coll' = set_nth i rec' coll /\
    resp = jsonify [("message", JStr (updated_msg R)); (noun R, JObj rec')] 200.
Proof.
  intros Hc H Hs. unfold detail, catch, bind in H.
  destruct (lookup_by "id" (JInt id) coll) as [[[i rec]|]|e] eqn:Hl;
    close_branch H.
  destruct (negb (truthy (JObj rec))); close_branch H.
  destruct (negb (truthy data)); close_branch H.
  destruct (check_update R id data coll) as [[r|]|e] eqn:Hu; close_branch H.
  - inversion H; subst. exfalso. now apply (Hc resp).
  - destruct data; simpl in H; close_branch H.
    inversion H; subst. now exists i, rec, o.
Qed.

Lemma alumni_check_not_200 (id : Z) (data : JSON) (coll : list dict)
    (r : Response) :
  check_update Alumni id data coll = Ok (Some r) -> status r <> 200.
Proof.
  simpl. unfold alumni_check_update. intros H.
  crush_hyp H; inversion H; subst; discriminate.
Qed.

Lemma deletable_check_not_200 (R : Resource) (create : Creator) :
  In (R, create) deletable ->
  forall id data coll r,
    check_update R id data coll = Ok (Some r) -> status r <> 200.
Proof.
  intros Hin id data coll r.
  destruct Hin as [E|[E|[E|[E|[]]]]]; inversion E; subst;
    try (simpl; unfold no_check; discriminate).
  apply alumni_check_not_200.
Qed.

Lemma deletable_skips_id (R : Resource) (create : Creator) :
  In (R, create) deletable -> In "id" (skipped_keys R).
Proof.
  intros Hin.
  destruct Hin as [E|[E|[E|[E|[]]]]]; inversion E; subst; simpl; auto.
Qed.

(** ** POST *)

Ltac solve_appends H :=
  crush_hyp H; inversion H; subst;
  first
    [ left; split; [reflexivity|discriminate]
    | right; eexists _, _, _;
      split; [reflexivity|]; split; reflexivity ].

Lemma alumni_create_appends (t u : string) (data : JSON) (coll : list dict) :
  appends_next coll (alumni_create t u data coll).
Proof.
  destruct (alumni_create t u data coll) as [coll' resp] eqn:H.
  unfold alumni_create in H. solve_appends H.
Qed.

Lemma event_create_appends (t u : string) (data : JSON) (coll : list dict) :
  appends_next coll (event_create t u data coll).
Proof.
  destruct (event_create t u data coll) as [coll' resp] eqn:H.
  unfold event_create in H. solve_appends H.
Qed.

Lemma job_create_appends (t u : string) (data : JSON) (coll : list dict) :
  appends_next coll (job_create t u data coll).
Proof.
  destruct (job_create t u data coll) as [coll' resp] eqn:H.
  unfold job_create in H. solve_appends H.
Qed.

Lemma post_create_appends (t u : string) (data : JSON) (coll : list dict) :
  appends_next coll (post_create t u data coll).
Proof.
  destruct (post_create t u data coll) as [coll' resp] eqn:H.
  unfold post_create in H. solve_appends H.
Qed.

Lemma donation_create_appends (t : string) (data : JSON) (coll : list dict) :
  appends_next coll (donation_create t data coll).
Proof.
  destruct (donation_create t data coll) as [coll' resp] eqn:H.
  unfold donation_create in H. solve_appends H.
Qed.

Lemma message_create_appends (t : string) (data : JSON) (coll : list dict) :
  appends_next coll (message_create t data coll).
Proof.
  destruct (message_create t data coll) as [coll' resp] eqn:H.
  unfold message_create in H. solve_appends H.
Qed.

Lemma deletable_create_appends (R : Resource) (create : Creator) :
  In (R, create) deletable ->
  forall t u data coll, appends_next coll (create t u data coll).
Proof.
  intros Hin t u data coll.
  destruct Hin as [E|[E|[E|[E|[]]]]]; inversion E; subst.
  - apply alumni_create_appends.
  - apply event_create_appends.
  - apply job_create_appends.
  - apply post_create_appends.
Qed.

Lemma register_store (jwt_encode : dict -> string) (now : string)
    (utcnow : Z) (data : JSON) (users : list dict) :
  let out := register jwt_encode now utcnow data users in
  fst out = users \/
  exists rec,
    fst out = (users ++ [rec])%list /\
    dict_get "id" rec = Some (JInt (next_id users)).
Proof.
  intros out. subst out.
  destruct (register jwt_encode now utcnow data users) as [users' resp] eqn:H.
  unfold register in H.
  crush_hyp H; inversion H; subst;
    first [ now left | right; eexists; split; reflexivity ].
Qed.

Lemma login_store (jwt_encode : dict -> string) (utcnow : Z) (data : JSON)
    (users : list dict) :
  fst (login jwt_encode utcnow data users) = users.
Proof.
  destruct (login jwt_encode utcnow data users) as [users' resp] eqn:H.
  unfold login in H. crush_hyp H; inversion H; subst; reflexivity.
Qed.

(** The donation list changes no id, and leaves alone every record its
    filter does not select. *)
Lemma redact_keeps (k : string) (d : dict) :
  k <> "donor_name" -> k <> "donor_email" ->
  dict_get k (redact d) = dict_get k d.
Proof.
  intros H1 H2. unfold redact.
  destruct (truthy (get_or "anonymous" (JBool false) d)); [|reflexivity].
  rewrite dict_get_set_other by congruence.
  now rewrite dict_get_set_other by congruence.
Qed.

Lemma donation_list_store (purpose : string) (donations : list dict) :
  fst (donation_list purpose donations) =
  map (fun d => if selected purpose d then redact d else d) donations.
Proof.
  unfold donation_list, catch, bind.
  destruct (sum_amounts _ _); reflexivity.
Qed.

Lemma donation_list_ids (purpose : string) (donations : list dict) :
  ids (fst (donation_list purpose donations)) = ids donations /\
  List.length (fst (donation_list purpose donations)) = List.length donations.
Proof.
  rewrite donation_list_store. unfold ids. rewrite map_map, length_map.
  split; [|reflexivity].
  apply map_ext. intros d.
  destruct (selected purpose d); [|reflexivity].
  apply redact_keeps; discriminate.
Qed.

Lemma donation_detail_store (id : Z) (donations : list dict) :
  fst (donation_detail id donations) = donations.
Proof.
  destruct (donation_detail id donations) as [coll' resp] eqn:H.
  unfold donation_detail in H. crush_hyp H; inversion H; subst; reflexivity.
Qed.

(** ** Ids under GET, PUT, DELETE and POST *)

Lemma detail_put_ids (R : Resource) (id : Z) (now : string) (data : JSON)
    (coll : list dict) :
  In "id" (skipped_keys R) ->
  ids (fst (detail R PUT id now data coll)) = ids coll /\
  List.length (fst (detail R PUT id now data coll)) = List.length coll.
Proof.
  intros Hid.
  destruct (detail_store R PUT id now data coll)
    as [->|[(_ & i & rec & items & Hl & _ & ->)|(E & _)]];
    [now split| |discriminate].
  apply lookup_by_some in Hl. destruct Hl as (Hn & _).
  split; [|apply length_set_nth].
  apply ids_set_nth with (r := rec); auto.
  rewrite dict_get_set_other by discriminate.
  now apply update_fields_skipped.
Qed.

Lemma detail_get_store (R : Resource) (id : Z) (now : string) (data : JSON)
    (coll : list dict) :
  fst (detail R GET id now data coll) = coll.
Proof.
  destruct (detail_store R GET id now data coll)
    as [H|[(E & _)|(E & _)]]; [exact H|discriminate|discriminate].
Qed.

Lemma detail_delete_store (R : Resource) (id : Z) (now : string)
    (data : JSON) (coll : list dict) :
  fst (detail R DELETE id now data coll) = coll \/
  exists i, fst (detail R DELETE id now data coll) = remove_nth i coll.
Proof.
  destruct (detail_store R DELETE id now data coll)
    as [H|[(E & _)|(_ & i & rec & _ & ->)]];
    [now left|discriminate|right; now exists i].
Qed.

Lemma detail_distinct (R : Resource) (m : Method) (id : Z) (now : string)
    (data : JSON) (coll : list dict) :
  In "id" (skipped_keys R) ->
  distinct_ids coll -> distinct_ids (fst (detail R m id now data coll)).
Proof.
  intros Hid Hd. destruct m.
  - now rewrite detail_get_store.
  - unfold distinct_ids. now rewrite (proj1 (detail_put_ids _ _ _ _ _ Hid)).
  - destruct (detail_delete_store R id now data coll) as [->|[i ->]]; auto.
    now apply NoDup_remove_nth.
Qed.

Lemma detail_put_consecutive (R : Resource) (id : Z) (now : string)
    (data : JSON) (coll : list dict) :
  In "id" (skipped_keys R) ->
  consecutive_ids coll ->
  consecutive_ids (fst (detail R PUT id now data coll)).
Proof.
  intros Hid Hc. unfold consecutive_ids.
  destruct (detail_put_ids R id now data coll Hid) as [-> ->]. exact Hc.
Qed.

Lemma appends_distinct (coll : list dict) (out : list dict * Response) :
  appends_next coll out ->
  distinct_ids coll ->
  ~ In (Some (JInt (next_id coll))) (ids coll) ->
  distinct_ids (fst out).
Proof.
  intros [[-> _]|(rec & msg & noun & -> & Hid & _)] Hd Hn; auto.
  apply distinct_app; auto. now rewrite Hid.
Qed.

Lemma appends_consecutive (coll : list dict) (out : list dict * Response) :
  appends_next coll out ->
  consecutive_ids coll -> consecutive_ids (fst out).
Proof.
  intros [[-> _]|(rec & msg & noun & -> & Hid & _)] Hc; auto.
  now apply consecutive_app.
Qed.

Lemma appends_201 (coll : list dict) (out : list dict * Response) :
  appends_next coll out ->
  status (snd out) = 201 ->
  exists rec,
    fst out = (coll ++ [rec])%list /\
    dict_get "id" rec = Some (JInt (next_id coll)).
Proof.
  intros [[_ Hs]|(rec & msg & noun & Hf & Hid & _)] H201;
    [contradiction|].
  now exists rec.
Qed.

(** The claim as written fails after a deletion: the record created
    next gets the size of the collection plus one, which is 3 again,
    and not 4. *)
Lemma create_after_delete_gives_3_not_4 :
  let after (R : Resource) (create : Creator) (coll : list dict) (d : JSON) :=
    create "t" "t" d (fst (detail R DELETE 2 "t" JNull coll)) in
  let reused (coll : list dict) (out : list dict * Response) :=
    ids coll = [Some (JInt 1); Some (JInt 2); Some (JInt 3)] /\
    status (snd out) = 201 /\
    ids (fst out) = [Some (JInt 1); Some (JInt 3); Some (JInt 3)] /\
    ~ In (Some (JInt 4)) (ids (fst out)) in
  reused alumni3 (after Alumni alumni_create alumni3 (alumni_body "D" "d@x.com")) /\
  reused events3 (after Event event_create events3 (event_body "E4")) /\
  reused jobs3 (after Job job_create jobs3 (job_body "J4")) /\
  reused posts3 (after Post post_create posts3 (post_body "P4")).
Proof.
  repeat split; intros H; simpl in H;
    repeat (destruct H as [H|H]; [discriminate H|]); exact H.
Qed.

(** C1, amended.  In each of alumni, events, jobs and posts: from a
    collection that holds exactly three records with ids 1, 2 and 3,
    deleting id 2 leaves the records 1 and 3, get(1) and get(3)
    succeed with those records, get(2) fails with 404, and the next
    create that succeeds assigns the size of the collection plus one,
    which is 3, the id the last record already has. *)
Theorem delete_then_create_gives_size_plus_one :
  forall (R : Resource) (create : Creator),
    In (R, create) deletable ->
    forall (r1 r2 r3 : dict) (now : string) (data : JSON),
      dict_get "id" r1 = Some (JInt 1) ->
      dict_get "id" r2 = Some (JInt 2) ->
      dict_get "id" r3 = Some (JInt 3) ->
      detail R DELETE 2 now data [r1; r2; r3] =
      ([r1; r3], jsonify [("message", JStr (deleted_msg R))] 200) /\
      (forall now' data',
         detail R GET 1 now' data' [r1; r3] =
         ([r1; r3], jsonify [(noun R, JObj r1)] 200) /\
         detail R GET 3 now' data' [r1; r3] =
         ([r1; r3], jsonify [(noun R, JObj r3)] 200) /\
         detail R GET 2 now' data' [r1; r3] =
         ([r1; r3], error (not_found_msg R) 404)) /\
      (forall t u body,
         status (snd (create t u body [r1; r3])) = 201 ->
         exists rec,
           fst (create t u body [r1; r3]) = [r1; r3; rec] /\
           dict_get "id" rec = Some (JInt 3) /\
           dict_get "id" rec = dict_get "id" r3).
Proof.
  intros R create Hin r1 r2 r3 now data H1 H2 H3.
  assert (T1 : truthy (JObj r1) = true) by (destruct r1; [discriminate|reflexivity]).
  assert (T2 : truthy (JObj r2) = true) by (destruct r2; [discriminate|reflexivity]).
  assert (T3 : truthy (JObj r3) = true) by (destruct r3; [discriminate|reflexivity]).
  split; [|split].
  - unfold detail, lookup_by, getitem, bind. rewrite H1, H2.
    cbn [py_eq as_num num_eq Z.eqb Pos.eqb option_map fst snd catch].
    now rewrite T2.
  - intros now' data'. repeat split;
      unfold detail, lookup_by, getitem, bind; rewrite H1, ?H3;
      cbn [py_eq as_num num_eq Z.eqb Pos.eqb option_map fst snd catch];
      now rewrite ?T1, ?T3.
  - intros t u body Hs.
    destruct (appends_201 _ _ (deletable_create_appends R create Hin t u body _) Hs)
      as (rec & Hf & Hid).
    exists rec. split; [exact Hf|]. rewrite Hid, H3. split; reflexivity.
Qed.

Lemma delete_then_create_gives_size_plus_one_witness :
  exists rec,
    fst (alumni_create "t" "t" (alumni_body "D" "d@x.com")
           (fst (alumni_detail DELETE 2 "t" JNull alumni3))) =
    (fst (alumni_detail DELETE 2 "t" JNull alumni3) ++ [rec])%list /\
    dict_get "id" rec = Some (JInt 3).
Proof.
  pose proof (delete_then_create_gives_size_plus_one Alumni alumni_create
    (or_introl eq_refl) (nth 0 alumni3 []) (nth 1 alumni3 [])
    (nth 2 alumni3 []) "t" JNull eq_refl eq_refl eq_refl) as (_ & _ & H).
  destruct (H "t" "t" (alumni_body "D" "d@x.com") eq_refl) as (rec & Hf & Hid & _).
  exists rec. split; [exact Hf|exact Hid].
Defined.

(** The claim as written fails for a create that follows a delete: two
    records end up with the same id. *)
Lemma create_after_delete_duplicates_id :
  let run (R : Resource) (create : Creator) (a b c : JSON) :=
    fst (create "t" "t" c
           (fst (detail R DELETE 1 "t" JNull
                   (fst (create "t" "t" b (fst (create "t" "t" a [] ))))))) in
  let twice (coll : list dict) :=
    ids coll = [Some (JInt 2); Some (JInt 2)] /\ ~ distinct_ids coll in
  twice (run Alumni alumni_create (alumni_body "A" "a@x.com")
           (alumni_body "B" "b@x.com") (alumni_body "C" "c@x.com")) /\
  twice (run Event event_create (event_body "E1") (event_body "E2")
           (event_body "E3")) /\
  twice (run Job job_create (job_body "J1") (job_body "J2") (job_body "J3")) /\
  twice (run Post post_create (post_body "P1") (post_body "P2")
           (post_body "P3")).
Proof.
  repeat split; intros H; inversion H as [|x l Hx Hl E]; subst;
    apply Hx; now left.
Qed.

(** C2, amended.  In every collection a record keeps the id it was
    given: PUT leaves every id in its place, DELETE only removes a
    record, POST only appends one, and the donation list changes no
    id.  Ids are pairwise distinct in the empty collection, and PUT and
    DELETE keep them so.  POST gives the new record the size of the
    collection plus one, and keeps the ids distinct when no record has
    that id yet.  This is so whenever the ids are 1..n, which POST and
    PUT preserve: in users, donations and messages, which have no
    DELETE, the ids are always 1..n and pairwise distinct. *)
Theorem ids_stable_and_distinct_until_reuse :
  (distinct_ids [] /\ consecutive_ids []) /\
  (forall coll, consecutive_ids coll ->
     distinct_ids coll /\ ~ In (Some (JInt (next_id coll))) (ids coll)) /\
  (forall R create, In (R, create) deletable ->
   forall coll id now data t u,
     (fst (detail R GET id now data coll) = coll) /\
     (ids (fst (detail R PUT id now data coll)) = ids coll) /\
     (fst (detail R DELETE id now data coll) = coll \/
      exists i, fst (detail R DELETE id now data coll) = remove_nth i coll) /\
     (forall m, distinct_ids coll ->
        distinct_ids (fst (detail R m id now data coll))) /\
     appends_next coll (create t u data coll) /\
     (distinct_ids coll ->
      ~ In (Some (JInt (next_id coll))) (ids coll) ->
      distinct_ids (fst (create t u data coll))) /\
     (consecutive_ids coll ->
      consecutive_ids (fst (create t u data coll)) /\
      consecutive_ids (fst (detail R PUT id now data coll)))) /\
  (forall jwt_encode now utcnow data users,
     consecutive_ids users ->
     consecutive_ids (fst (register jwt_encode now utcnow data users)) /\
     fst (login jwt_encode utcnow data users) = users) /\
  (forall t purpose id data donations,
     consecutive_ids donations ->
     consecutive_ids (fst (donation_create t data donations)) /\
     consecutive_ids (fst (donation_list purpose donations)) /\
     ids (fst (donation_list purpose donations)) = ids donations /\
     fst (donation_detail id donations) = donations) /\
  (forall t data messages,
     consecutive_ids messages ->
     consecutive_ids (fst (message_create t data messages))).
Proof.
  split; [split; [constructor|reflexivity]|].
  split; [intros coll Hc; split;
          [now apply consecutive_distinct|now apply consecutive_next_free]|].
  split; [|split; [|split]].
  - intros R create Hin coll id now data t u.
    pose proof (deletable_skips_id R create Hin) as Hid.
    pose proof (deletable_create_appends R create Hin t u data coll) as Ha.
    split; [apply detail_get_store|].
    split; [apply (detail_put_ids R id now data coll Hid)|].
    split; [apply detail_delete_store|].
    split; [intros m; now apply detail_distinct|].
    split; [exact Ha|].
    split; [now apply appends_distinct|].
    intros Hc. split; [now apply (appends_consecutive coll)|].
    now apply detail_put_consecutive.
  - intros jwt_encode now utcnow data users Hc.
    split; [|apply login_store].
    destruct (register_store jwt_encode now utcnow data users)
      as [->|(rec & -> & Hid)]; auto.
    now apply consecutive_app.
  - intros t purpose id data donations Hc.
    split; [apply (appends_consecutive donations);
            [apply donation_create_appends|exact Hc]|].
    destruct (donation_list_ids purpose donations) as [Hi Hl].
    split; [|split; [exact Hi|apply donation_detail_store]].
    unfold consecutive_ids. now rewrite Hi, Hl.
  - intros t data messages Hc.
    apply (appends_consecutive messages); [|exact Hc].
    apply message_create_appends.
Qed.

Lemma ids_stable_and_distinct_until_reuse_witness :
  distinct_ids alumni3 /\
  distinct_ids
    (fst (alumni_create "t" "t" (alumni_body "D" "d@x.com") alumni3)) /\
  distinct_ids (fst (alumni_detail DELETE 2 "t" JNull alumni3)).
Proof.
  destruct ids_stable_and_distinct_until_reuse as (_ & Hc & Hd & _).
  assert (C : consecutive_ids alumni3) by reflexivity.
  destruct (Hc alumni3 C) as [D N].
  destruct (Hd Alumni alumni_create (or_introl eq_refl) alumni3 2 "t" JNull
              "t" "t") as (_ & _ & _ & Hm & _).
  destruct (Hd Alumni alumni_create (or_introl eq_refl) alumni3 2 "t"
              (alumni_body "D" "d@x.com") "t" "t")
    as (_ & _ & _ & _ & _ & Hcr & _).
  split; [exact D|]. split; [exact (Hcr D N)|exact (Hm DELETE D)].
Defined.

(** ** PUT *)

(** C6.  After a PUT answered 200, in each of alumni, events, jobs and
    posts: every field the payload names holds the value supplied,
    apart from the fields the claim itself fixes, which are [id],
    [created_at] for a post, and [updated_at]; the id is unchanged;
    for a post [created_at] is unchanged; every stored field the
    payload does not name, other than [updated_at], is unchanged;
    [updated_at] is the timestamp of the operation.  The record
    updated is the first one with the id asked for, the answer carries
    it, and every other record of the collection is as it was. *)
Theorem update_overwrites_named_fields :
  forall (R : Resource) (create : Creator),
    In (R, create) deletable ->
    forall (id : Z) (now : string) (items : dict)
           (coll coll' : list dict) (resp : Response),
      NoDup (map fst items) ->
      detail R PUT id now (JObj items) coll = (coll', resp) ->
      status resp = 200 ->
      exists i rec rec',
        lookup_by "id" (JInt id) coll = Ok (Some (i, rec)) /\
        nth_error coll i = Some rec /\
        nth_error coll' i = Some rec' /\
        (forall j, j <> i -> nth_error coll' j = nth_error coll j) /\
        resp =
        jsonify [("message", JStr (updated_msg R)); (noun R, JObj rec')] 200 /\
        (forall k v,
           dict_get k items = Some v ->
           k <> "id" -> k <> "updated_at" ->
           (R = Post -> k <> "created_at") ->
           dict_get k rec' = Some v) /\
        dict_get "id" rec' = dict_get "id" rec /\
        (R = Post -> dict_get "created_at" rec' = dict_get "created_at" rec) /\
        (forall k,
           dict_get k items = None -> k <> "updated_at" ->
           dict_get k rec' = dict_get k rec) /\
        dict_get "updated_at" rec' = Some (JStr now).
Proof.
  intros R create Hin id now items coll coll' resp Hnd H Hs.
  pose proof (deletable_check_not_200 R create Hin id (JObj items) coll) as Hc.
  destruct (detail_put_200 R id now (JObj items) coll coll' resp Hc H Hs)
    as (i & rec & items' & Hl & E & Hcoll & Hresp).
  inversion E; subst items'. clear E.
  pose proof (lookup_by_some _ _ _ _ _ Hl) as (Hn & _).
  exists i, rec. eexists. split; [exact Hl|]. split; [exact Hn|].
  split; [rewrite Hcoll; now apply nth_error_set_nth_same with (r0 := rec)|].
  split; [intros j Hj; rewrite Hcoll; apply nth_error_set_nth_other; auto|].
  split; [exact Hresp|].
  split; [|split; [|split; [|split]]].
  - intros k v Hk Hid Hup Hpost.
    rewrite dict_get_set_other by auto.
    apply update_fields_present; auto.
    destruct Hin as [E|[E|[E|[E|[]]]]]; inversion E; subst; simpl;
      try (intros [?|[]]; congruence).
    intros [?|[?|[]]]; [congruence|]. now apply Hpost.
  - rewrite dict_get_set_other by discriminate.
    apply update_fields_skipped. now apply (deletable_skips_id R create).
  - intros ->. rewrite dict_get_set_other by discriminate.
    apply update_fields_skipped. simpl. auto.
  - intros k Hk Hup. rewrite dict_get_set_other by auto.
    now apply update_fields_absent.
  - apply dict_get_set_same.
Qed.

Lemma update_overwrites_named_fields_witness :
  let items := [("content", JStr "Edited"); ("id", JInt 9);
                ("created_at", JStr "z")] in
  let out := post_detail PUT 2 "now" (JObj items) posts3 in
  exists i rec rec',
    nth_error posts3 i = Some rec /\
    nth_error (fst out) i = Some rec' /\
    dict_get "content" rec' = Some (JStr "Edited") /\
    dict_get "id" rec' = Some (JInt 2) /\
    dict_get "created_at" rec' = Some (JStr "t") /\
    dict_get "author_name" rec' = Some (JStr "P2") /\
    dict_get "updated_at" rec' = Some (JStr "now").
Proof.
  intros items out.
  assert (Hnd : NoDup (map fst items)).
  { repeat constructor; simpl; intros H;
      repeat (destruct H as [H|H]; [discriminate H|]); exact H. }
  destruct (update_overwrites_named_fields Post post_create
              (or_intror (or_intror (or_intror (or_introl eq_refl))))
              2 "now" items posts3 (fst out) (snd out) Hnd eq_refl eq_refl)
    as (i & rec & rec' & Hl & Hn & Hn' & _ & _ & Hset & Hid & Hcr & Hkeep & Hup).
  exists i, rec, rec'.
  assert (Hrec : rec = nth 1 posts3 []) by (inversion Hl; reflexivity).
  split; [exact Hn|]. split; [exact Hn'|].
  split; [apply Hset; [reflexivity|discriminate|discriminate|discriminate]|].
  split; [rewrite Hid, Hrec; reflexivity|].
  split; [rewrite (Hcr eq_refl), Hrec; reflexivity|].
  split; [rewrite Hkeep, Hrec; [reflexivity|reflexivity|discriminate]|].
  exact Hup.
Defined.

(** ** The order of [str] *)

Lemma str_ltb_lt (a b : string) :
  str_ltb a b = true <-> String_as_OT.lt a b.
Proof.
  unfold str_ltb, String_as_OT.lt.
  destruct (String_as_OT.compare a b); split; congruence.
Qed.

Lemma str_ltb_irrefl (a : string) : str_ltb a a = false.
Proof.
  destruct (str_ltb a a) eqn:E; [|reflexivity].
  apply str_ltb_lt in E. exfalso. exact (irreflexivity E).
Qed.

Lemma str_ltb_trans (a b c : string) :
  str_ltb a b = true -> str_ltb b c = true -> str_ltb a c = true.
Proof.
  rewrite !str_ltb_lt. apply String_as_OT.lt_strorder.
Qed.

Lemma str_ge_cases (a b : string) :
  str_ge a b <-> a = b \/ str_ltb b a = true.
Proof.
  unfold str_ge. rewrite str_ltb_lt. unfold str_ltb.
  destruct (String_as_OT.compare_spec a b) as [E|L|G]; split; intros H;
    try congruence; auto.
  - destruct H as [->|H]; [exfalso; exact (irreflexivity L)|].
    exfalso. exact (irreflexivity (transitivity L H)).
Qed.

Lemma str_ge_refl (a : string) : str_ge a a.
Proof. apply str_ltb_irrefl. Qed.

Lemma str_ge_trans (a b c : string) :
  str_ge a b -> str_ge b c -> str_ge a c.
Proof.
  rewrite !str_ge_cases. intros [->|H1] [->|H2]; auto.
  right. now apply (str_ltb_trans c b a).
Qed.

Lemma str_lt_ge (a b : string) : str_ltb a b = true -> str_ge b a.
Proof.
  intros H. apply str_ge_cases. now right.
Qed.

(** ** Sorting newest first *)

Lemma insert_desc_perm (x : string * dict) (l : list (string * dict)) :
  Permutation (x :: l) (insert_desc x l).
Proof.
  induction l as [|y r IH]; simpl; [reflexivity|].
  destruct (str_ltb (fst x) (fst y)); [|reflexivity].
  rewrite perm_swap. now apply perm_skip.
Qed.

Lemma sort_desc_perm (l : list (string * dict)) :
  Permutation l (sort_desc l).
Proof.
  induction l as [|x r IH]; simpl; [reflexivity|].
  rewrite <- insert_desc_perm. now apply perm_skip.
Qed.

Lemma insert_desc_sorted (x : string * dict) (l : list (string * dict)) :
  StronglySorted (fun a b => str_ge (fst a) (fst b)) l ->
  StronglySorted (fun a b => str_ge (fst a) (fst b)) (insert_desc x l).
Proof.
  induction l as [|y r IH]; simpl; intros Hs.
  - repeat constructor.
  - inversion Hs as [|? ? Hr Hy]; subst.
    destruct (str_ltb (fst x) (fst y)) eqn:E.
    + constructor; [now apply IH|].
      apply (Permutation_Forall (insert_desc_perm x r)).
      constructor; [now apply str_lt_ge|exact Hy].
    + constructor; [exact Hs|].
      constructor; [exact E|].
      eapply Forall_impl; [|exact Hy].
      intros z Hz. now apply (str_ge_trans _ (fst y)).
Qed.

Lemma sort_desc_sorted (l : list (string * dict)) :
  StronglySorted (fun a b => str_ge (fst a) (fst b)) (sort_desc l).
Proof.
  induction l as [|x r IH]; simpl; [constructor|].
  now apply insert_desc_sorted.
Qed.

Lemma keyed_spec (k : string) (l : list dict) (kl : list (string * dict)) :
  keyed k l = Ok kl ->
  map snd kl = l /\
  Forall (fun sx => dict_get k (snd sx) = Some (JStr (fst sx))) kl.
Proof.
  revert kl. induction l as [|x r IH]; simpl; intros kl H.
  - inversion H. split; constructor.
  - unfold getitem, bind in H.
    destruct (dict_get k x) as [[| | | |s| |]|] eqn:Ex; try discriminate.
    destruct (keyed k r) as [rest|] eqn:Er; [|discriminate].
    inversion H; subst. destruct (IH rest eq_refl) as [Hm Hf].
    split; [simpl; now rewrite Hm|]. constructor; auto.
Qed.

Lemma keyed_total (l : list dict) :
  timestamped l -> exists kl, keyed "created_at" l = Ok kl.
Proof.
  induction 1 as [|x r (s & Hs) _ (kl & IH)]; simpl.
  - now exists [].
  - unfold getitem, bind. rewrite Hs, IH. now eexists.
Qed.

Lemma keyed_newest_first (l : list (string * dict)) :
  Forall (fun sx => dict_get "created_at" (snd sx) = Some (JStr (fst sx))) l ->
  StronglySorted (fun a b => str_ge (fst a) (fst b)) l ->
  newest_first (map snd l).
Proof.
  intros Hk Hs. induction Hs as [|x r Hr IH Hx]; simpl; [constructor|].
  inversion Hk as [|? ? Kx Kr]; subst.
  constructor; [now apply IH|].
  apply Forall_map. rewrite Forall_forall in *.
  intros y Hy. unfold created_at.
  rewrite Kx, (Kr y Hy). now apply Hx.
Qed.

Lemma sorted_desc_by_spec (l sorted : list dict) :
  sorted_desc_by "created_at" l = Ok sorted ->
  newest_first sorted /\ Permutation l sorted.
Proof.
  unfold sorted_desc_by, bind.
  destruct (keyed "created_at" l) as [kl|] eqn:Ek; [|discriminate].
  intros H. inversion H; subst. clear H.
  destruct (keyed_spec _ _ _ Ek) as [Hm Hf]. split.
  - apply keyed_newest_first; [|apply sort_desc_sorted].
    apply (Permutation_Forall (sort_desc_perm kl)). exact Hf.
  - rewrite <- Hm. apply Permutation_map, sort_desc_perm.
Qed.


(** ** The filters of the posts list *)

Lemma filter_filter_and {A : Type} (f g : A -> bool) (l : list A) :
  filter g (filter f l) = filter (fun x => f x && g x) l.
Proof.
  induction l as [|x r IH]; simpl; [reflexivity|].
  destruct (f x); simpl; [|exact IH].
  destruct (g x); now rewrite IH.
Qed.

Lemma filter_all {A : Type} (l : list A) : filter (fun _ => true) l = l.
Proof. induction l as [|x r IH]; simpl; congruence. Qed.

Lemma filter_author_spec (author : string) (l l' : list dict) :
  filter_author author l = Ok l' ->
  l' =
  filter
    (fun p =>
       match get_or "author_name" (JStr "") p with
       | JStr s => is_substring author (lower s)
       | _ => false
       end) l.
Proof.
  revert l'. induction l as [|p r IH]; simpl; intros l' H.
  - now inversion H.
  - unfold bind in H.
    destruct (get_or "author_name" (JStr "") p); simpl in H;
      try discriminate.
    destruct (filter_author author r) as [rest|]; [|discriminate].
    inversion H; subst. rewrite (IH rest eq_refl).
    now destruct (is_substring author (lower s)).
Qed.


(** ** Every reachable post has a timestamp *)


Lemma Forall_remove_nth (P : dict -> Prop) (i : nat) (l : list dict) :
  Forall P l -> Forall P (remove_nth i l).
Proof.
  intros Hl. revert i.
  induction Hl as [|x l Hx Hl IH]; intros [|i]; simpl; auto.
Qed.







Lemma timestamped_filter (f : dict -> bool) (posts : list dict) :
  timestamped posts -> timestamped (filter f posts).
Proof.
  unfold timestamped. rewrite !Forall_forall.
  intros H p Hp. apply filter_In in Hp. now apply H.
Qed.






(** * Further properties of the handlers *)

(** ** Regular expressions and the email pattern *)

Lemma append_nil_r (s : string) : s ++ "" = s.
Proof. induction s as [|c s IH]; simpl; congruence. Qed.

Lemma append_assoc (a b c : string) : (a ++ b) ++ c = a ++ (b ++ c).
Proof. induction a as [|x a IH]; simpl; congruence. Qed.

Lemma append_eq_nil (a b : string) : a ++ b = "" -> a = "" /\ b = "".
Proof. destruct a; simpl; [auto|discriminate]. Qed.

Lemma length_append (a b : string) :
  String.length (a ++ b) = (String.length a + String.length b)%nat.
Proof. induction a as [|x a IH]; simpl; congruence. Qed.

Lemma matches_nil_nullable (r : regex) (s : string) :
  matches r s -> s = "" -> nullable r = true.
Proof.
  induction 1 as [|p c Hp|r s a b Ha IHa Hb IHb|r s a Ha IH|r s a Ha IH
                  |r|r a b Ha IHa Hb IHb]; intros E; simpl; auto.
  - discriminate.
  - apply append_eq_nil in E. destruct E as [Ea Eb].
    now rewrite IHa, IHb.
  - now rewrite IH.
  - rewrite IH by auto. apply orb_true_r.
Qed.

Lemma nullable_matches (r : regex) : nullable r = true <-> matches r "".
Proof.
  split; [|intros H; now apply (matches_nil_nullable r "")].
  induction r as [| |p|r IHr s IHs|r IHr s IHs|r IHr]; simpl; intros H;
    try discriminate.
  - constructor.
  - apply andb_true_iff in H. destruct H as [Hr Hs].
    change "" with ("" ++ ""). constructor; auto.
  - apply orb_true_iff in H. destruct H as [H|H].
    + apply MAltL; auto.
    + apply MAltR; auto.
  - constructor.
Qed.

Lemma deriv_sound (c : ascii) (r : regex) :
  forall s, matches (deriv c r) s -> matches r (String c s).
Proof.
  induction r as [| |p|r IHr q IHq|r IHr q IHq|r IHr]; simpl; intros s H.
  - inversion H.
  - inversion H.
  - destruct (p c) eqn:E; inversion H; subst. now constructor.
  - destruct (nullable r) eqn:N.
    + inversion H as [| |? ? ? ? ? ?|? ? ? H1|? ? ? H1| |]; subst.
      * inversion H1; subst.
        change (String c (a ++ b)) with (String c a ++ b).
        constructor; auto.
      * change (String c s) with ("" ++ String c s).
        constructor; auto. now apply nullable_matches.
    + inversion H; subst.
      change (String c (a ++ b)) with (String c a ++ b).
      constructor; auto.
  - inversion H; subst; [apply MAltL|apply MAltR]; auto.
  - inversion H; subst.
    change (String c (a ++ b)) with (String c a ++ b).
    constructor; auto.
Qed.

Lemma deriv_complete (r : regex) (t : string) :
  matches r t ->
  forall c s, t = String c s -> matches (deriv c r) s.
Proof.
  induction 1 as [|p c0 Hp|r q a b Ha IHa Hb IHb|r q a Ha IH|r q a Ha IH
                  |r|r a b Ha IHa Hb IHb]; intros c s E; simpl.
  - discriminate.
  - inversion E; subst. rewrite Hp. constructor.
  - destruct a as [|x a]; simpl in E.
    + subst b. rewrite (proj2 (nullable_matches r) Ha).
      apply MAltR. now apply IHb.
    + inversion E; subst.
      destruct (nullable r); [apply MAltL|]; constructor; auto.
  - apply MAltL. now apply IH.
  - apply MAltR. now apply IH.
  - discriminate.
  - destruct a as [|x a]; simpl in E.
    + subst b. now apply IHb.
    + inversion E; subst. constructor; auto.
Qed.

(** The matcher decides the language of the expression. *)
Lemma full_match_matches (r : regex) (s : string) :
  full_match r s = true <-> matches r s.
Proof.
  revert r. induction s as [|c s IH]; intros r; simpl.
  - apply nullable_matches.
  - rewrite IH. split.
    + apply deriv_sound.
    + intros H. now apply (deriv_complete r (String c s)).
Qed.

Lemma matches_star_class (r : regex) (s : string) :
  matches r s ->
  forall p, r = RStar (RChar p) -> all_chars p s = true.
Proof.
  induction 1 as [|p c0 Hp|r q a b Ha IHa Hb IHb|r q a Ha IH|r q a Ha IH
                  |r|r a b Ha IHa Hb IHb]; intros p0 E; try discriminate.
  - reflexivity.
  - inversion E; subst. inversion Ha; subst. simpl.
    rewrite H0. now apply IHb.
Qed.

Lemma star_class_matches (p : ascii -> bool) (s : string) :
  all_chars p s = true -> matches (RStar (RChar p)) s.
Proof.
  induction s as [|c s IH]; simpl; intros H; [constructor|].
  apply andb_true_iff in H. destruct H as [Hc Hs].
  change (String c s) with (String c "" ++ s).
  constructor; [now constructor|now apply IH].
Qed.

Lemma plus_class_matches (p : ascii -> bool) (s : string) :
  matches (RPlus (RChar p)) s <-> s <> "" /\ all_chars p s = true.
Proof.
  unfold RPlus. split.
  - intros H. inversion H; subst. inversion H2; subst. simpl.
    split; [discriminate|]. rewrite H1.
    now apply (matches_star_class _ _ H4).
  - intros [Hn Ha]. destruct s as [|c s]; [contradiction|].
    simpl in Ha. apply andb_true_iff in Ha. destruct Ha as [Hc Hs].
    change (String c s) with (String c "" ++ s).
    constructor; [now constructor|now apply star_class_matches].
Qed.

Lemma all_chars_append (p : ascii -> bool) (a b : string) :
  all_chars p (a ++ b) = all_chars p a && all_chars p b.
Proof.
  induction a as [|c a IH]; simpl; [reflexivity|].
  now rewrite IH, andb_assoc.
Qed.

Lemma email_pattern_shape (s : string) :
  matches email_pattern s <-> email_shape s.
Proof.
  unfold email_pattern, email_shape. split.
  - intros H.
    inversion H as [| |? ? loc r1 Hloc H1| | | |]; subst.
    inversion H1 as [| |? ? at_ r2 Hat H2| | | |]; subst.
    inversion H2 as [| |? ? dom r3 Hdom H3| | | |]; subst.
    inversion H3 as [| |? ? dot r4 Hdot H4| | | |]; subst.
    inversion H4 as [| |? ? c1 r5 Hc1 H5| | | |]; subst.
    inversion H5 as [| |? ? c2 r6 Hc2 H6| | | |]; subst.
    inversion Hat as [|? ca Ea| | | | |]; subst.
    inversion Hdot as [|? cd Ed| | | | |]; subst.
    inversion Hc1 as [|? x1 E1| | | | |]; subst.
    inversion Hc2 as [|? x2 E2| | | | |]; subst.
    apply Ascii.eqb_eq in Ea, Ed. subst ca cd.
    apply plus_class_matches in Hloc, Hdom.
    destruct Hloc as [Ln La]. destruct Hdom as [Dn Da].
    exists loc, dom, (String x1 (String x2 r6)).
    repeat split; auto.
    + simpl. lia.
    + simpl. rewrite E1, E2. now apply (matches_star_class _ _ H6).
  - intros (loc & dom & tld & -> & Ln & La & Dn & Da & Tl & Ta).
    destruct tld as [|x1 [|x2 tld]]; simpl in Tl; try lia.
    simpl in Ta. apply andb_true_iff in Ta. destruct Ta as [E1 Ta].
    apply andb_true_iff in Ta. destruct Ta as [E2 Ta].
    constructor; [now apply plus_class_matches|].
    change ("@" ++ dom ++ "." ++ String x1 (String x2 tld))
      with (String "@" "" ++ (dom ++ String "." "" ++
            (String x1 "" ++ (String x2 "" ++ tld)))).
    constructor; [constructor; apply Ascii.eqb_refl|].
    constructor; [now apply plus_class_matches|].
    constructor; [constructor; apply Ascii.eqb_refl|].
    constructor; [now constructor|].
    constructor; [now constructor|now apply star_class_matches].
Qed.

Lemma last_char_append (s : string) (c : ascii) :
  last_char (s ++ String c "") = Some c /\
  drop_last (s ++ String c "") = s.
Proof.
  induction s as [|x s [IH1 IH2]]; simpl; [auto|].
  destruct (s ++ String c "") eqn:E.
  - destruct s; discriminate.
  - rewrite IH1, IH2. auto.
Qed.

Lemma last_char_some (s : string) (c : ascii) :
  last_char s = Some c -> s = drop_last s ++ String c "".
Proof.
  induction s as [|x s IH]; simpl; [discriminate|].
  destruct s as [|y s].
  - now intros [= ->].
  - intros H. simpl. f_equal. now apply IH.
Qed.

(** X1.  [validate_email] accepts exactly the strings of the shape
    [local@domain.tld], and those strings followed by one line feed;
    a value that is not a string raises [TypeError]. *)
Theorem validate_email_accepts_shape :
  forall (v : JSON),
    (forall s, v = JStr s ->
       (validate_email v = Ok true <->
        email_shape s \/ exists s', s = s' ++ line_feed /\ email_shape s') /\
       (validate_email v = Ok true \/ validate_email v = Ok false)) /\
    ((forall s, v <> JStr s) -> validate_email v = Raise TypeError).
Proof.
  intros v. split.
  - intros s ->. simpl. split.
    + unfold re_match_anchored. split.
      * intros H. inversion H as [H1]. clear H.
        apply orb_true_iff in H1. destruct H1 as [H1|H1].
        -- left. now apply email_pattern_shape, full_match_matches.
        -- right. destruct (last_char s) as [c|] eqn:El; [|discriminate].
           apply andb_true_iff in H1. destruct H1 as [Ec Hm].
           apply Ascii.eqb_eq in Ec. subst c.
           exists (drop_last s). split; [now apply last_char_some|].
           now apply email_pattern_shape, full_match_matches.
      * intros [H|(s' & -> & H)]; f_equal; apply orb_true_iff.
        -- left. now apply full_match_matches, email_pattern_shape.
        -- right. unfold line_feed.
           destruct (last_char_append s' (ascii_of_nat 10)) as [-> ->].
           rewrite Ascii.eqb_refl. simpl.
           now apply full_match_matches, email_pattern_shape.
    + destruct (re_match_anchored email_pattern s); auto.
  - intros H. destruct v; try reflexivity. exfalso. now apply (H s).
Qed.

Lemma validate_email_accepts_shape_witness :
  email_shape "a.b+c@d-e.org" \/
  exists s', "a.b+c@d-e.org" = s' ++ line_feed /\ email_shape s'.
Proof.
  destruct (validate_email_accepts_shape (JStr "a.b+c@d-e.org")) as [H _].
  destruct (H "a.b+c@d-e.org" eq_refl) as [[H1 _] _].
  apply H1. reflexivity.
Defined.

(** ** Register, then login *)

Lemma lower_char_idem (c : ascii) : lower_char (lower_char c) = lower_char c.
Proof. destruct c as [[] [] [] [] [] [] [] []]; reflexivity. Qed.

Lemma lower_idem (s : string) : lower (lower s) = lower s.
Proof.
  induction s as [|c s IH]; simpl; [reflexivity|].
  now rewrite lower_char_idem, IH.
Qed.

Lemma lower_nil (s : string) : lower s = "" -> s = "".
Proof. destruct s; simpl; [auto|discriminate]. Qed.

(** *** Characters from 128 on

    The codes that [str.lower] changes are 65 to 90 and 192 to 222
    without 215, and each moves up by 32. *)
Lemma lower_char_code (c : ascii) :
  let n := nat_of_ascii c in
  nat_of_ascii (lower_char c) =
  if ((65 <=? n) && (n <=? 90) ||
      (192 <=? n) && (n <=? 222) && negb (n =? 215))%nat
  then (n + 32)%nat else n.
Proof. destruct c as [[] [] [] [] [] [] [] []]; reflexivity. Qed.

(** The characters that [float] strips are 9 to 13, 32, 133 and 160. *)
Lemma is_space_codes :
  filter (fun n => is_space (ascii_of_nat n)) (seq 0 256) =
  [9; 10; 11; 12; 13; 32; 133; 160]%nat.
Proof. reflexivity. Qed.

(** A message stored with a sender written with U+00E9 is listed for
    the same address written with U+00C9. *)
Lemma message_list_folds_accents :
  let created :=
    message_create "t"
      (JObj [("sender_email", JStr (String e_acute "@x.com"));
             ("recipient_email", JStr "bob@x.com");
             ("content", JStr "hi")]) [] in
  status (snd created) = 201 /\
  snd (message_list (String E_acute "@X.com") "" (fst created)) =
  jsonify [("messages", JList (map JObj (fst created))); ("total", JInt 1)]
    200.
Proof. split; reflexivity. Qed.

(** An amount written with a no-break space before the digits is read
    as the number; one written with the separator U+001C is refused. *)
Lemma donation_amount_with_no_break_space :
  let created :=
    donation_create "t"
      (donation_body "A" (JStr (String no_break_space "5")) false) [] in
  let refused :=
    donation_create "t"
      (donation_body "A" (JStr (String file_separator "5")) false) [] in
  py_float (JStr "5") = Ok f5 /\
  status (snd created) = 201 /\
  map (dict_get "amount") (fst created) = [Some (JFloat f5)] /\
  refused = ([], error "Invalid amount format" 400).
Proof. repeat split. Qed.

Lemma lookup_by_app_none (key : string) (v x : JSON) (l : list dict)
    (u : dict) :
  lookup_by key v l = Ok None ->
  dict_get key u = Some x -> py_eq x v = true ->
  lookup_by key v (l ++ [u]) = Ok (Some (List.length l, u)).
Proof.
  intros Hl Hu Hx. induction l as [|d r IH]; simpl in *.
  - unfold getitem. rewrite Hu. simpl. now rewrite Hx.
  - unfold getitem in *. destruct (dict_get key d) as [y|]; simpl in *;
      [|discriminate].
    destruct (py_eq y v); [discriminate|].
    destruct (lookup_by key v r) as [[[i rec]|]|]; simpl in Hl;
      try discriminate.
    now rewrite IH.
Qed.

Lemma lookup_by_app_some (key : string) (v : JSON) (l l' : list dict)
    (i : nat) (rec : dict) :
  lookup_by key v l = Ok (Some (i, rec)) ->
  lookup_by key v (l ++ l') = Ok (Some (i, rec)).
Proof.
  revert i. induction l as [|d r IH]; simpl; intros i H; [discriminate|].
  unfold getitem in *. destruct (dict_get key d) as [y|]; simpl in *;
    [|discriminate].
  destruct (py_eq y v); [exact H|].
  destruct (lookup_by key v r) as [[[j rec']|]|]; simpl in H;
    try discriminate.
  inversion H; subst. now rewrite (IH j eq_refl).
Qed.

Lemma register_201_truthy (jwt_encode : dict -> string) (now : string)
    (utcnow : Z) (d : dict) (users users' : list dict) (resp : Response) :
  register jwt_encode now utcnow (JObj d) users = (users', resp) ->
  status resp = 201 ->
  truthy (get "email" d) = true /\ truthy (get "password" d) = true /\
  exists password n,
    dict_get "password" d = Some password /\
    py_len password = Ok n /\ 6 <= n.
Proof.
  intros H Hs. unfold register in H.
  unfold with_required, catch in H.
  destruct (negb (truthy (JObj d))); [inversion H; subst; discriminate|].
  cbn [as_dict bind] in H.
  destruct (first_missing ["email"; "password"; "name"] d) eqn:Hm;
    [inversion H; subst; discriminate|].
  unfold first_missing in Hm.
  destruct (truthy (get "email" d)); [|discriminate].
  destruct (truthy (get "password" d)); [|discriminate].
  split; [reflexivity|]. split; [reflexivity|].
  crush_hyp H.
  all: repeat eexists; eauto; lia.
Qed.

(** X2.  After a register answered 201 for an address that no stored
    user had, a login with that address in any letter case and with the
    same password string is answered 200, for the user just created:
    the answer carries the new id and the token issued for it. *)
Theorem login_after_register :
  forall (jwt_encode : dict -> string) (now : string) (utcnow utcnow' : Z)
         (d d' : dict) (email email' password : string)
         (users users' : list dict) (resp : Response),
    register jwt_encode now utcnow (JObj d) users = (users', resp) ->
    status resp = 201 ->
    dict_get "email" d = Some (JStr email) ->
    dict_get "password" d = Some (JStr password) ->
    lookup_by "email" (JStr (lower email)) users = Ok None ->
    dict_get "email" d' = Some (JStr email') ->
    dict_get "password" d' = Some (JStr password) ->
    lower email' = lower email ->
    exists user,
      users' = (users ++ [user])%list /\
      dict_get "id" user = Some (JInt (next_id users)) /\
      login jwt_encode utcnow' (JObj d') users' =
      (users',
       jsonify
         [("message", JStr "Login successful");
          ("user", JObj (without_key "password" user));
          ("token",
            JStr (issue_token jwt_encode utcnow' (JInt (next_id users))
                    (JStr (lower email))))] 200).
Proof.
  intros jwt_encode now utcnow utcnow' d d' email email' password
    users users' resp H Hs He Hp Hnone He' Hp' Hlow.
  destruct (register_201_truthy _ _ _ _ _ _ _ H Hs) as (Te & Tp & _).
  destruct (register_201 _ _ _ _ _ _ _ H Hs)
    as (d0 & email0 & password0 & name & E & He0 & Hp0 & _ & _ & Hu & _).
  inversion E; subst d0. clear E.
  rewrite He in He0. inversion He0; subst email0.
  rewrite Hp in Hp0. inversion Hp0; subst password0.
  eexists. split; [exact Hu|]. split; [reflexivity|].
  rewrite Hu. unfold login, catch.
  assert (Td : truthy (JObj d') = true) by (destruct d'; [discriminate|reflexivity]).
  rewrite Td. cbn [negb as_dict bind].
  unfold get_or. rewrite He', Hp'. cbn [py_lower bind]. rewrite Hlow.
  assert (Tl : truthy (JStr (lower email)) = true).
  { unfold get, get_or in Te. rewrite He in Te. simpl in *.
    destruct (String.eqb_spec (lower email) ""); [|reflexivity].
    apply lower_nil in e. subst email. discriminate. }
  assert (Tw : truthy (JStr password) = true).
  { unfold get, get_or in Tp. now rewrite Hp in Tp. }
  rewrite Tl, Tw. cbn [negb orb].
  unfold find_user_by_email.
  rewrite lookup_by_app_none with (x := JStr (lower email));
    [|exact Hnone|reflexivity|apply String.eqb_refl].
  cbn [bind option_map snd truthy negb getitem dict_get String.eqb Ascii.eqb
       Bool.eqb py_eq].
  now rewrite String.eqb_refl.
Qed.

Lemma login_after_register_witness :
  exists user,
    fst (register sample_jwt "t" 0 (register_body "Ann@X.com" "secret1" "Ann") []) =
    ([] ++ [user])%list /\
    dict_get "id" user = Some (JInt (next_id [])) /\
    status (snd (login sample_jwt 5 (login_body "ANN@x.COM" "secret1")
                   (fst (register sample_jwt "t" 0
                           (register_body "Ann@X.com" "secret1" "Ann") [])))) = 200.
Proof.
  destruct (login_after_register sample_jwt "t" 0 5
              [("email", JStr "Ann@X.com"); ("password", JStr "secret1");
               ("name", JStr "Ann")]
              [("email", JStr "ANN@x.COM"); ("password", JStr "secret1")]
              "Ann@X.com" "ANN@x.COM" "secret1" []
              (fst (register sample_jwt "t" 0
                      (register_body "Ann@X.com" "secret1" "Ann") []))
              (snd (register sample_jwt "t" 0
                      (register_body "Ann@X.com" "secret1" "Ann") []))
              eq_refl eq_refl eq_refl eq_refl eq_refl eq_refl eq_refl eq_refl)
    as (user & Hu & Hid & Hl).
  exists user. split; [exact Hu|]. split; [exact Hid|].
  unfold login_body. rewrite Hl. reflexivity.
Defined.

(** ** The users the store holds *)

Lemma lookup_by_total (key : string) (v : JSON) (l : list dict) :
  Forall (fun d => dict_get key d <> None) l ->
  exists o, lookup_by key v l = Ok o.
Proof.
  induction 1 as [|d r Hd _ (o & IH)]; simpl; [now eexists|].
  unfold getitem. destruct (dict_get key d) as [x|]; [|contradiction].
  simpl. destruct (py_eq x v); [now eexists|].
  rewrite IH. simpl. now eexists.
Qed.

Lemma users_ok_have_email (users : list dict) :
  users_ok users -> Forall (fun d => dict_get "email" d <> None) users.
Proof.
  apply Forall_impl. intros u (id & e & p & n & _ & He & _). now rewrite He.
Qed.

Lemma first_missing_none (fields : list string) (d : dict) (f : string) :
  first_missing fields d = None -> In f fields ->
  exists v, dict_get f d = Some v /\ truthy v = true.
Proof.
  induction fields as [|g r IH]; simpl; intros H Hin; [contradiction|].
  unfold first_missing in H. fold first_missing in H.
  destruct (truthy (get g d)) eqn:E; [|discriminate].
  destruct Hin as [->|Hin]; [|now apply IH].
  destruct (truthy_get_some _ _ E) as (v & Hv & Hg).
  exists v. split; [exact Hv|]. now rewrite <- Hg.
Qed.

Lemma register_cases (jwt_encode : dict -> string) (now : string)
    (utcnow : Z) (data : JSON) (users : list dict) :
  fst (register jwt_encode now utcnow data users) = users \/
  status (snd (register jwt_encode now utcnow data users)) = 201.
Proof.
  destruct (register jwt_encode now utcnow data users) as [users' resp] eqn:H.
  unfold register in H.
  crush_hyp H; inversion H; subst; first [now left|now right].
Qed.

Lemma register_users_ok (jwt_encode : dict -> string) (now : string)
    (utcnow : Z) (data : JSON) (users : list dict) :
  users_ok users ->
  users_ok (fst (register jwt_encode now utcnow data users)).
Proof.
  intros Hok.
  destruct (register_cases jwt_encode now utcnow data users) as [->|Hs];
    [exact Hok|].
  destruct (register jwt_encode now utcnow data users) as [users' resp] eqn:H.
  cbn [fst snd] in *.
  destruct (register_201 _ _ _ _ _ _ _ H Hs)
    as (d & email & password & name & -> & He & Hp & _ & _ & Hu & _).
  destruct (register_201_truthy _ _ _ _ _ _ _ H Hs)
    as (_ & _ & password' & n & Hp' & Hn & H6).
  rewrite Hp in Hp'. inversion Hp'; subst password'.
  rewrite Hu. apply Forall_app. split; [exact Hok|].
  constructor; [|constructor].
  exists (next_id users), (lower email), password, n.
  repeat split; auto. apply lower_idem.
Qed.

(** X3.  The user store only ever holds records with an integer id, an
    email in lower case and a password of six items or more.  On such
    a store, a register whose email and password are strings is
    answered 201, 400 or 409, and a login whose email is a string is
    answered 200, 400 or 401: neither fails with 500. *)
Theorem users_store_well_formed :
  forall (jwt_encode : dict -> string) (now : string) (utcnow : Z)
         (users : list dict),
    users_ok [] /\
    (users_ok users ->
     (forall data,
        users_ok (fst (register jwt_encode now utcnow data users)) /\
        fst (login jwt_encode utcnow data users) = users) /\
     (forall d,
        (forall v, dict_get "email" d = Some v -> exists s, v = JStr s) ->
        (forall v, dict_get "password" d = Some v -> exists s, v = JStr s) ->
        let code := status (snd (register jwt_encode now utcnow (JObj d) users)) in
        code = 201 \/ code = 400 \/ code = 409) /\
     (forall d,
        (forall v, dict_get "email" d = Some v -> exists s, v = JStr s) ->
        let code := status (snd (login jwt_encode utcnow (JObj d) users)) in
        code = 200 \/ code = 400 \/ code = 401)).
Proof.
  intros jwt_encode now utcnow users. split; [constructor|].
  intros Hok. split; [|split].
  - intros data. split; [now apply register_users_ok|apply login_store].
  - intros d He Hp code. subst code.
    unfold register, catch, with_required.
    destruct (truthy (JObj d)); cbn [negb as_dict bind]; [|auto].
    destruct (first_missing ["email"; "password"; "name"] d) eqn:Hm;
      [simpl; auto|].
    destruct (first_missing_none _ _ "email" Hm) as (ve & Hve & _);
      [simpl; auto|].
    destruct (first_missing_none _ _ "password" Hm) as (vp & Hvp & _);
      [simpl; auto|].
    destruct (first_missing_none _ _ "name" Hm) as (vn & Hvn & _);
      [simpl; auto|].
    destruct (He _ Hve) as (e & ->). destruct (Hp _ Hvp) as (p & ->).
    unfold getitem. rewrite Hve, Hvp, Hvn. cbn [bind validate_email].
    destruct (re_match_anchored email_pattern e); cbn [negb]; [|simpl; auto].
    unfold py_len. cbn [bind].
    destruct (Z.of_nat (String.length p) <? 6); [simpl; auto|].
    unfold find_user_by_email.
    destruct (lookup_by_total "email" (JStr e) users
                (users_ok_have_email _ Hok)) as (o & ->).
    cbn [bind option_map found].
    destruct o as [[i u]|]; cbn [option_map snd found].
    + destruct (truthy (JObj u)); simpl; auto.
    + simpl. auto.
  - intros d He code. subst code.
    unfold login, catch.
    destruct (truthy (JObj d)); cbn [negb as_dict bind]; [|auto].
    assert (Hl : exists s, py_lower (get_or "email" (JStr "") d) = Ok s).
    { unfold get_or. destruct (dict_get "email" d) as [v|] eqn:Ev.
      - destruct (He v eq_refl) as (s & ->). now eexists.
      - now eexists. }
    destruct Hl as (email & ->). cbn [bind].
    destruct (negb (truthy (JStr email)) ||
              negb (truthy (get_or "password" (JStr "") d)))%bool;
      [simpl; auto|].
    unfold find_user_by_email.
    destruct (lookup_by_total "email" (JStr email) users
                (users_ok_have_email _ Hok)) as (o & Ho).
    rewrite Ho. cbn [bind option_map].
    destruct o as [[i u]|]; cbn [option_map snd]; [|simpl; auto].
    apply lookup_by_some in Ho. destruct Ho as (Hn & _).
    apply nth_error_In in Hn.
    unfold users_ok in Hok. rewrite Forall_forall in Hok.
    destruct (Hok u Hn) as (id & e & p & n & Hid & Hem & _ & Hpw & _).
    destruct (negb (truthy (JObj u))); [simpl; auto|].
    unfold getitem. rewrite Hpw, Hid, Hem. cbn [bind].
    destruct (negb (py_eq p (get_or "password" (JStr "") d))); simpl; auto.
Qed.

Lemma users_store_well_formed_witness :
  let users := fst (register sample_jwt "t" 0
                      (register_body "Ann@X.com" "secret1" "Ann") []) in
  users_ok users /\
  (let code := status (snd (login sample_jwt 0 (login_body "x@y.zz" "nope12") users)) in
   code = 200 \/ code = 400 \/ code = 401).
Proof.
  intros users.
  destruct (users_store_well_formed sample_jwt "t" 0 []) as [H0 H].
  destruct (H H0) as (Hr & _).
  destruct (Hr (register_body "Ann@X.com" "secret1" "Ann")) as [Hu _].
  split; [exact Hu|].
  destruct (users_store_well_formed sample_jwt "t" 0 users) as [_ H'].
  destruct (H' Hu) as (_ & _ & Hl).
  apply (Hl [("email", JStr "x@y.zz"); ("password", JStr "nope12")]).
  intros v Hv. inversion Hv. now eexists.
Defined.

(** ** Reading and deleting by id *)

Lemma lookup_by_absent (id : Z) (l : list dict) :
  id_free id l -> lookup_by "id" (JInt id) l = Ok None.
Proof.
  induction 1 as [|d r (k & Hk & Hne) _ IH]; simpl; [reflexivity|].
  unfold getitem. rewrite Hk. cbn [bind py_eq as_num num_eq].
  destruct (Z.eqb_spec k id); [contradiction|]. now rewrite IH.
Qed.

Lemma lookup_by_first (id : Z) (a b : list dict) (rec : dict) :
  id_free id a ->
  dict_get "id" rec = Some (JInt id) ->
  lookup_by "id" (JInt id) (a ++ rec :: b) = Ok (Some (List.length a, rec)).
Proof.
  intros Ha Hr. induction Ha as [|d r (k & Hk & Hne) _ IH]; simpl.
  - unfold getitem. rewrite Hr. cbn [bind py_eq as_num num_eq].
    now rewrite Z.eqb_refl.
  - unfold getitem. rewrite Hk. cbn [bind py_eq as_num num_eq].
    destruct (Z.eqb_spec k id); [contradiction|]. now rewrite IH.
Qed.

Lemma remove_nth_middle (a b : list dict) (x : dict) :
  remove_nth (List.length a) (a ++ x :: b) = (a ++ b)%list.
Proof. induction a as [|y a IH]; simpl; congruence. Qed.

Lemma set_nth_middle (a b : list dict) (x y : dict) :
  set_nth (List.length a) y (a ++ x :: b) = (a ++ y :: b)%list.
Proof. induction a as [|z a IH]; simpl; congruence. Qed.

Lemma id_free_app (id : Z) (a b : list dict) :
  id_free id (a ++ b) <-> id_free id a /\ id_free id b.
Proof. apply Forall_app. Qed.

Lemma dict_get_some_truthy (k : string) (v : JSON) (d : dict) :
  dict_get k d = Some v -> truthy (JObj d) = true.
Proof. destruct d; [discriminate|reflexivity]. Qed.

Lemma detail_not_found (R : Resource) (m : Method) (id : Z) (now : string)
    (data : JSON) (coll : list dict) :
  id_free id coll ->
  detail R m id now data coll = (coll, error (not_found_msg R) 404).
Proof.
  intros Hf. unfold detail. now rewrite (lookup_by_absent id coll Hf).
Qed.

Lemma detail_found (R : Resource) (id : Z) (now : string) (data : JSON)
    (a b : list dict) (rec : dict) :
  id_free id a ->
  dict_get "id" rec = Some (JInt id) ->
  detail R GET id now data (a ++ rec :: b) =
  ((a ++ rec :: b)%list, jsonify [(noun R, JObj rec)] 200) /\
  detail R DELETE id now data (a ++ rec :: b) =
  ((a ++ b)%list, jsonify [("message", JStr (deleted_msg R))] 200).
Proof.
  intros Ha Hr. unfold detail.
  rewrite (lookup_by_first id a b rec Ha Hr). cbn [bind catch].
  rewrite (dict_get_some_truthy _ _ _ Hr). cbn [negb].
  now rewrite remove_nth_middle.
Qed.

(** X4.  Reading and deleting by id, in every collection that has the
    routes.  When no record has the id, GET, PUT and DELETE answer 404
    and leave the collection as it was.  Otherwise GET returns the
    first record that has the id, and DELETE removes that record and
    no other. *)
Theorem get_and_delete_first_with_id :
  forall (R : Resource) (id : Z) (now : string) (data : JSON),
    (forall coll m,
       id_free id coll ->
       detail R m id now data coll = (coll, error (not_found_msg R) 404)) /\
    (forall a b rec,
       id_free id a ->
       dict_get "id" rec = Some (JInt id) ->
       detail R GET id now data (a ++ rec :: b) =
       ((a ++ rec :: b)%list, jsonify [(noun R, JObj rec)] 200) /\
       detail R DELETE id now data (a ++ rec :: b) =
       ((a ++ b)%list, jsonify [("message", JStr (deleted_msg R))] 200)).
Proof.
  intros R id now data. split.
  - intros coll m Hf. unfold detail.
    now rewrite (lookup_by_absent id coll Hf).
  - intros a b rec Ha Hr. unfold detail.
    rewrite (lookup_by_first id a b rec Ha Hr). cbn [bind catch].
    rewrite (dict_get_some_truthy _ _ _ Hr). cbn [negb].
    now rewrite remove_nth_middle.
Qed.

Lemma get_and_delete_first_with_id_witness :
  detail Alumni DELETE 2 "t" JNull alumni3 =
  ([nth 0 alumni3 []; nth 2 alumni3 []],
   jsonify [("message", JStr "Alumni profile deleted successfully")] 200) /\
  status (snd (detail Alumni PUT 7 "t" JNull alumni3)) = 404.
Proof.
  destruct (get_and_delete_first_with_id Alumni 2 "t" JNull) as [_ H].
  destruct (H [nth 0 alumni3 []] [nth 2 alumni3 []] (nth 1 alumni3 []))
    as [_ Hd].
  { constructor; [|constructor]. exists 1. split; [reflexivity|lia]. }
  { reflexivity. }
  split; [exact Hd|].
  destruct (get_and_delete_first_with_id Alumni 7 "t" JNull) as [H7 _].
  rewrite (H7 alumni3 PUT); [reflexivity|].
  apply Forall_forall. intros d Hin. vm_compute in Hin.
  destruct Hin as [<-|[<-|[<-|[]]]]; eexists; (split; [reflexivity|lia]).
Defined.

(** ** A record created can be read back *)

Lemma consecutive_id_free (coll : list dict) :
  consecutive_ids coll -> id_free (next_id coll) coll.
Proof.
  unfold consecutive_ids, id_free, ids. intros Hc.
  apply Forall_forall. intros d Hd.
  apply (in_map (dict_get "id")) in Hd. rewrite Hc in Hd.
  apply in_map_iff in Hd. destruct Hd as (k & Hk & Hin).
  apply in_seq in Hin. exists (Z.of_nat k). split; [now rewrite Hk|].
  unfold next_id. lia.
Qed.

(** X5.  In alumni, events, jobs and posts, while the ids are 1..n: a
    create answered 201 appends a record that a GET by the id it was
    given returns, with 200 and unchanged. *)
Theorem create_then_get :
  forall (R : Resource) (create : Creator),
    In (R, create) deletable ->
    forall (t u now : string) (body data : JSON) (coll : list dict),
      consecutive_ids coll ->
      status (snd (create t u body coll)) = 201 ->
      exists rec,
        fst (create t u body coll) = (coll ++ [rec])%list /\
        dict_get "id" rec = Some (JInt (next_id coll)) /\
        detail R GET (next_id coll) now data (coll ++ [rec]) =
        ((coll ++ [rec])%list, jsonify [(noun R, JObj rec)] 200).
Proof.
  intros R create Hin t u now body data coll Hc Hs.
  destruct (appends_201 _ _ (deletable_create_appends R create Hin t u body coll) Hs)
    as (rec & Hf & Hid).
  exists rec. split; [exact Hf|]. split; [exact Hid|].
  apply (detail_found R (next_id coll) now data coll [] rec); auto.
  now apply consecutive_id_free.
Qed.

Lemma create_then_get_witness :
  exists rec,
    fst (event_create "t" "u" (event_body "E4") events3) =
    (events3 ++ [rec])%list /\
    dict_get "id" rec = Some (JInt 4) /\
    status (snd (detail Event GET 4 "t" JNull (events3 ++ [rec]))) = 200.
Proof.
  destruct (create_then_get Event event_create
              (or_intror (or_introl eq_refl)) "t" "u" "t" (event_body "E4")
              JNull events3 eq_refl eq_refl) as (rec & Hf & Hid & Hg).
  exists rec. split; [exact Hf|]. split; [exact Hid|].
  change 4 with (next_id events3). now rewrite Hg.
Defined.

(** ** Deleting a record *)

Lemma distinct_id_free (id : Z) (a b : list dict) (rec : dict) :
  int_ids (a ++ rec :: b) ->
  distinct_ids (a ++ rec :: b) ->
  dict_get "id" rec = Some (JInt id) ->
  id_free id (a ++ b).
Proof.
  unfold int_ids, distinct_ids, id_free, ids. intros Hi Hd Hr.
  rewrite map_app in Hd. simpl in Hd. rewrite Hr in Hd.
  apply NoDup_remove_2 in Hd. rewrite <- map_app in Hd.
  assert (Hi' : Forall (fun d => exists k, dict_get "id" d = Some (JInt k))
                  (a ++ b)).
  { apply Forall_app in Hi. destruct Hi as [Ha Hb]. inversion Hb; subst.
    apply Forall_app. split; auto. }
  rewrite Forall_forall in *. intros d Hin.
  destruct (Hi' d Hin) as (k & Hk). exists k. split; [exact Hk|].
  intros ->. apply Hd. rewrite <- Hk. now apply in_map.
Qed.

Lemma lookup_by_skip (id id' : Z) (a b : list dict) (rec : dict) :
  dict_get "id" rec = Some (JInt id) -> id' <> id ->
  match lookup_by "id" (JInt id') (a ++ rec :: b),
        lookup_by "id" (JInt id') (a ++ b) with
  | Ok (Some (_, r)), Ok (Some (_, r')) => r = r'
  | Ok None, Ok None => True
  | Raise e, Raise e' => e = e'
  | _, _ => False
  end.
Proof.
  intros Hr Hne. induction a as [|d a IH]; simpl.
  - unfold getitem at 1. rewrite Hr. cbn [bind py_eq as_num num_eq].
    destruct (Z.eqb_spec id id'); [congruence|].
    destruct (lookup_by "id" (JInt id') b) as [[[i r]|]|e]; simpl; auto.
  - unfold getitem. destruct (dict_get "id" d) as [x|]; simpl; [|reflexivity].
    destruct (py_eq x (JInt id')); [reflexivity|].
    destruct (lookup_by "id" (JInt id') (a ++ rec :: b)) as [[[i r]|]|e];
      destruct (lookup_by "id" (JInt id') (a ++ b)) as [[[i' r']|]|e'];
      simpl; auto.
Qed.

(** X6.  In a collection whose ids are distinct integers, deleting the
    record with a given id leaves a collection in which that id
    answers 404 on GET, PUT and DELETE, while a GET by any other id is
    answered exactly as before the deletion. *)
Theorem delete_then_gone :
  forall (R : Resource) (id : Z) (now : string) (data : JSON)
         (a b : list dict) (rec : dict),
    int_ids (a ++ rec :: b) ->
    distinct_ids (a ++ rec :: b) ->
    dict_get "id" rec = Some (JInt id) ->
    detail R DELETE id now data (a ++ rec :: b) =
    ((a ++ b)%list, jsonify [("message", JStr (deleted_msg R))] 200) /\
    (forall m now' data',
       detail R m id now' data' (a ++ b) =
       ((a ++ b)%list, error (not_found_msg R) 404)) /\
    (forall id' now' data',
       id' <> id ->
       snd (detail R GET id' now' data' (a ++ b)) =
       snd (detail R GET id' now' data' (a ++ rec :: b))).
Proof.
  intros R id now data a b rec Hi Hd Hr.
  pose proof (distinct_id_free id a b rec Hi Hd Hr) as Hf.
  split; [|split].
  - apply (detail_found R id now data); auto.
    now apply id_free_app in Hf.
  - intros m now' data'. now apply detail_not_found.
  - intros id' now' data' Hne. unfold detail.
    pose proof (lookup_by_skip id id' a b rec Hr Hne) as H.
    destruct (lookup_by "id" (JInt id') (a ++ rec :: b)) as [[[i r]|]|e];
      destruct (lookup_by "id" (JInt id') (a ++ b)) as [[[i' r']|]|e'];
      try contradiction; subst; cbn [bind catch]; try reflexivity.
    destruct (negb (truthy (JObj r'))); reflexivity.
Qed.

Lemma delete_then_gone_witness :
  status (snd (detail Job GET 2 "t" JNull
                 (fst (detail Job DELETE 2 "t" JNull jobs3)))) = 404 /\
  snd (detail Job GET 3 "t" JNull (fst (detail Job DELETE 2 "t" JNull jobs3))) =
  snd (detail Job GET 3 "t" JNull jobs3).
Proof.
  assert (Hi : int_ids ([nth 0 jobs3 []] ++ nth 1 jobs3 [] :: [nth 2 jobs3 []])).
  { repeat (constructor; [eexists; reflexivity|]). constructor. }
  assert (Hd : distinct_ids ([nth 0 jobs3 []] ++ nth 1 jobs3 [] :: [nth 2 jobs3 []])).
  { apply consecutive_distinct. reflexivity. }
  destruct (delete_then_gone Job 2 "t" JNull [nth 0 jobs3 []] [nth 2 jobs3 []]
              (nth 1 jobs3 []) Hi Hd eq_refl) as (Hdel & Hgone & Hkeep).
  change (detail Job DELETE 2 "t" JNull jobs3)
    with (detail Job DELETE 2 "t" JNull
            ([nth 0 jobs3 []] ++ nth 1 jobs3 [] :: [nth 2 jobs3 []])).
  rewrite Hdel. cbn [fst]. split.
  - now rewrite (Hgone GET "t" JNull).
  - apply (Hkeep 3 "t" JNull). lia.
Defined.

(** ** Stored ids are integers *)

Lemma int_ids_of_ids (coll coll' : list dict) :
  ids coll' = ids coll -> int_ids coll -> int_ids coll'.
Proof.
  unfold int_ids, ids. intros E H.
  rewrite Forall_forall in *. intros d Hd.
  apply (in_map (dict_get "id")) in Hd. rewrite E in Hd.
  apply in_map_iff in Hd. destruct Hd as (d0 & E0 & Hin).
  destruct (H d0 Hin) as (k & Hk). exists k. congruence.
Qed.

Lemma appends_int_ids (coll : list dict) (out : list dict * Response) :
  appends_next coll out -> int_ids coll -> int_ids (fst out).
Proof.
  intros [[-> _]|(rec & msg & noun & -> & Hid & _)] Hi; auto.
  apply Forall_app. split; auto. constructor; [eexists; exact Hid|constructor].
Qed.

(** X7.  Every stored id is an integer: this holds in the empty
    collection and is kept by every create, by register, by PUT and
    DELETE in alumni, events, jobs and posts, and by the donation
    list. *)
Theorem stored_ids_are_integers :
  int_ids [] /\
  (forall R create, In (R, create) deletable ->
   forall coll m id now t u data,
     int_ids coll ->
     int_ids (fst (detail R m id now data coll)) /\
     int_ids (fst (create t u data coll))) /\
  (forall jwt_encode now utcnow data users,
     int_ids users ->
     int_ids (fst (register jwt_encode now utcnow data users))) /\
  (forall t purpose data coll,
     int_ids coll ->
     int_ids (fst (donation_create t data coll)) /\
     int_ids (fst (donation_list purpose coll)) /\
     int_ids (fst (message_create t data coll))).
Proof.
  split; [constructor|]. split; [|split].
  - intros R create Hin coll m id now t u data Hi. split.
    + destruct m.
      * now rewrite detail_get_store.
      * apply (int_ids_of_ids coll); auto.
        apply (detail_put_ids R id now data coll).
        now apply (deletable_skips_id R create).
      * destruct (detail_delete_store R id now data coll) as [->|[i ->]];
          auto. now apply Forall_remove_nth.
    + apply (appends_int_ids coll); auto.
      now apply (deletable_create_appends R create Hin).
  - intros jwt_encode now utcnow data users Hi.
    destruct (register_store jwt_encode now utcnow data users)
      as [->|(rec & -> & Hid)]; auto.
    apply Forall_app. split; auto. constructor; [eexists; exact Hid|constructor].
  - intros t purpose data coll Hi. split; [|split].
    + apply (appends_int_ids coll); auto. apply donation_create_appends.
    + apply (int_ids_of_ids coll); auto. apply donation_list_ids.
    + apply (appends_int_ids coll); auto. apply message_create_appends.
Qed.

Lemma stored_ids_are_integers_witness :
  int_ids (fst (detail Post PUT 2 "t" (JObj [("id", JStr "x")]) posts3)).
Proof.
  destruct stored_ids_are_integers as (_ & H & _).
  apply (H Post post_create
           (or_intror (or_intror (or_intror (or_introl eq_refl))))
           posts3 PUT 2 "t" "t" "t" (JObj [("id", JStr "x")])).
  repeat (constructor; [eexists; reflexivity|]). constructor.
Defined.

(** ** The donation list writes to the store *)

Lemma dict_set_noop (k : string) (v : JSON) (d : dict) :
  dict_get k d = Some v -> dict_set k v d = d.
Proof.
  induction d as [|[k' v'] d IH]; simpl; [discriminate|].
  destruct (String.eqb_spec k' k) as [->|Hne].
  - now intros [= ->].
  - intros H. now rewrite IH.
Qed.

Lemma redact_anonymous (d : dict) :
  get_or "anonymous" (JBool false) (redact d) =
  get_or "anonymous" (JBool false) d.
Proof. unfold get_or. now rewrite redact_keeps by discriminate. Qed.

Lemma redact_hides (d : dict) :
  truthy (get_or "anonymous" (JBool false) d) = true ->
  dict_get "donor_name" (redact d) = Some (JStr "Anonymous") /\
  dict_get "donor_email" (redact d) = Some (JStr "").
Proof.
  intros H. unfold redact. rewrite H. split.
  - rewrite dict_get_set_other by discriminate. apply dict_get_set_same.
  - apply dict_get_set_same.
Qed.

Lemma redact_idem (d : dict) : redact (redact d) = redact d.
Proof.
  unfold redact at 1. rewrite redact_anonymous.
  destruct (truthy (get_or "anonymous" (JBool false) d)) eqn:E;
    [|reflexivity].
  destruct (redact_hides d E) as [Hn He].
  rewrite (dict_set_noop "donor_name" _ _ Hn).
  now rewrite (dict_set_noop "donor_email" _ _ He).
Qed.

Lemma selected_redact (purpose : string) (d : dict) :
  selected purpose (redact d) = selected purpose d.
Proof.
  unfold selected, get_or. now rewrite redact_keeps by discriminate.
Qed.

Lemma filter_selected_stored (purpose : string) (l : list dict) :
  filter (selected purpose)
    (map (fun d => if selected purpose d then redact d else d) l) =
  map redact (filter (selected purpose) l).
Proof.
  induction l as [|d l IH]; simpl; [reflexivity|].
  destruct (selected purpose d) eqn:E.
  - rewrite selected_redact, E. simpl. now rewrite IH.
  - rewrite E. exact IH.
Qed.

Lemma donation_list_out (purpose : string) (donations : list dict) :
  let stored :=
    map (fun d => if selected purpose d then redact d else d) donations in
  let listed := filter (selected purpose) stored in
  donation_list purpose donations =
  catch "Failed to fetch donations" stored
    (total_amount <- sum_amounts listed (JInt 0) ;;
     Ok (stored,
         jsonify
           [("donations", JList (map JObj listed));
            ("total", JInt (Z.of_nat (List.length listed)));
            ("total_amount", total_amount)] 200)).
Proof.
  intros stored listed. unfold donation_list. subst listed stored.
  now rewrite filter_selected_stored.
Qed.

(** X8.  What the donation list does to the store.  A record that the
    purpose filter selects and whose [anonymous] is truthy has its
    [donor_name] set to "Anonymous" and its [donor_email] to the empty
    string, its other fields untouched; every other record is left as
    it was.  The answer lists the selected records as they are stored
    after the call, with their number as [total], and a second call
    with the same filter changes nothing more and gives the same
    answer. *)
Theorem donation_list_redacts_store :
  forall (purpose : string) (donations : list dict),
    let out := donation_list purpose donations in
    List.length (fst out) = List.length donations /\
    (forall i d,
       nth_error donations i = Some d ->
       exists d',
         nth_error (fst out) i = Some d' /\
         (forall k, k <> "donor_name" -> k <> "donor_email" ->
            dict_get k d' = dict_get k d) /\
         (selected purpose d = true ->
          truthy (get_or "anonymous" (JBool false) d) = true ->
          dict_get "donor_name" d' = Some (JStr "Anonymous") /\
          dict_get "donor_email" d' = Some (JStr "")) /\
         (selected purpose d = false \/
          truthy (get_or "anonymous" (JBool false) d) = false ->
          d' = d)) /\
    (status (snd out) = 200 ->
     exists total_amount,
       snd out =
       jsonify
         [("donations",
            JList (map JObj (filter (selected purpose) (fst out))));
          ("total",
            JInt (Z.of_nat
                    (List.length (filter (selected purpose) (fst out)))));
          ("total_amount", total_amount)] 200) /\
    donation_list purpose (fst out) = out.
Proof.
  intros purpose donations out.
  pose proof (donation_list_store purpose donations) as Hst. fold out in Hst.
  split; [rewrite Hst; apply length_map|].
  split; [|split].
  - intros i d Hd. rewrite Hst.
    exists (if selected purpose d then redact d else d).
    split;
      [exact (map_nth_error
                (fun d => if selected purpose d then redact d else d) i
                donations Hd)|].
    split; [|split].
    + intros k H1 H2. destruct (selected purpose d); [|reflexivity].
      now apply redact_keeps.
    + intros -> Ha. now apply redact_hides.
    + intros [->|Ha]; [reflexivity|].
      destruct (selected purpose d); [|reflexivity].
      unfold redact. now rewrite Ha.
  - intros Hs. rewrite Hst. subst out.
    rewrite donation_list_out in Hs |- *. cbv zeta in *.
    unfold catch, bind in *.
    destruct (sum_amounts _ (JInt 0)) as [total|e]; [|discriminate].
    now exists total.
  - subst out. rewrite Hst.
    rewrite (donation_list_out purpose donations). cbv zeta.
    rewrite (donation_list_out purpose
               (map (fun d => if selected purpose d then redact d else d)
                  donations)). cbv zeta.
    assert (E : map (fun d => if selected purpose d then redact d else d)
                  (map (fun d => if selected purpose d then redact d else d)
                     donations) =
                map (fun d => if selected purpose d then redact d else d)
                  donations).
    { rewrite map_map. apply map_ext. intros d.
      destruct (selected purpose d) eqn:E.
      - now rewrite selected_redact, E, redact_idem.
      - now rewrite E. }
    rewrite E. unfold catch, bind.
    now destruct (sum_amounts _ (JInt 0)).
Qed.

Lemma donation_list_redacts_store_witness :
  let donations :=
    fst (donation_create "t" (donation_body "Alice" (JStr "100") true) []) in
  exists d',
    nth_error (fst (donation_list "library" donations)) 0 = Some d' /\
    dict_get "donor_name" d' = Some (JStr "Anonymous") /\
    dict_get "donor_email" d' = Some (JStr "").
Proof.
  intros donations.
  destruct (donation_list_redacts_store "library" donations) as (_ & H & _).
  destruct (H 0%nat (nth 0 donations []) eq_refl) as (d' & Hn & _ & Hh & _).
  exists d'. split; [exact Hn|]. apply Hh; reflexivity.
Defined.

(** ** Payloads that cannot make a create fail *)

Lemma required_truthy (fields : list string) (d : dict) :
  Forall (fun f => truthy (get f d) = true) fields ->
  first_missing fields d = None.
Proof.
  induction 1 as [|f r Hf _ IH]; [reflexivity|].
  unfold first_missing. fold first_missing. now rewrite Hf.
Qed.

Lemma required_nonempty (f : string) (fields : list string) (d : dict) :
  Forall (fun f => truthy (get f d) = true) (f :: fields) -> d <> [].
Proof. intros H. inversion H; subst. now apply (truthy_get_nonempty f). Qed.

Lemma donation_create_checked (t : string) (d : dict)
    (donations : list dict) (a : JSON) :
  truthy (get "donor_name" d) = true ->
  truthy (get "purpose" d) = true ->
  dict_get "amount" d = Some a ->
  truthy a = true ->
  donation_create t (JObj d) donations =
  catch "Failed to record donation" donations
    (match py_float a with
     | Raise ValueError => Ok (donations, error "Invalid amount format" 400)
     | Raise e => Raise e
     | Ok amount =>
         if SFleb amount float_zero then
           Ok (donations, error "Amount must be greater than 0" 400)
         else
           let donation_data :=
             [("id", JInt (next_id donations));
              ("donor_name", get "donor_name" d);
              ("donor_email", get_or "donor_email" (JStr "") d);
              ("amount", JFloat amount);
              ("currency", get_or "currency" (JStr "INR") d);
              ("purpose", get "purpose" d);
              ("message", get_or "message" (JStr "") d);
              ("anonymous", get_or "anonymous" (JBool false) d);
              ("payment_method", get_or "payment_method" (JStr "") d);
              ("transaction_id", get_or "transaction_id" (JStr "") d);
              ("status", JStr "completed");
              ("created_at", JStr t)] in
           Ok ((donations ++ [donation_data])%list,
               jsonify
                 [("message", JStr "Donation recorded successfully");
                  ("donation", JObj donation_data)] 201)
     end).
Proof.
  intros Hn Hp Ha Ht. unfold donation_create.
  assert (Hraw : get "amount" d = a) by (unfold get, get_or; now rewrite Ha).
  rewrite with_required_present;
    [|now apply (truthy_get_nonempty "donor_name")
     |unfold first_missing; now rewrite Hn, Hraw, Ht, Hp].
  destruct (truthy_get_some _ _ Hn) as (n & Hnn & Hgn).
  destruct (truthy_get_some _ _ Hp) as (p & Hpp & Hgp).
  rewrite Hgn, Hgp. unfold getitem, bind. rewrite Ha.
  destruct (py_float a) as [f|e]; [|reflexivity].
  destruct (SFleb f float_zero); [reflexivity|].
  now rewrite Hnn, Hpp.
Qed.

(** X9.  A donation whose donor name and purpose are truthy and whose
    amount is a string is never answered 500: the answer is 201 or
    400, whatever the string holds. *)
Theorem donation_string_amount_never_500 :
  forall (t s : string) (d : dict) (donations : list dict),
    truthy (get "donor_name" d) = true ->
    truthy (get "purpose" d) = true ->
    dict_get "amount" d = Some (JStr s) ->
    let out := donation_create t (JObj d) donations in
    (status (snd out) = 201 /\
     exists rec f, fst out = (donations ++ [rec])%list /\
                   float_of_string s = Some f /\
                   dict_get "amount" rec = Some (JFloat f)) \/
    (status (snd out) = 400 /\ fst out = donations).
Proof.
  intros t s d donations Hn Hp Ha out. subst out.
  destruct (truthy (JStr s)) eqn:Ht.
  - rewrite (donation_create_checked t d donations (JStr s) Hn Hp Ha Ht).
    cbn [py_float].
    destruct (float_of_string s) as [f|] eqn:Ef.
    + destruct (SFleb f float_zero) eqn:El.
      * right. split; reflexivity.
      * left. cbv zeta. cbn [catch fst snd status jsonify].
        split; [reflexivity|]. eexists _, f.
        split; [reflexivity|]. split; reflexivity.
    + right. split; reflexivity.
  - right. unfold donation_create.
    rewrite with_required_missing with (f := "amount");
      [split; reflexivity
      |now apply (truthy_get_nonempty "donor_name")
      |unfold first_missing, get at 2, get_or; now rewrite Hn, Ha, Ht].
Qed.

Lemma donation_string_amount_never_500_witness :
  status (snd (donation_create "t"
                 (JObj [("donor_name", JStr "A"); ("amount", JStr "1e-400");
                        ("purpose", JStr "library")]) [])) = 400.
Proof.
  destruct (donation_string_amount_never_500 "t" "1e-400"
              [("donor_name", JStr "A"); ("amount", JStr "1e-400");
               ("purpose", JStr "library")] [] eq_refl eq_refl eq_refl)
    as [[H _]|[H _]]; [|exact H].
  exfalso. revert H. vm_compute. discriminate.
Defined.

(** ** What a payload cannot choose *)

Ltac solve_created Hreq :=
  pose proof (required_truthy _ _ Hreq) as Hnone;
  pose proof (required_nonempty _ _ _ Hreq) as Hd;
  rewrite (with_required_present _ _ _ _ Hd Hnone);
  repeat match goal with
         | |- context [getitem ?k ?d] =>
             let v := fresh "v" in
             let Hv := fresh "Hv" in
             destruct (first_missing_none _ _ k Hnone) as (v & Hv & _);
             [simpl; tauto|];
             unfold getitem at 1; rewrite Hv; cbn [bind]
         end;
  cbn [catch]; eexists; split; [reflexivity|];
  repeat split; try reflexivity; try assumption.

Lemma event_create_succeeds (t u : string) (d : dict) (coll : list dict) :
  Forall (fun f => truthy (get f d) = true)
    ["title"; "description"; "date"; "location"] ->
  exists rec,
    event_create t u (JObj d) coll =
    ((coll ++ [rec])%list,
     jsonify [("message", JStr "Event created successfully");
              ("event", JObj rec)] 201) /\
    dict_get "status" rec = Some (JStr "upcoming").
Proof. intros Hreq. unfold event_create. solve_created Hreq. Qed.

Lemma job_create_succeeds (t u : string) (d : dict) (coll : list dict) :
  Forall (fun f => truthy (get f d) = true)
    ["title"; "company"; "description"; "location"] ->
  exists rec,
    job_create t u (JObj d) coll =
    ((coll ++ [rec])%list,
     jsonify [("message", JStr "Job posted successfully");
              ("job", JObj rec)] 201) /\
    dict_get "status" rec = Some (JStr "active").
Proof. intros Hreq. unfold job_create. solve_created Hreq. Qed.

Lemma message_create_succeeds (t : string) (d : dict) (coll : list dict) :
  Forall (fun f => truthy (get f d) = true)
    ["sender_email"; "recipient_email"; "content"] ->
  exists rec,
    message_create t (JObj d) coll =
    ((coll ++ [rec])%list,
     jsonify [("message", JStr "Message sent successfully");
              ("message_data", JObj rec)] 201) /\
    dict_get "sender_email" rec = dict_get "sender_email" d /\
    dict_get "recipient_email" rec = dict_get "recipient_email" d.
Proof. intros Hreq. unfold message_create. solve_created Hreq. Qed.

(** X10.  A create of an event, a job, a post or a message whose
    required fields are all truthy is answered 201, whatever else the
    payload holds, and the payload cannot choose the fields the handler
    sets itself: the id is the size of the collection plus one, the
    timestamps are the clock's, and the record starts as "upcoming"
    with no attendees, as "active", with no likes and no comments, or
    as unread. *)
Theorem create_sets_its_own_fields :
  forall (t u : string) (d : dict) (coll : list dict),
    (Forall (fun f => truthy (get f d) = true)
       ["title"; "description"; "date"; "location"] ->
     exists rec,
       event_create t u (JObj d) coll =
       ((coll ++ [rec])%list,
        jsonify [("message", JStr "Event created successfully");
                 ("event", JObj rec)] 201) /\
       dict_get "id" rec = Some (JInt (next_id coll)) /\
       dict_get "status" rec = Some (JStr "upcoming") /\
       dict_get "attendees" rec = Some (JList []) /\
       dict_get "created_at" rec = Some (JStr t) /\
       dict_get "updated_at" rec = Some (JStr u) /\
       dict_get "title" rec = dict_get "title" d) /\
    (Forall (fun f => truthy (get f d) = true)
       ["title"; "company"; "description"; "location"] ->
     exists rec,
       job_create t u (JObj d) coll =
       ((coll ++ [rec])%list,
        jsonify [("message", JStr "Job posted successfully");
                 ("job", JObj rec)] 201) /\
       dict_get "id" rec = Some (JInt (next_id coll)) /\
       dict_get "status" rec = Some (JStr "active") /\
       dict_get "created_at" rec = Some (JStr t) /\
       dict_get "updated_at" rec = Some (JStr u) /\
       dict_get "company" rec = dict_get "company" d) /\
    (Forall (fun f => truthy (get f d) = true) ["author_name"; "content"] ->
     exists rec,
       post_create t u (JObj d) coll =
       ((coll ++ [rec])%list,
        jsonify [("message", JStr "Post created successfully");
                 ("post", JObj rec)] 201) /\
       dict_get "id" rec = Some (JInt (next_id coll)) /\
       dict_get "likes" rec = Some (JInt 0) /\
       dict_get "comments" rec = Some (JList []) /\
       dict_get "created_at" rec = Some (JStr t) /\
       dict_get "updated_at" rec = Some (JStr u) /\
       dict_get "content" rec = dict_get "content" d) /\
    (Forall (fun f => truthy (get f d) = true)
       ["sender_email"; "recipient_email"; "content"] ->
     exists rec,
       message_create t (JObj d) coll =
       ((coll ++ [rec])%list,
        jsonify [("message", JStr "Message sent successfully");
                 ("message_data", JObj rec)] 201) /\
       dict_get "id" rec = Some (JInt (next_id coll)) /\
       dict_get "read" rec = Some (JBool false) /\
       dict_get "created_at" rec = Some (JStr t) /\
       dict_get "sender_email" rec = dict_get "sender_email" d /\
       dict_get "recipient_email" rec = dict_get "recipient_email" d).
Proof.
  intros t u d coll. split; [|split; [|split]]; intros Hreq.
  - unfold event_create. solve_created Hreq.
  - unfold job_create. solve_created Hreq.
  - unfold post_create. solve_created Hreq.
  - unfold message_create. solve_created Hreq.
Qed.

Lemma create_sets_its_own_fields_witness :
  exists rec,
    fst (event_create "t" "u"
           (JObj [("title", JStr "Meet"); ("description", JStr "Annual");
                  ("date", JStr "2025-01-01"); ("location", JStr "Hall");
                  ("status", JStr "cancelled"); ("id", JInt 99);
                  ("attendees", JList [JStr "x"])]) events3) =
    (events3 ++ [rec])%list /\
    dict_get "id" rec = Some (JInt 4) /\
    dict_get "status" rec = Some (JStr "upcoming") /\
    dict_get "attendees" rec = Some (JList []).
Proof.
  destruct (create_sets_its_own_fields "t" "u"
              [("title", JStr "Meet"); ("description", JStr "Annual");
               ("date", JStr "2025-01-01"); ("location", JStr "Hall");
               ("status", JStr "cancelled"); ("id", JInt 99);
               ("attendees", JList [JStr "x"])] events3) as (H & _).
  destruct H as (rec & He & Hid & Hs & Ha & _).
  { repeat constructor. }
  exists rec. rewrite He. repeat split; assumption.
Defined.

(** ** Alumni emails *)

Lemma any_email_spec (email : string) (l : list dict) :
  emails_str l ->
  any_email email l =
  Ok (existsb (fun a => String.eqb (email_key a) email) l).
Proof.
  induction 1 as [|a r (e & He) _ IH]; simpl; [reflexivity|].
  unfold getitem, email_key, email_of. rewrite He. cbn [bind py_lower].
  destruct (String.eqb (lower e) email); [reflexivity|exact IH].
Qed.

Lemma email_key_in (email : string) (l : list dict) :
  existsb (fun a => String.eqb (email_key a) email) l = true <->
  In email (map email_key l).
Proof.
  rewrite existsb_exists, in_map_iff. split.
  - intros (a & Hin & E). apply String.eqb_eq in E. now exists a.
  - intros (a & E & Hin). exists a. split; [exact Hin|].
    now apply String.eqb_eq.
Qed.

Lemma alumni_create_outcome (t u e : string) (d : dict)
    (alumni : list dict) :
  emails_str alumni ->
  Forall (fun f => truthy (get f d) = true)
    ["name"; "email"; "batch"; "department"] ->
  dict_get "email" d = Some (JStr e) ->
  validate_email (JStr e) = Ok true ->
  alumni_create t u (JObj d) alumni =
  if existsb (fun a => String.eqb (email_key a) (lower e)) alumni then
    (alumni, error "Alumni with this email already exists" 409)
  else
    let rec :=
      [("id", JInt (next_id alumni));
       ("name", get "name" d);
       ("email", JStr (lower e));
       ("batch", get "batch" d);
       ("department", get "department" d);
       ("phone", get_or "phone" (JStr "") d);
       ("current_company", get_or "current_company" (JStr "") d);
       ("current_position", get_or "current_position" (JStr "") d);
       ("location", get_or "location" (JStr "") d);
       ("bio", get_or "bio" (JStr "") d);
       ("linkedin", get_or "linkedin" (JStr "") d);
       ("profile_image", get_or "profile_image" (JStr "") d);
       ("graduation_year", get_or "graduation_year" (JStr "") d);
       ("created_at", JStr t);
       ("updated_at", JStr u)] in
    ((alumni ++ [rec])%list,
     jsonify [("message", JStr "Alumni profile created successfully");
              ("alumni", JObj rec)] 201).
Proof.
  intros Hstr Hreq He Hv. unfold alumni_create.
  pose proof (required_truthy _ _ Hreq) as Hnone.
  pose proof (required_nonempty _ _ _ Hreq) as Hd.
  rewrite (with_required_present _ _ _ _ Hd Hnone).
  destruct (first_missing_none _ _ "name" Hnone) as (vn & Hn & _);
    [simpl; tauto|].
  destruct (first_missing_none _ _ "batch" Hnone) as (vb & Hb & _);
    [simpl; tauto|].
  destruct (first_missing_none _ _ "department" Hnone) as (vd & Hdp & _);
    [simpl; tauto|].
  unfold getitem, get, get_or. rewrite He, Hn, Hb, Hdp. cbn [bind].
  rewrite Hv. cbn [bind negb py_lower].
  rewrite (any_email_spec _ _ Hstr). cbn [bind].
  now destruct (existsb _ alumni).
Qed.

(** X11.  On an alumni collection whose emails are strings, a create
    with all required fields and a well-formed email is answered 409,
    leaving the collection as it was, exactly when a stored record has
    the same email, letter case apart; otherwise it is answered 201
    and the email is stored in lower case. *)
Theorem alumni_create_unique_email :
  forall (t u e : string) (d : dict) (alumni : list dict),
    emails_str alumni ->
    Forall (fun f => truthy (get f d) = true)
      ["name"; "email"; "batch"; "department"] ->
    dict_get "email" d = Some (JStr e) ->
    validate_email (JStr e) = Ok true ->
    let out := alumni_create t u (JObj d) alumni in
    ((exists a, In a alumni /\ lower (email_of a) = lower e) ->
     out = (alumni, error "Alumni with this email already exists" 409)) /\
    ((forall a, In a alumni -> lower (email_of a) <> lower e) ->
     status (snd out) = 201 /\
     exists rec,
       fst out = (alumni ++ [rec])%list /\
       dict_get "email" rec = Some (JStr (lower e)) /\
       dict_get "id" rec = Some (JInt (next_id alumni))).
Proof.
  intros t u e d alumni Hstr Hreq He Hv out. subst out.
  rewrite (alumni_create_outcome t u e d alumni Hstr Hreq He Hv).
  destruct (existsb (fun a => String.eqb (email_key a) (lower e)) alumni)
    eqn:Ex.
  - split; [reflexivity|]. intros Hno. exfalso.
    apply existsb_exists in Ex. destruct Ex as (a & Hin & E).
    apply String.eqb_eq in E. now apply (Hno a Hin).
  - split.
    + intros (a & Hin & E). exfalso.
      assert (existsb (fun a => String.eqb (email_key a) (lower e)) alumni
              = true); [|congruence].
      apply existsb_exists. exists a. split; [exact Hin|].
      now apply String.eqb_eq.
    + intros _. split; [reflexivity|].
      eexists. split; [reflexivity|]. split; reflexivity.
Qed.

Lemma alumni_create_unique_email_witness :
  alumni_create "t" "u" (alumni_body "B2" "B@X.com") alumni3 =
  (alumni3, error "Alumni with this email already exists" 409).
Proof.
  assert (Hstr : emails_str alumni3).
  { repeat (constructor; [eexists; reflexivity|]). constructor. }
  assert (Hreq : Forall
            (fun f => truthy (get f [("name", JStr "B2");
                                     ("email", JStr "B@X.com");
                                     ("batch", JInt 2020);
                                     ("department", JStr "Computer")]) = true)
            ["name"; "email"; "batch"; "department"]).
  { repeat constructor. }
  destruct (alumni_create_unique_email "t" "u" "B@X.com" _ alumni3 Hstr Hreq
              eq_refl eq_refl) as [H _].
  apply H. exists (nth 1 alumni3 []). split; [|reflexivity].
  right; left; reflexivity.
Defined.

Lemma NoDup_map_remove_nth {B : Type} (f : dict -> B) (i : nat)
    (l : list dict) :
  NoDup (map f l) -> NoDup (map f (remove_nth i l)).
Proof.
  revert i. induction l as [|y l IH]; intros [|i] H; simpl in *; auto.
  - now inversion H.
  - inversion H as [|? ? Hn Hl]; subst. constructor; [|now apply IH].
    intros Hin. apply Hn. clear - Hin. revert i Hin.
    induction l as [|z l IHl]; intros [|i] Hin; simpl in *; auto.
    destruct Hin as [E|Hin]; [now left|right; now apply (IHl i)].
Qed.

Lemma alumni_create_cases (t u : string) (data : JSON)
    (alumni : list dict) :
  fst (alumni_create t u data alumni) = alumni \/
  exists rec lowered,
    fst (alumni_create t u data alumni) = (alumni ++ [rec])%list /\
    dict_get "email" rec = Some (JStr lowered) /\
    lower lowered = lowered /\
    any_email lowered alumni = Ok false.
Proof.
  destruct (alumni_create t u data alumni) as [coll' resp] eqn:H.
  unfold alumni_create in H.
  crush_hyp H; inversion H; subst; try (now left).
  right.
  match goal with
  | Hl : py_lower ?j = Ok ?a |- _ =>
      destruct j; try discriminate Hl; inversion Hl; subst
  end.
  eexists _, _. split; [reflexivity|]. split; [reflexivity|].
  split; [apply lower_idem|assumption].
Qed.

Lemma other_with_email_none (email : string) (id : Z) (l : list dict) :
  other_with_email email id l = Ok None ->
  forall a, In a l -> email_key a = email ->
  exists x, dict_get "id" a = Some x /\ py_eq x (JInt id) = true.
Proof.
  induction l as [|b r IH]; simpl; intros H a Hin Ha; [contradiction|].
  unfold getitem, bind in H.
  destruct (dict_get "email" b) as [e|] eqn:Eb; [|discriminate].
  destruct (py_lower e) as [s|] eqn:El; [|discriminate].
  destruct (String.eqb_spec s email) as [->|Hne].
  - destruct (dict_get "id" b) as [x|] eqn:Ei; [|discriminate].
    destruct (py_eq x (JInt id)) eqn:Ex; simpl in H; [|discriminate].
    destruct Hin as [<-|Hin]; [now exists x|now apply IH].
  - destruct Hin as [<-|Hin]; [|now apply IH].
    exfalso. apply Hne. unfold email_key, email_of in Ha. rewrite Eb in Ha.
    destruct e; try discriminate El. now inversion El.
Qed.

Lemma other_with_email_found (email : string) (id : Z) (l : list dict)
    (a : dict) :
  other_with_email email id l = Ok (Some a) -> truthy (JObj a) = true.
Proof.
  induction l as [|b r IH]; simpl; intros H; [discriminate|].
  unfold getitem, bind in H.
  destruct (dict_get "email" b) as [e|] eqn:Eb; [|discriminate].
  destruct (py_lower e) as [s|]; [|discriminate].
  destruct (String.eqb s email); [|now apply IH].
  destruct (dict_get "id" b) as [x|]; [|discriminate].
  destruct (negb (py_eq x (JInt id))); [|now apply IH].
  inversion H; subst. now apply (dict_get_some_truthy "email" e).
Qed.

(** What a PUT on alumni that changes the store has checked. *)
Lemma alumni_put_cases (id : Z) (now : string) (items : dict)
    (alumni : list dict) :
  fst (alumni_detail PUT id now (JObj items) alumni) = alumni \/
  exists i rec,
    lookup_by "id" (JInt id) alumni = Ok (Some (i, rec)) /\
    fst (alumni_detail PUT id now (JObj items) alumni) =
    set_nth i
      (dict_set "updated_at" (JStr now) (update_fields ["id"] items rec))
      alumni /\
    (dict_get "email" items = None \/
     exists e,
       dict_get "email" items = Some (JStr e) /\
       other_with_email (lower e) id alumni = Ok None).
Proof.
  unfold alumni_detail, detail, catch, bind.
  destruct (lookup_by "id" (JInt id) alumni) as [[[i rec]|]|e] eqn:Hl;
    try (now left).
  destruct (negb (truthy (JObj rec))); [now left|].
  destruct (negb (truthy (JObj items))); [now left|].
  cbn [check_update Alumni]. unfold alumni_check_update.
  cbn [py_contains py_getitem bind]. unfold has_key, getitem.
  destruct (dict_get "email" items) as [v|] eqn:Ev.
  - cbn [bind]. destruct (validate_email v) as [ok|] eqn:Hv; [|now left].
    cbn [bind]. destruct ok; cbn [negb]; [|now left].
    destruct v; try discriminate Hv. cbn [py_lower bind].
    destruct (other_with_email (lower s) id alumni) as [[a|]|] eqn:Ho;
      cbn [bind found]; try (now left).
    + rewrite (other_with_email_found _ _ _ _ Ho). now left.
    + right. exists i, rec. split; [reflexivity|]. split; [reflexivity|].
      right. now exists s.
  - right. exists i, rec. split; [reflexivity|]. split; [reflexivity|].
    now left.
Qed.

Lemma map_set_nth_middle {B : Type} (f : dict -> B) (a b : list dict)
    (x y : dict) :
  map f (set_nth (List.length a) y (a ++ x :: b)) =
  (map f a ++ f y :: map f b)%list.
Proof. rewrite set_nth_middle, map_app. reflexivity. Qed.

Lemma lookup_by_split (key : string) (v : JSON) (l : list dict) (i : nat)
    (rec : dict) :
  lookup_by key v l = Ok (Some (i, rec)) ->
  exists a b, l = (a ++ rec :: b)%list /\ List.length a = i.
Proof.
  intros H. apply lookup_by_some in H. destruct H as (Hn & _).
  apply nth_error_split in Hn. destruct Hn as (a & b & -> & Hl).
  now exists a, b.
Qed.

(** X12.  Alumni emails stay strings, and stay pairwise distinct,
    letter case apart: a create and a DELETE keep both, a PUT keeps
    the emails strings, and it keeps them distinct when the ids of the
    collection are distinct integers. *)
Theorem alumni_emails_stay_distinct :
  forall (alumni : list dict),
    emails_str alumni ->
    distinct_emails alumni ->
    (forall t u data,
       emails_str (fst (alumni_create t u data alumni)) /\
       distinct_emails (fst (alumni_create t u data alumni))) /\
    (forall id now data,
       emails_str (fst (alumni_detail DELETE id now data alumni)) /\
       distinct_emails (fst (alumni_detail DELETE id now data alumni))) /\
    (forall id now items,
       NoDup (map fst items) ->
       emails_str (fst (alumni_detail PUT id now (JObj items) alumni)) /\
       (int_ids alumni -> distinct_ids alumni ->
        distinct_emails (fst (alumni_detail PUT id now (JObj items) alumni)))).
Proof.
  intros alumni Hstr Hdist. split; [|split].
  - intros t u data.
    destruct (alumni_create_cases t u data alumni)
      as [->|(rec & lowered & -> & He & Hl & Hany)]; [now split|].
    split.
    + apply Forall_app. split; [exact Hstr|].
      constructor; [now exists lowered|constructor].
    + unfold distinct_emails. rewrite map_app. simpl.
      apply NoDup_app; auto.
      * constructor; [intros []|constructor].
      * intros x Hx [<-|[]].
        unfold email_key at 1, email_of in Hx. rewrite He, Hl in Hx.
        apply email_key_in in Hx.
        rewrite (any_email_spec _ _ Hstr) in Hany. congruence.
  - intros id now data. unfold alumni_detail.
    destruct (detail_delete_store Alumni id now data alumni) as [->|[i ->]];
      [now split|].
    split; [now apply Forall_remove_nth|].
    now apply NoDup_map_remove_nth.
  - intros id now items Hnd.
    destruct (alumni_put_cases id now items alumni)
      as [->|(i & rec & Hl & -> & Hemail)]; [now split|].
    destruct (lookup_by_split _ _ _ _ _ Hl) as (a & b & -> & <-).
    pose proof (lookup_by_some _ _ _ _ _ Hl) as (_ & (x & Hx & Hpx) & _).
    set (rec' := dict_set "updated_at" (JStr now)
                   (update_fields ["id"] items rec)).
    assert (Hstr' : Forall (fun a => exists e, dict_get "email" a = Some (JStr e))
                      (a ++ rec :: b)) by exact Hstr.
    apply Forall_app in Hstr'. destruct Hstr' as [Hsa Hsb].
    inversion Hsb as [|? ? (e0 & He0) Hsb']; subst.
    assert (Hrec' : dict_get "email" rec' =
                    match dict_get "email" items with
                    | Some v => Some v
                    | None => dict_get "email" rec
                    end).
    { unfold rec'. rewrite dict_get_set_other by discriminate.
      destruct (dict_get "email" items) as [v|] eqn:Ev.
      - apply update_fields_present; auto.
        intros [E|[]]. discriminate.
      - now apply update_fields_absent. }
    split.
    + rewrite set_nth_middle. apply Forall_app. split; [exact Hsa|].
      constructor; [|exact Hsb'].
      rewrite Hrec'. destruct Hemail as [->|(e & -> & _)]; eauto.
    + intros Hint Hdid. unfold distinct_emails in *.
      rewrite map_set_nth_middle.
      rewrite map_app in Hdist. simpl in Hdist.
      pose proof (NoDup_remove_1 _ _ _ Hdist) as Hrest.
      pose proof (NoDup_remove_2 _ _ _ Hdist) as Hnotin.
      assert (Hnew : ~ In (email_key rec') (map email_key a ++ map email_key b)).
      { destruct Hemail as [Enone|(e & Esome & Hother)].
        - unfold email_key at 1, email_of. rewrite Hrec', Enone.
          exact Hnotin.
        - unfold email_key at 1, email_of. rewrite Hrec', Esome.
          intros Hin. rewrite <- map_app in Hin.
          apply in_map_iff in Hin. destruct Hin as (a0 & Ea0 & Hin0).
          assert (Hin1 : In a0 (a ++ rec :: b)).
          { apply in_app_or in Hin0. apply in_or_app.
            destruct Hin0; [now left|right; now right]. }
          destruct (other_with_email_none _ _ _ Hother a0 Hin1 Ea0)
            as (y & Hy & Hpy).
          assert (Hfree : id_free id (a ++ b)).
          { unfold int_ids in Hint.
            assert (Hi := Hint). rewrite Forall_forall in Hi.
            destruct (Hi rec) as (k & Hk);
              [apply in_or_app; right; now left|].
            rewrite Hk in Hx. inversion Hx; subst x.
            rewrite py_eq_int in Hpx. apply Z.eqb_eq in Hpx. subst k.
            now apply (distinct_id_free id a b rec). }
          unfold id_free in Hfree. rewrite Forall_forall in Hfree.
          destruct (Hfree a0 Hin0) as (k & Hk & Hne).
          rewrite Hk in Hy. inversion Hy; subst y.
          rewrite py_eq_int in Hpy. apply Z.eqb_eq in Hpy. contradiction. }
      clear - Hrest Hnew.
      induction (map email_key a) as [|z za IH]; simpl in *.
      * constructor; auto.
      * inversion Hrest as [|? ? Hz Hr]; subst. constructor.
        -- intros Hin. apply Hz. apply in_app_or in Hin. apply in_or_app.
           destruct Hin as [Hin|[E|Hin]]; auto.
           exfalso. apply Hnew. now left.
        -- apply IH; auto.
Qed.

Lemma alumni_emails_stay_distinct_witness :
  distinct_emails
    (fst (alumni_detail PUT 2 "t" (JObj [("email", JStr "New@x.com")])
            alumni3)).
Proof.
  assert (Hstr : emails_str alumni3).
  { repeat (constructor; [eexists; reflexivity|]). constructor. }
  assert (Hdist : distinct_emails alumni3).
  { repeat constructor; simpl; intros H;
      repeat (destruct H as [H|H]; [discriminate H|]); exact H. }
  destruct (alumni_emails_stay_distinct alumni3 Hstr Hdist) as (_ & _ & H).
  destruct (H 2 "t" [("email", JStr "New@x.com")]) as [_ Hd].
  { repeat constructor. intros []. }
  apply Hd.
  - repeat (constructor; [eexists; reflexivity|]). constructor.
  - apply consecutive_distinct. reflexivity.
Defined.

(** ** The messages list *)

Lemma filter_messages_spec (user_email message_type : string)
    (l : list dict) :
  messages_ok l ->
  filter_messages (lower user_email) message_type l =
  Ok (filter (message_selected user_email message_type) l).
Proof.
  induction 1 as [|m r ((s & Hs) & (rc & Hr) & _) _ IH]; simpl;
    [reflexivity|].
  unfold get_or, message_selected, str_field. rewrite Hs, Hr.
  cbn [py_lower bind]. rewrite IH.
  destruct (String.eqb (lower s) (lower user_email)); cbn [bind orb];
    reflexivity.
Qed.

Lemma messages_ok_timestamped (l : list dict) :
  messages_ok l -> timestamped l.
Proof. apply Forall_impl. intros m (_ & _ & H). exact H. Qed.

Lemma message_list_ok (user_email message_type : string)
    (messages : list dict) :
  lower user_email <> "" ->
  messages_ok messages ->
  exists l,
    message_list user_email message_type messages =
    (messages,
     jsonify [("messages", JList (map JObj l));
              ("total", JInt (Z.of_nat (List.length l)))] 200) /\
    Permutation
      (filter (message_selected user_email message_type) messages) l /\
    newest_first l.
Proof.
  intros Hne Hok. unfold message_list.
  assert (Ht : truthy (JStr (lower user_email)) = true).
  { simpl. now destruct (String.eqb_spec (lower user_email) ""). }
  rewrite Ht. cbn [negb].
  rewrite (filter_messages_spec _ _ _ Hok). cbn [bind].
  assert (Hts : timestamped
                  (filter (message_selected user_email message_type)
                     messages)).
  { apply timestamped_filter. now apply messages_ok_timestamped. }
  unfold sorted_desc_by at 1.
  destruct (keyed_total _ Hts) as (kl & Hk).
  pose proof (sorted_desc_by_spec
                (filter (message_selected user_email message_type) messages)
                (map snd (sort_desc kl))) as Hspec.
  unfold sorted_desc_by in Hspec. rewrite Hk in *. cbn [bind catch] in *.
  destruct (Hspec eq_refl) as [Hn Hp].
  exists (map snd (sort_desc kl)). repeat split; auto.
Qed.

(** X13.  The messages list.  Without a [user_email] it answers 400.
    On a store whose messages have strings as sender, recipient and
    timestamp, it answers 200 with exactly the messages whose sender or
    recipient is the user, letter case apart, and whose type is the one
    asked for when one is, newest first, and with their number as
    [total]; the store is left as it was. *)
Theorem message_list_selects_and_sorts :
  forall (user_email message_type : string) (messages : list dict),
    (lower user_email = "" ->
     message_list user_email message_type messages =
     (messages, error "user_email parameter is required" 400)) /\
    (lower user_email <> "" ->
     messages_ok messages ->
     exists l,
       message_list user_email message_type messages =
       (messages,
        jsonify [("messages", JList (map JObj l));
                 ("total", JInt (Z.of_nat (List.length l)))] 200) /\
       Permutation
         (filter (message_selected user_email message_type) messages) l /\
       newest_first l).
Proof.
  intros user_email message_type messages. split.
  - intros E. unfold message_list. rewrite E. reflexivity.
  - intros Hne Hok. unfold message_list.
    assert (Ht : truthy (JStr (lower user_email)) = true).
    { simpl. now destruct (String.eqb_spec (lower user_email) ""). }
    rewrite Ht. cbn [negb].
    rewrite (filter_messages_spec _ _ _ Hok). cbn [bind].
    assert (Hts : timestamped
                    (filter (message_selected user_email message_type)
                       messages)).
    { apply timestamped_filter. now apply messages_ok_timestamped. }
    unfold sorted_desc_by at 1.
    destruct (keyed_total _ Hts) as (kl & Hk).
    pose proof (sorted_desc_by_spec
                  (filter (message_selected user_email message_type) messages)
                  (map snd (sort_desc kl))) as Hspec.
    unfold sorted_desc_by in Hspec. rewrite Hk in *. cbn [bind catch] in *.
    destruct (Hspec eq_refl) as [Hn Hp].
    exists (map snd (sort_desc kl)). repeat split; auto.
Qed.

Lemma message_create_ok (t : string) (d : dict) (messages : list dict)
    (s r : string) :
  messages_ok messages ->
  dict_get "sender_email" d = Some (JStr s) ->
  dict_get "recipient_email" d = Some (JStr r) ->
  messages_ok (fst (message_create t (JObj d) messages)).
Proof.
  intros Hok Hs Hr.
  destruct (message_create t (JObj d) messages) as [coll' resp] eqn:H.
  unfold message_create in H.
  crush_hyp H; inversion H; subst; cbn [fst]; auto.
  apply Forall_app. split; [exact Hok|].
  constructor; [|constructor].
  injection Hs as ->. injection Hr as ->.
  unfold message_ok. cbn [dict_get String.eqb Ascii.eqb Bool.eqb].
  repeat split; eexists; reflexivity.
Qed.

(** X14.  A message sent is listed for both sides.  On a store whose
    messages have strings as sender, recipient and timestamp, a create
    with a non-empty content and non-empty strings as sender and
    recipient is answered 201, and the message then appears in the
    list of its sender and in the list of its recipient, whatever the
    letter case of the address the list is asked with. *)
Theorem message_sent_is_listed :
  forall (t s r s' r' : string) (d : dict) (messages : list dict),
    messages_ok messages ->
    dict_get "sender_email" d = Some (JStr s) -> s <> "" ->
    dict_get "recipient_email" d = Some (JStr r) -> r <> "" ->
    truthy (get "content" d) = true ->
    lower s' = lower s -> lower r' = lower r ->
    exists msg ls lr,
      message_create t (JObj d) messages =
      ((messages ++ [msg])%list,
       jsonify [("message", JStr "Message sent successfully");
                ("message_data", JObj msg)] 201) /\
      message_list s' "" (messages ++ [msg]) =
      ((messages ++ [msg])%list,
       jsonify [("messages", JList (map JObj ls));
                ("total", JInt (Z.of_nat (List.length ls)))] 200) /\
      In msg ls /\
      message_list r' "" (messages ++ [msg]) =
      ((messages ++ [msg])%list,
       jsonify [("messages", JList (map JObj lr));
                ("total", JInt (Z.of_nat (List.length lr)))] 200) /\
      In msg lr.
Proof.
  intros t s r s' r' d messages Hok Hs Hsn Hr Hrn Hc Els Elr.
  assert (Hreq : Forall (fun f => truthy (get f d) = true)
                   ["sender_email"; "recipient_email"; "content"]).
  { repeat constructor; auto; unfold get, get_or.
    - rewrite Hs. simpl. now destruct (String.eqb_spec s "").
    - rewrite Hr. simpl. now destruct (String.eqb_spec r ""). }
  destruct (message_create_succeeds t d messages Hreq)
    as (msg & Hcr & Hms & Hmr).
  pose proof (message_create_ok t d messages s r Hok Hs Hr) as Hok'.
  rewrite Hcr in Hok'. cbn [fst] in Hok'.
  rewrite Hs in Hms. rewrite Hr in Hmr.
  assert (Hsel_s : message_selected s' "" msg = true).
  { unfold message_selected, str_field. rewrite Hms, Els, String.eqb_refl.
    reflexivity. }
  assert (Hsel_r : message_selected r' "" msg = true).
  { unfold message_selected, str_field. rewrite Hmr, Elr, String.eqb_refl.
    rewrite orb_true_r. reflexivity. }
  assert (Ns : lower s' <> "").
  { rewrite Els. intros E. apply lower_nil in E. contradiction. }
  assert (Nr : lower r' <> "").
  { rewrite Elr. intros E. apply lower_nil in E. contradiction. }
  destruct (message_list_ok s' "" (messages ++ [msg]) Ns Hok')
    as (ls & Els' & Pls & _).
  destruct (message_list_ok r' "" (messages ++ [msg]) Nr Hok')
    as (lr & Elr' & Plr & _).
  exists msg, ls, lr. split; [exact Hcr|]. split; [exact Els'|].
  split; [|split; [exact Elr'|]].
  - apply (Permutation_in _ Pls). apply filter_In. split; [|exact Hsel_s].
    apply in_or_app. right. now left.
  - apply (Permutation_in _ Plr). apply filter_In. split; [|exact Hsel_r].
    apply in_or_app. right. now left.
Qed.

Lemma filter_messages_bad_sender (user_email message_type : string)
    (l : list dict) (m : dict) :
  In m l ->
  (forall s, get_or "sender_email" (JStr "") m <> JStr s) ->
  exists e, filter_messages user_email message_type l = Raise e.
Proof.
  intros Hin Hbad. induction l as [|x r IH]; [contradiction|].
  simpl. destruct Hin as [->|Hin].
  - destruct (get_or "sender_email" (JStr "") m) eqn:E;
      try (eexists; reflexivity).
    exfalso. now apply (Hbad s).
  - destruct (IH Hin) as (e & He). unfold bind. rewrite He.
    destruct (py_lower (get_or "sender_email" (JStr "") x));
      [|eexists; reflexivity].
    destruct (if String.eqb a user_email then Ok true
              else match py_lower (get_or "recipient_email" (JStr "") x) with
                   | Ok a0 => Ok (String.eqb a0 user_email)
                   | Raise e0 => Raise e0
                   end); eexists; reflexivity.
Qed.

(** X15.  One stored message whose sender is not a string makes the
    messages list fail for every user: the answer is 500, whoever
    asks.  A create stores such a message, since it only asks for the
    sender to be truthy. *)
Theorem message_with_bad_sender_breaks_list :
  forall (user_email message_type : string) (messages : list dict) (m : dict),
    lower user_email <> "" ->
    In m messages ->
    (forall s, get_or "sender_email" (JStr "") m <> JStr s) ->
    status (snd (message_list user_email message_type messages)) = 500 /\
    fst (message_list user_email message_type messages) = messages.
Proof.
  intros user_email message_type messages m Hne Hin Hbad.
  unfold message_list.
  assert (Ht : truthy (JStr (lower user_email)) = true).
  { simpl. now destruct (String.eqb_spec (lower user_email) ""). }
  rewrite Ht. cbn [negb].
  destruct (filter_messages_bad_sender (lower user_email) message_type
              messages m Hin Hbad) as (e & ->).
  split; reflexivity.
Qed.

Lemma message_with_bad_sender_breaks_list_witness :
  let messages :=
    fst (message_create "t"
           (JObj [("sender_email", JInt 5);
                  ("recipient_email", JStr "b@x.com");
                  ("content", JStr "hi")]) []) in
  List.length messages = 1%nat /\
  status (snd (message_list "b@x.com" "" messages)) = 500.
Proof.
  intros messages. split; [reflexivity|].
  apply (message_with_bad_sender_breaks_list "b@x.com" "" messages
           (nth 0 messages [])).
  - discriminate.
  - now left.
  - intros s. discriminate.
Defined.

Lemma message_sent_is_listed_witness :
  exists msg ls,
    fst (message_create "t" (JObj [("sender_email", JStr "Ann@x.com");
                                   ("recipient_email", JStr "bob@x.com");
                                   ("content", JStr "hi")]) []) = [msg] /\
    snd (message_list "ANN@X.COM" "" [msg]) =
    jsonify [("messages", JList (map JObj ls));
             ("total", JInt (Z.of_nat (List.length ls)))] 200 /\
    In msg ls.
Proof.
  destruct (message_sent_is_listed "t" "Ann@x.com" "bob@x.com" "ANN@X.COM"
              "BOB@x.com"
              [("sender_email", JStr "Ann@x.com");
               ("recipient_email", JStr "bob@x.com");
               ("content", JStr "hi")] [])
    as (msg & ls & lr & Hc & Hl & Hin & _); try reflexivity;
    try discriminate; try constructor.
  exists msg, ls. rewrite Hc. simpl app in Hl. rewrite Hl.
  repeat split; auto.
Defined.

Lemma message_list_selects_and_sorts_witness :
  let messages :=
    fst (message_create "t2" (JObj [("sender_email", JStr "bob@x.com");
                                    ("recipient_email", JStr "ann@x.com");
                                    ("content", JStr "re")])
           (fst (message_create "t1"
                   (JObj [("sender_email", JStr "Ann@x.com");
                          ("recipient_email", JStr "bob@x.com");
                          ("content", JStr "hi")]) []))) in
  exists l,
    snd (message_list "ANN@x.com" "" messages) =
    jsonify [("messages", JList (map JObj l));
             ("total", JInt (Z.of_nat (List.length l)))] 200 /\
    newest_first l.
Proof.
  intros messages.
  destruct (message_list_selects_and_sorts "ANN@x.com" "" messages)
    as [_ H].
  destruct H as (l & Hl & _ & Hn).
  - discriminate.
  - repeat (constructor;
            [repeat split; eexists; reflexivity|]). constructor.
  - exists l. rewrite Hl. split; [reflexivity|exact Hn].
Defined.

(** ** Equal timestamps keep the order of the store *)

Lemma insert_desc_stable (k : string) (x : string * dict)
    (l : list (string * dict)) :
  filter (fun y => String.eqb (fst y) k) (insert_desc x l) =
  filter (fun y => String.eqb (fst y) k) (x :: l).
Proof.
  induction l as [|y r IH]; [reflexivity|].
  cbn [insert_desc]. destruct (str_ltb (fst x) (fst y)) eqn:E;
    [|reflexivity].
  cbn [filter] in *. rewrite IH.
  destruct (String.eqb_spec (fst x) k) as [Ex|Ex];
    destruct (String.eqb_spec (fst y) k) as [Ey|Ey]; try reflexivity.
  rewrite Ex, Ey, str_ltb_irrefl in E. discriminate.
Qed.

Lemma sort_desc_stable (k : string) (l : list (string * dict)) :
  filter (fun y => String.eqb (fst y) k) (sort_desc l) =
  filter (fun y => String.eqb (fst y) k) l.
Proof.
  induction l as [|x r IH]; [reflexivity|].
  cbn [sort_desc]. rewrite insert_desc_stable. cbn [filter].
  now rewrite IH.
Qed.

Lemma filter_map_snd (P : dict -> bool) (l : list (string * dict)) :
  filter P (map snd l) = map snd (filter (fun x => P (snd x)) l).
Proof.
  induction l as [|x r IH]; simpl; [reflexivity|].
  destruct (P (snd x)); simpl; now rewrite IH.
Qed.

Lemma sorted_desc_by_stable (l sorted : list dict) (t : string) :
  sorted_desc_by "created_at" l = Ok sorted ->
  filter (fun p => String.eqb (created_at p) t) sorted =
  filter (fun p => String.eqb (created_at p) t) l.
Proof.
  unfold sorted_desc_by, bind.
  destruct (keyed "created_at" l) as [kl|] eqn:Ek; [|discriminate].
  intros H. injection H as <-.
  destruct (keyed_spec _ _ _ Ek) as [Hm Hf].
  assert (Hext : forall L,
            Forall (fun sx => dict_get "created_at" (snd sx) =
                              Some (JStr (fst sx))) L ->
            filter (fun x => String.eqb (created_at (snd x)) t) L =
            filter (fun x => String.eqb (fst x) t) L).
  { intros L HL. apply filter_ext_in. intros x Hx.
    rewrite Forall_forall in HL. unfold created_at.
    now rewrite (HL x Hx). }
  rewrite <- Hm. rewrite !filter_map_snd.
  rewrite Hext by (apply (Permutation_Forall (sort_desc_perm kl)); exact Hf).
  rewrite (Hext kl Hf). now rewrite sort_desc_stable.
Qed.

Lemma post_list_sorted (post_type author : string) (posts posts' : list dict)
    (resp : Response) :
  post_list post_type author posts = (posts', resp) ->
  status resp = 200 ->
  exists l,
    resp =
    jsonify [("posts", JList (map JObj l));
             ("total", JInt (Z.of_nat (List.length l)))] 200 /\
    sorted_desc_by "created_at"
      (filter (post_selected post_type author) posts) = Ok l.
Proof.
  intros H Hs. unfold post_list, catch in H.
  set (by_type :=
         if truthy (JStr post_type)
         then filter
                (fun p => py_eq (get_or "post_type" (JStr "") p) (JStr post_type))
                posts
         else posts) in H.
  unfold bind in H.
  destruct (if truthy (JStr (lower author))
            then filter_author (lower author) by_type
            else Ok by_type) as [by_author|] eqn:Ea;
    [|inversion H; subst; discriminate].
  destruct (sorted_desc_by "created_at" by_author) as [l|] eqn:El;
    [|inversion H; subst; discriminate].
  inversion H; subst posts' resp. clear H Hs.
  exists l. split; [reflexivity|].
  assert (E : by_author = filter (post_selected post_type author) posts);
    [|now rewrite <- E].
  unfold post_selected. subst by_type.
  destruct (truthy (JStr post_type)) eqn:Tt;
    destruct (truthy (JStr (lower author))) eqn:Ta;
    cbn [negb orb andb];
    try (apply filter_author_spec in Ea; rewrite Ea);
    try (injection Ea as <-).
  - apply filter_filter_and.
  - apply filter_ext. intros p. now rewrite andb_true_r.
  - reflexivity.
  - symmetry. apply filter_all.
Qed.

(** X16.  Posts and messages that carry the same timestamp are listed
    in the order in which the store holds them, which is the order of
    their creation: for every timestamp, the listed records with that
    timestamp are the selected records with that timestamp, in the same
    order. *)
Theorem equal_timestamps_keep_store_order :
  forall (t : string),
    (forall post_type author posts l n,
       snd (post_list post_type author posts) =
       jsonify [("posts", JList (map JObj l)); ("total", n)] 200 ->
       filter (fun p => String.eqb (created_at p) t) l =
       filter (fun p => String.eqb (created_at p) t)
         (filter (post_selected post_type author) posts)) /\
    (forall user_email message_type messages l n,
       messages_ok messages ->
       snd (message_list user_email message_type messages) =
       jsonify [("messages", JList (map JObj l)); ("total", n)] 200 ->
       filter (fun p => String.eqb (created_at p) t) l =
       filter (fun p => String.eqb (created_at p) t)
         (filter (message_selected user_email message_type) messages)).
Proof.
  intros t. split.
  - intros post_type author posts l n Hr.
    destruct (post_list post_type author posts) as [posts' resp] eqn:H.
    cbn [snd] in Hr.
    assert (Hs : status resp = 200) by now rewrite Hr.
    destruct (post_list_sorted _ _ _ _ _ H Hs) as (l' & Hr' & Hsort).
    rewrite Hr' in Hr. inversion Hr as [[Hl Hn]].
    assert (l' = l).
    { clear - Hl. revert l Hl. induction l' as [|x l' IH]; intros [|y l] Hl;
        simpl in Hl; try discriminate; [reflexivity|].
      inversion Hl; subst. f_equal. now apply IH. }
    subst l'. now apply sorted_desc_by_stable.
  - intros user_email message_type messages l n Hok Hr.
    unfold message_list in Hr.
    destruct (negb (truthy (JStr (lower user_email)))); [discriminate|].
    rewrite (filter_messages_spec _ _ _ Hok) in Hr. cbn [bind catch] in Hr.
    destruct (sorted_desc_by "created_at"
                (filter (message_selected user_email message_type) messages))
      as [l'|] eqn:Hsort; [|discriminate].
    cbn [snd] in Hr. inversion Hr as [[Hl Hn]].
    assert (l' = l).
    { clear - Hl. revert l Hl. induction l' as [|x l' IH]; intros [|y l] Hl;
        simpl in Hl; try discriminate; [reflexivity|].
      inversion Hl; subst. f_equal. now apply IH. }
    subst l'. now apply sorted_desc_by_stable.
Qed.

Lemma equal_timestamps_keep_store_order_witness :
  let posts :=
    fst (post_create "t" "u" (post_body "Second")
           (fst (post_create "t" "u" (post_body "First") []))) in
  exists l,
    snd (post_list "" "" posts) =
    jsonify [("posts", JList (map JObj l)); ("total", JInt 2)] 200 /\
    filter (fun p => String.eqb (created_at p) "t") l = posts.
Proof.
  intros posts. exists posts. split; [reflexivity|].
  destruct (equal_timestamps_keep_store_order "t") as [H _].
  rewrite (H "" "" posts posts (JInt 2) eq_refl). reflexivity.
Defined.

(** ** The lists of events and jobs *)

Lemma filter_app_last {A : Type} (f : A -> bool) (l : list A) (x : A) :
  f x = true -> filter f (l ++ [x]) = (filter f l ++ [x])%list.
Proof. intros H. rewrite filter_app. simpl. now rewrite H. Qed.

(** X17.  An event or a job just created is listed.  After a create
    with all required fields, the list without filters returns the
    whole collection in the order of the store, the new record last,
    with a total that is one more than before; the list of the events
    with status "upcoming", or of the jobs of the type the new job has,
    ends with the new record as well.  Without a location or company
    filter the jobs list never fails. *)
Theorem created_event_and_job_are_listed :
  forall (t u : string) (d : dict) (coll : list dict),
    (Forall (fun f => truthy (get f d) = true)
       ["title"; "description"; "date"; "location"] ->
     exists rec,
       fst (event_create t u (JObj d) coll) = (coll ++ [rec])%list /\
       event_list "" "" (coll ++ [rec]) =
       ((coll ++ [rec])%list,
        jsonify [("events", JList (map JObj (coll ++ [rec])));
                 ("total", JInt (Z.of_nat (List.length coll) + 1))] 200) /\
       exists l,
         event_list "" "upcoming" (coll ++ [rec]) =
         ((coll ++ [rec])%list,
          jsonify [("events", JList (map JObj (l ++ [rec])));
                   ("total", JInt (Z.of_nat (List.length l) + 1))] 200)) /\
    (Forall (fun f => truthy (get f d) = true)
       ["title"; "company"; "description"; "location"] ->
     exists rec,
       fst (job_create t u (JObj d) coll) = (coll ++ [rec])%list /\
       job_list "" "" "" (coll ++ [rec]) =
       ((coll ++ [rec])%list,
        jsonify [("jobs", JList (map JObj (coll ++ [rec])));
                 ("total", JInt (Z.of_nat (List.length coll) + 1))] 200)) /\
    (forall job_type,
       status (snd (job_list job_type "" "" coll)) = 200 /\
       fst (job_list job_type "" "" coll) = coll).
Proof.
  intros t u d coll. split; [|split].
  - intros Hreq.
    destruct (event_create_succeeds t u d coll Hreq) as (rec & Hc & Hst).
    exists rec. rewrite Hc. split; [reflexivity|]. split.
    + unfold event_list. cbn [truthy String.eqb negb].
      rewrite length_app. cbn [List.length].
      rewrite Nat2Z.inj_add. reflexivity.
    + exists (filter
                (fun e => py_eq (get_or "status" (JStr "") e) (JStr "upcoming"))
                coll).
      unfold event_list. cbn [truthy String.eqb Ascii.eqb Bool.eqb negb].
      rewrite filter_app_last
        by (unfold get_or; rewrite Hst; reflexivity).
      rewrite length_app. cbn [List.length].
      rewrite Nat2Z.inj_add. reflexivity.
  - intros Hreq.
    destruct (job_create_succeeds t u d coll Hreq) as (rec & Hc & _).
    exists rec. rewrite Hc. split; [reflexivity|].
    unfold job_list. cbn [lower truthy String.eqb negb bind catch].
    rewrite length_app. cbn [List.length].
    rewrite Nat2Z.inj_add. reflexivity.
  - intros job_type. unfold job_list.
    cbn [lower truthy String.eqb negb bind catch]. split; reflexivity.
Qed.

Lemma created_event_and_job_are_listed_witness :
  exists rec,
    fst (event_create "t" "u" (event_body "E4") events3) =
    (events3 ++ [rec])%list /\
    status (snd (event_list "" "" (events3 ++ [rec]))) = 200.
Proof.
  destruct (created_event_and_job_are_listed "t" "u"
              [("title", JStr "E4"); ("description", JStr "Annual meet");
               ("date", JStr "2024-12-01"); ("location", JStr "Campus")]
              events3) as (H & _).
  destruct H as (rec & Hc & Hl & _); [repeat constructor|].
  exists rec. split; [exact Hc|]. now rewrite Hl.
Defined.

(** ** Login *)

Lemma lookup_email_absent (e : string) (users : list dict) :
  users_ok users ->
  (forall u, In u users -> email_of u <> e) ->
  lookup_by "email" (JStr e) users = Ok None.
Proof.
  intros Hok. induction Hok as [|u r (id & em & p & n & _ & He & _) _ IH];
    intros Hno; simpl; [reflexivity|].
  unfold getitem. rewrite He. cbn [bind py_eq].
  destruct (String.eqb_spec em e) as [E|E].
  - exfalso. apply (Hno u); [now left|].
    unfold email_of. now rewrite He.
  - rewrite IH; [reflexivity|]. intros v Hv. apply Hno. now right.
Qed.

Lemma lookup_email_first (e : string) (a b : list dict) (u : dict) :
  users_ok a ->
  (forall v, In v a -> email_of v <> e) ->
  dict_get "email" u = Some (JStr e) ->
  lookup_by "email" (JStr e) (a ++ u :: b) = Ok (Some (List.length a, u)).
Proof.
  intros Hok Hno Hu.
  change (a ++ u :: b)%list with (a ++ [u] ++ b)%list.
  rewrite app_assoc. apply lookup_by_app_some.
  apply lookup_by_app_none with (x := JStr e); auto.
  - now apply lookup_email_absent.
  - apply String.eqb_refl.
Qed.

(** X18.  Login on a well-formed user store, with a non-empty email
    and password, both strings.  When no user has the email, letter
    case apart, the answer is 401.  Otherwise the first user with that
    email decides: the answer is 200 for that user when the stored
    password is the string supplied, and 401 when it is another
    string.  Both refusals carry the same body, and no login changes
    the store. *)
Theorem login_checks_first_user_with_email :
  forall (jwt_encode : dict -> string) (utcnow : Z) (d : dict)
         (e p : string),
    dict_get "email" d = Some (JStr e) -> e <> "" ->
    dict_get "password" d = Some (JStr p) -> p <> "" ->
    (forall users,
       users_ok users ->
       (forall u, In u users -> email_of u <> lower e) ->
       login jwt_encode utcnow (JObj d) users =
       (users, error "Invalid email or password" 401)) /\
    (forall a b u q uid,
       users_ok a ->
       (forall v, In v a -> email_of v <> lower e) ->
       dict_get "email" u = Some (JStr (lower e)) ->
       dict_get "password" u = Some (JStr q) ->
       dict_get "id" u = Some uid ->
       login jwt_encode utcnow (JObj d) (a ++ u :: b) =
       if String.eqb q p then
         ((a ++ u :: b)%list,
          jsonify
            [("message", JStr "Login successful");
             ("user", JObj (without_key "password" u));
             ("token",
               JStr (issue_token jwt_encode utcnow uid (JStr (lower e))))]
            200)
       else ((a ++ u :: b)%list, error "Invalid email or password" 401)).
Proof.
  intros jwt_encode utcnow d e p He Hen Hp Hpn.
  assert (Td : truthy (JObj d) = true)
    by (destruct d; [discriminate|reflexivity]).
  assert (Te : truthy (JStr (lower e)) = true).
  { simpl. destruct (String.eqb_spec (lower e) "") as [E|E]; [|reflexivity].
    apply lower_nil in E. contradiction. }
  assert (Tp : truthy (JStr p) = true).
  { simpl. now destruct (String.eqb_spec p ""). }
  split.
  - intros users Hok Hno. unfold login, catch.
    rewrite Td. cbn [negb as_dict bind]. unfold get_or. rewrite He, Hp.
    cbn [py_lower bind]. rewrite Te, Tp. cbn [negb orb].
    unfold find_user_by_email.
    now rewrite (lookup_email_absent _ _ Hok Hno).
  - intros a b u q uid Hok Hno Hue Hup Hui. unfold login, catch.
    rewrite Td. cbn [negb as_dict bind]. unfold get_or. rewrite He, Hp.
    cbn [py_lower bind]. rewrite Te, Tp. cbn [negb orb].
    unfold find_user_by_email.
    rewrite (lookup_email_first _ a b u Hok Hno Hue).
    cbn [bind option_map snd].
    rewrite (dict_get_some_truthy _ _ _ Hue). cbn [negb].
    unfold getitem. rewrite Hup, Hui, Hue. cbn [bind py_eq].
    now destruct (String.eqb q p).
Qed.

Lemma login_checks_first_user_with_email_witness :
  let users :=
    fst (register sample_jwt "t" 0
           (register_body "Ann@X.com" "secret1" "Ann") []) in
  login sample_jwt 0 (login_body "ann@x.com" "wrong-password") users =
  (users, error "Invalid email or password" 401) /\
  login sample_jwt 0 (login_body "bob@x.com" "secret1") users =
  (users, error "Invalid email or password" 401).
Proof.
  intros users.
  assert (N1 : "ann@x.com" <> "") by discriminate.
  assert (N2 : "wrong-password" <> "") by discriminate.
  assert (N3 : "bob@x.com" <> "") by discriminate.
  assert (N4 : "secret1" <> "") by discriminate.
  split.
  - pose proof (login_checks_first_user_with_email sample_jwt 0
                  [("email", JStr "ann@x.com");
                   ("password", JStr "wrong-password")]
                  "ann@x.com" "wrong-password" eq_refl N1 eq_refl N2)
      as [_ H].
    apply (H [] [] (nth 0 users []) "secret1" (JInt 1));
      try reflexivity; [constructor|intros v []].
  - pose proof (login_checks_first_user_with_email sample_jwt 0
                  [("email", JStr "bob@x.com"); ("password", JStr "secret1")]
                  "bob@x.com" "secret1" eq_refl N3 eq_refl N4) as [H _].
    apply H.
    + apply register_users_ok. constructor.
    + intros u [<-|[]]. discriminate.
Defined.
